(** * Receipt ingestion and ledger synchronisation: a shallow embedding

    The development follows the Python sources function by function:
    - [azure_functions.py]: the rate limiter, the blob pipeline
      ([process_receipt_blob] and its helpers), field extraction, the ledger
      synchronisation ([process_to_xero], contact resolution, bill creation)
      and the auto-pay sweep;
    - [email_processing_service.py]: the e-mail adapter
      ([EmailReceiptProcessor] and the HTTP entry point).

    Python [float]s are Rocq's primitive binary64 floats, so arithmetic on
    amounts is the interpreter's own.  Wall-clock time is a rational number of
    seconds.  Services outside the repository (record store, blob store,
    document analysis, ledger API) are modelled by a world state together with
    an oracle deciding which external calls fail. *)

From Stdlib Require Import ZArith QArith Qround Lia Lqa Bool List String Ascii.
From Stdlib Require Import Floats Uint63 DecimalString.
Import ListNotations.

Set Warnings "-inexact-float".

#[local] Open Scope string_scope.
#[local] Open Scope list_scope.

(* ================================================================== *)
(** * Python values *)
(* ================================================================== *)

Module Py.

(** A Python number as the sources produce them: the literals [0] and [1] are
    [int]s, everything read from the analysis service is a [float]. *)
Inductive number : Type :=
| PyInt (z : Z)
| PyFloat (f : float).

(** [x > 0] on a number. Comparisons with NaN are [False]. *)
Definition gt0 (x : number) : bool :=
  match x with
  | PyInt z => (0 <? z)%Z
  | PyFloat f => PrimFloat.ltb 0%float f
  end.

(** Truthiness of a [float]: every value but [0.0] and [-0.0]. *)
Definition truthy_float (f : float) : bool := negb (PrimFloat.eqb f 0%float).

(** Truthiness of a [str]: non-empty. *)
Definition truthy_str (s : string) : bool :=
  match s with EmptyString => false | String _ _ => true end.

(** [x or y] on optional objects that are truthy whenever present. *)
Definition or_else {A : Type} (x y : option A) : option A :=
  match x with Some _ => x | None => y end.

(** Exact value of a finite float as a fraction [(numerator, denominator)],
    with the sign kept apart. *)
Definition decompose (x : float) : option (bool * Z * Z) :=
  match Prim2SF x with
  | S754_finite s m e =>
      if (0 <=? e)%Z then Some (s, (Z.pos m * 2 ^ e)%Z, 1%Z)
      else Some (s, Z.pos m, (2 ^ (- e))%Z)
  | _ => None
  end.

(** Nearest integer to [n / d], ties to the even neighbour ([d > 0], [n >= 0]). *)
Definition div_half_even (n d : Z) : Z :=
  let q := (n / d)%Z in
  let r := (n mod d)%Z in
  match (2 * r ?= d)%Z with
  | Lt => q
  | Gt => (q + 1)%Z
  | Eq => if Z.even q then q else (q + 1)%Z
  end.

(** The builtin [round(x, 2)] on a float: the exact binary value is rounded to
    two decimals, ties to even, and the decimal is read back as the nearest
    float. Values with no fractional bits, zeros, infinities and NaN are
    returned unchanged. (For magnitudes below 2^53 / 100 the conversion of the
    scaled integer is exact.) *)
Definition round2 (x : float) : float :=
  match decompose x with
  | Some (s, n, d) =>
      if (d =? 1)%Z then x
      else
        let k := div_half_even (n * 100) d in
        let r := PrimFloat.div (PrimFloat.of_uint63 (Uint63.of_Z k)) 100%float in
        if s then PrimFloat.opp r else r
  | None => x
  end.

End Py.

(* ================================================================== *)
(** * String operations used by the sources *)
(* ================================================================== *)

(** Python [str] methods on ASCII text. *)
Module Str.

Definition upper_ascii (c : ascii) : ascii :=
  let n := nat_of_ascii c in
  if (97 <=? n)%nat && (n <=? 122)%nat then ascii_of_nat (n - 32) else c.

Definition lower_ascii (c : ascii) : ascii :=
  let n := nat_of_ascii c in
  if (65 <=? n)%nat && (n <=? 90)%nat then ascii_of_nat (n + 32) else c.

Fixpoint map_string (f : ascii -> ascii) (s : string) : string :=
  match s with
  | EmptyString => EmptyString
  | String c r => String (f c) (map_string f r)
  end.

(** [s.upper()] and [s.lower()] *)
Definition upper (s : string) : string := map_string upper_ascii s.
Definition lower (s : string) : string := map_string lower_ascii s.

(** [s.startswith(p)] *)
Definition startswith (p s : string) : bool := String.prefix p s.

Fixpoint rev_string (s : string) : string :=
  match s with
  | EmptyString => EmptyString
  | String c r => rev_string r ++ String c EmptyString
  end.

(** [s.endswith(p)] *)
Definition endswith (p s : string) : bool :=
  String.prefix (rev_string p) (rev_string s).

(** [p in s] for strings: some suffix of [s] starts with [p]. *)
Fixpoint contains (p s : string) : bool :=
  String.prefix p s ||
  match s with
  | EmptyString => false
  | String _ r => contains p r
  end.

(** [s[:n]] *)
Definition take (n : nat) (s : string) : string := String.substring 0 n s.

(** [s.split(sep)[0]] for a one-character separator. *)
Fixpoint split_head (sep : ascii) (s : string) : string :=
  match s with
  | EmptyString => EmptyString
  | String c r => if Ascii.eqb c sep then EmptyString else String c (split_head sep r)
  end.

(** [s.split(sep)[1]] for a one-character separator; [None] is [IndexError]. *)
Fixpoint split_second (sep : ascii) (s : string) : option string :=
  match s with
  | EmptyString => None
  | String c r => if Ascii.eqb c sep then Some (split_head sep r) else split_second sep r
  end.

(** [s.replace(old, "")] for non-empty [old]: left-to-right, non-overlapping.
    [fuel] bounds the scan by the length of [s]. *)
Fixpoint remove_all_fuel (fuel : nat) (old s : string) : string :=
  match fuel with
  | O => s
  | S fuel' =>
      match s with
      | EmptyString => EmptyString
      | String c r =>
          if String.prefix old s
          then remove_all_fuel fuel'
                 old (String.substring (String.length old)
                                       (String.length s - String.length old) s)
          else String c (remove_all_fuel fuel' old r)
      end
  end.

Definition remove_all (old s : string) : string :=
  remove_all_fuel (String.length s) old s.

Definition is_space (c : ascii) : bool :=
  let n := nat_of_ascii c in
  ((9 <=? n)%nat && (n <=? 13)%nat) || (n =? 32)%nat.

Fixpoint lstrip (s : string) : string :=
  match s with
  | EmptyString => EmptyString
  | String c r => if is_space c then lstrip r else s
  end.

(** [s.strip()] *)
Definition strip (s : string) : string :=
  rev_string (lstrip (rev_string (lstrip s))).

(** [str(n)] for an integer. *)
Definition of_Z (z : Z) : string := NilZero.string_of_int (Z.to_int z).

(** [int(s)] on a decimal string; [None] is [ValueError]. *)
Definition to_Z (s : string) : option Z :=
  match NilZero.int_of_string s with
  | Some d => Some (Z.of_int d)
  | None => None
  end.

End Str.

(* ================================================================== *)
(** * The document-analysis result and its normalisation *)
(* ================================================================== *)

(** The part of [extract_receipt_data_from_blob] that follows the analysis
    call.  A field object carries the typed attributes it was recognised with;
    [hasattr(f, "value_x")] is the presence of the attribute. *)
Module Extraction.
Import Py.

Record DocumentField : Type := mkField {
  value_string : option string;
  value_date : option string;       (* already in ISO format *)
  value_currency : option float;    (* [value_currency.amount] *)
  value_number : option float
}.

(** [item.value_object]: the dictionary of one line item's fields. *)
Record ItemObject : Type := mkItemObject {
  Description : option DocumentField;
  Quantity : option DocumentField;
  TotalPrice : option DocumentField
}.

Record ItemField : Type := mkItemField {
  value_object : option ItemObject
}.

Record ItemsField : Type := mkItemsField {
  value_array : option (list ItemField)
}.

(** [result.documents[0].fields] *)
Record Fields : Type := mkFields {
  MerchantName : option DocumentField;
  VendorName : option DocumentField;
  TransactionDate : option DocumentField;
  Total : option DocumentField;
  Items : option ItemsField
}.

Record AnalyzeResult : Type := mkResult {
  documents : list Fields
}.

(** The dictionary [item_data] built for one line item. Keys that were never
    assigned are [None]. *)
Record ItemData : Type := mkItemData {
  description : option string;
  quantity : number;
  unit_amount : option float
}.

(** The dictionary returned by [extract_receipt_data_from_blob]. *)
Record ReceiptData : Type := mkReceiptData {
  merchant : string;
  date : string;
  total : float;
  tax : number;
  items : list ItemData;
  raw_result : AnalyzeResult
}.

Definition item_description (o : ItemObject) : option string :=
  match Description o with
  | Some desc => value_string desc
  | None => None
  end.

Definition item_quantity (o : ItemObject) : number :=
  match Quantity o with
  | Some qty =>
      match value_number qty with
      | Some n => PyFloat n
      | None => PyInt 1
      end
  | None => PyInt 1
  end.

Definition item_unit_amount (o : ItemObject) : option float :=
  match TotalPrice o with
  | Some price =>
      match value_currency price with
      | Some a => Some a
      | None => value_number price
      end
  | None => None
  end.

Definition build_item_data (o : ItemObject) : ItemData :=
  {| description := item_description o;
     quantity := item_quantity o;
     unit_amount := item_unit_amount o |}.

(** [item_data.get("description") and item_data.get("unit_amount")] *)
Definition keep_item (d : ItemData) : bool :=
  match description d, unit_amount d with
  | Some s, Some a => truthy_str s && truthy_float a
  | _, _ => false
  end.

(** The body of the loop over [items_field.value_array]. *)
Fixpoint collect_items (arr : list ItemField) : list ItemData :=
  match arr with
  | [] => []
  | item :: rest =>
      match value_object item with
      | Some o =>
          let item_data := build_item_data o in
          if keep_item item_data then item_data :: collect_items rest
          else collect_items rest
      | None => collect_items rest
      end
  end.

Definition extract_vendor (fields : Fields) : string :=
  match or_else (MerchantName fields) (VendorName fields) with
  | Some m =>
      match value_string m with
      | Some s => Str.strip s
      | None => "Unknown Vendor"
      end
  | None => "Unknown Vendor"
  end.

Definition extract_date (fields : Fields) : option string :=
  match TransactionDate fields with
  | Some d => value_date d
  | None => None
  end.

Definition extract_total (fields : Fields) : float :=
  match Total fields with
  | Some t =>
      match value_currency t with
      | Some a => a
      | None =>
          match value_number t with
          | Some n => n
          | None => 0%float
          end
      end
  | None => 0%float
  end.

Definition extract_items (fields : Fields) : list ItemData :=
  match Items fields with
  | Some f =>
      match value_array f with
      | Some arr => collect_items arr
      | None => []
      end
  | None => []
  end.

(** [tax_amount = total_amount * 0.1 if total_amount > 0 else 0] *)
Definition tax_of (total_amount : float) : number :=
  if PrimFloat.ltb 0%float total_amount
  then PyFloat (PrimFloat.mul total_amount 0.1%float)
  else PyInt 0.

(** Everything after [poller.result()]; [now_iso] is
    [datetime.utcnow().isoformat()]. *)
Definition normalize (now_iso : string) (result : AnalyzeResult) : ReceiptData :=
  let vendor :=
    match documents result with f :: _ => extract_vendor f | [] => "Unknown Vendor" end in
  let transaction_date :=
    match documents result with f :: _ => extract_date f | [] => None end in
  let total_amount :=
    match documents result with f :: _ => extract_total f | [] => 0%float end in
  let its :=
    match documents result with f :: _ => extract_items f | [] => [] end in
  {| merchant := vendor;
     date := match transaction_date with
             | Some d => if truthy_str d then d else now_iso
             | None => now_iso
             end;
     total := total_amount;
     tax := tax_of total_amount;
     items := its;
     raw_result := result |}.

(** The tax the specification asks for, in its own words:
    [round(t * 0.10, 2)] for a positive total and [0] otherwise. *)
Definition spec_tax (t : float) : number :=
  if PrimFloat.ltb 0%float t
  then PyFloat (round2 (PrimFloat.mul t 0.1%float))
  else PyInt 0.

(** A result with one document whose only field is a currency total. *)
Definition result_with_total (t : float) : AnalyzeResult :=
  {| documents :=
       [ {| MerchantName := None; VendorName := None; TransactionDate := None;
            Total := Some (mkField None None (Some t) None);
            Items := None |} ] |}.

(** A result with one document holding the given raw line items. *)
Definition result_with_items (arr : list ItemField) : AnalyzeResult :=
  {| documents :=
       [ {| MerchantName := None; VendorName := None; TransactionDate := None;
            Total := None;
            Items := Some (mkItemsField (Some arr)) |} ] |}.

Definition text_field (s : string) : DocumentField := mkField (Some s) None None None.
Definition currency_field (a : float) : DocumentField := mkField None None (Some a) None.

End Extraction.

(* ================================================================== *)
(** * The rate limiter *)
(* ================================================================== *)

Module RateLimiter.

#[local] Open Scope Q_scope.

(** [a < b] on rationals as a boolean. *)
Definition Qltb (a b : Q) : bool := negb (Qle_bool b a).

(** The attributes of [XeroRateLimiter]. *)
Record XeroRateLimiter : Type := mkLimiter {
  request_times : list Q;
  max_requests_per_minute : nat;
  last_rate_limit_time : option Q
}.

(** [XeroRateLimiter.__init__] *)
Definition init : XeroRateLimiter :=
  {| request_times := [];
     max_requests_per_minute := 50;
     last_rate_limit_time := None |}.

(** [[t for t in self.request_times if now - t < 60]] *)
Definition prune (now : Q) (times : list Q) : list Q :=
  filter (fun t => Qltb (now - t) 60) times.

(** [self.last_rate_limit_time and now - self.last_rate_limit_time < 120];
    a stored [0.0] is falsy like [None]. *)
Definition cooling_down (now : Q) (last : option Q) : bool :=
  match last with
  | Some l => negb (Qeq_bool l 0) && Qltb (now - l) 120
  | None => false
  end.

(** One call of [wait_if_needed]. [now] is the value [time.time()] returned at
    entry, [u1] the draw of [random.uniform(0.5, 1.5)] and [u2] the draw of
    [random.uniform(0.2, 0.5)]. The result is the limiter after the call and
    the total time slept; [None] is the [IndexError] of [request_times[0]] on
    an empty list. *)
Definition wait_if_needed (u1 u2 : Q) (now : Q) (self : XeroRateLimiter)
  : option (XeroRateLimiter * Q) :=
  let times := prune now (request_times self) in
  let finish (slept : Q) :=
    Some ({| request_times := (times ++ [now])%list;
             max_requests_per_minute := max_requests_per_minute self;
             last_rate_limit_time := last_rate_limit_time self |}, slept) in
  if cooling_down now (last_rate_limit_time self) then
    finish (2 + u1)
  else if (max_requests_per_minute self <=? List.length times)%nat then
    match times with
    | t0 :: _ =>
        let wait_time := 65 - (now - t0) in
        if Qltb 0 wait_time then finish wait_time else finish 0
    | [] => None
    end
  else
    finish u2.

(** A sequential caller: before each call some time [gap] passes (the work
    between two calls), and the call sleeps on the same clock. *)
Record Call : Type := mkCall {
  gap : Q;
  draw1 : Q;        (* [random.uniform(0.5, 1.5)] *)
  draw2 : Q         (* [random.uniform(0.2, 0.5)] *)
}.

Definition well_formed (c : Call) : Prop :=
  0 <= gap c /\ 0.5 <= draw1 c <= 1.5 /\ 0.2 <= draw2 c <= 0.5.

(** The limiter together with the wall clock. *)
Definition State : Type := (XeroRateLimiter * Q)%type.

Definition step (st : State) (c : Call) : option State :=
  let (self, clock) := st in
  let now := clock + gap c in
  match wait_if_needed (draw1 c) (draw2 c) now self with
  | Some (self', slept) => Some (self', now + slept)
  | None => None
  end.

Fixpoint run (calls : list Call) (st : State) : option State :=
  match calls with
  | [] => Some st
  | c :: rest =>
      match step st c with
      | Some st' => run rest st'
      | None => None
      end
  end.

(** Number of recorded timestamps in the 60-second window that ends at [T]. *)
Definition in_window (T : Q) (self : XeroRateLimiter) : nat :=
  List.length (prune T (request_times self)).

(** [n] calls in a row, each pacing itself with a sleep of half a second. *)
Definition burst (n : nat) : list Call := repeat (mkCall 0 1 0.5) n.

(** The state a sequential caller keeps the limiter in: no cool-down marker
    (nothing in the sources sets one), the ceiling of [__init__], and at most
    50 recorded timestamps in any 60-second window ending now or later. *)
Definition bounded (st : State) : Prop :=
  last_rate_limit_time (fst st) = None /\
  max_requests_per_minute (fst st) = 50%nat /\
  forall T, snd st <= T -> (in_window T (fst st) <= 50)%nat.

End RateLimiter.

(* ================================================================== *)
(** * The services outside the repository *)
(* ================================================================== *)

(** The record store, the blob store, the secret store, the ledger and the
    mail service, as one world state; exceptions; and the monad in which the
    Python functions are written. *)
Module Cloud.
Import Py.

(** ** Exceptions *)

Inductive exn : Type :=
| ServiceError                 (* an external call failed *)
| NotFound                     (* record or blob does not exist *)
| Conflict                     (* record id already exists *)
| KeyError (key : string)
| NameError (name : string)
| AttributeError
| IndexError
| ValueError
| PaymentFailed.               (* [Exception("Payment creation failed: ...")] *)

Inductive result (A : Type) : Type :=
| Ok (a : A)
| Raise (e : exn).
Arguments Ok {A} a.
Arguments Raise {A} e.

(** ** Records of the document database *)

Module TenantDoc.
Record t : Type := mk {
  id : string;
  tenantId : string;
  status : string;
  email : option string;                 (* key ["email"], absent on tenant records *)
  processingEnabled : bool;              (* [settings.processingEnabled] *)
  autoPayEnabled : bool;                 (* [settings.autoPayEnabled] *)
  bankAccountId : option string;         (* [settings.bankAccountId] *)
  authorizedSenders : list string;       (* [settings.authorizedSenders] *)
  receiptsProcessed : Z;                 (* [usage.receiptsProcessed] *)
  lastProcessing : option string         (* [usage.lastProcessing] *)
}.
End TenantDoc.

(** The keys only the e-mail adapter writes on a receipt record. *)
Record EmailInfo : Type := mkEmailInfo {
  originalFilename : string;
  senderEmail : string;
  emailSubject : string;
  fileSize : nat;
  contentType : string
}.

Module ReceiptDoc.
Record t : Type := mk {
  id : string;
  tenantId : string;
  filename : string;
  merchant : option string;
  date : option string;
  total : option float;
  tax : option number;
  items : list Extraction.ItemData;
  status : string;
  createdAt : string;
  processedAt : option string;
  xeroInvoiceId : option string;
  xeroStatus : option string;
  source : option EmailInfo              (* [Some] when ["source": "email"] *)
}.

(** [receipt["status"] = status; receipt["processedAt"] = now] *)
Definition with_status (s : string) (now : string) (r : t) : t :=
  mk (id r) (tenantId r) (filename r) (merchant r) (date r) (total r) (tax r)
     (items r) s (createdAt r) (Some now) (xeroInvoiceId r) (xeroStatus r)
     (source r).

(** [receipt["xeroInvoiceId"] = invoice_id; receipt["xeroStatus"] = xero_status] *)
Definition with_xero (invoice_id : option string) (xero_status : string) (r : t) : t :=
  mk (id r) (tenantId r) (filename r) (merchant r) (date r) (total r) (tax r)
     (items r) (status r) (createdAt r) (processedAt r) invoice_id
     (Some xero_status) (source r).
End ReceiptDoc.

Module IntegrationDoc.
Record t : Type := mk {
  id : string;
  tenantId : string;
  clientId : string;
  clientSecret : string;
  xeroTenantId : option string
}.
End IntegrationDoc.

Module AuditDoc.
Record t : Type := mk {
  id : string;
  tenantId : string;
  action : string;
  invoiceId : string;
  amount : float;
  paymentDate : string;
  timestamp : string
}.
End AuditDoc.

Module MappingDoc.
Record t : Type := mk {
  id : string;
  tenantId : string;
  emailAddress : string
}.
End MappingDoc.

(** The JSON token bundle kept in the secret store. *)
Record TokenData : Type := mkToken {
  access_token : option string;
  refresh_token : option string;
  expires_in : option Q;
  expires_at : option Q
}.

Record Database : Type := mkDatabase {
  tenants : list TenantDoc.t;
  receipts : list ReceiptDoc.t;
  integrations : list IntegrationDoc.t;
  audit : list AuditDoc.t;
  email_mappings : list MappingDoc.t
}.

(** ** Blob store *)

Record Blob : Type := mkBlob {
  container : string;
  blob_name : string;
  content : string;
  metadata : list (string * string)
}.

(** ** The external ledger *)

Record Contact : Type := mkContact {
  ContactOrg : string;                   (* the organisation ([xero-tenant-id]) it belongs to *)
  ContactID : string;
  Name : string;
  IsSupplier : bool;
  IsCustomer : bool
}.

Record LineItem : Type := mkLineItem {
  LI_Description : string;
  LI_Quantity : number;
  LI_UnitAmount : float;
  AccountCode : string;
  TaxType : string
}.

Record Invoice : Type := mkInvoice {
  InvoiceOrg : string;
  InvoiceID : string;
  Type_ : string;
  InvContact : option string;            (* [Contact.ContactID] *)
  Date : string;
  DueDate : option string;
  LineAmountTypes : string;
  LineItems : list LineItem;
  Status : string;
  CurrencyCode : string;
  AmountDue : option float
}.

Record Payment : Type := mkPayment {
  PayOrg : string;
  PayInvoice : string;
  PayAccount : string;
  PayDate : string;
  PayAmount : float
}.

Record Ledger : Type := mkLedger {
  contacts : list Contact;
  invoices : list Invoice;
  payments : list Payment
}.

(** ** Trace of external calls *)

Inductive Container : Type :=
| Tenants | Receipts | Integrations | Audit | EmailMappings.

Inductive Event : Type :=
| BlobRead (name : string)
| Analyze (filename : string)
| ReadItem (c : Container) (item pk : string)
| CreateItem (c : Container) (item : string)
| ReplaceItem (c : Container) (item : string)
| QueryItems (c : Container)
| UploadBlob (cont blob : string)
| DeleteBlob (cont blob : string)
| GetSecret (name : string)
| SetSecret (name : string)
| HttpGet (url : string)
| HttpPut (url : string)
| HttpPost (url : string)
| SendEmail (recipient : string).

(** ** The world *)

Record World : Type := mkWorld {
  clock : Q;                                    (* [time.time()] *)
  log : list (Event * bool);                    (* external calls, oldest first, with success *)
  rate_limiter : RateLimiter.XeroRateLimiter;   (* the module-level [rate_limiter] *)
  db : Database;
  storage : list Blob;
  vault : list (string * TokenData);
  ledger : Ledger;
  outbox : list string                          (* recipients of the mails sent *)
}.

Definition set_clock (x : Q) (w : World) : World :=
  mkWorld x (log w) (rate_limiter w) (db w) (storage w) (vault w) (ledger w) (outbox w).
Definition set_log (x : list (Event * bool)) (w : World) : World :=
  mkWorld (clock w) x (rate_limiter w) (db w) (storage w) (vault w) (ledger w) (outbox w).
Definition set_rate_limiter (x : RateLimiter.XeroRateLimiter) (w : World) : World :=
  mkWorld (clock w) (log w) x (db w) (storage w) (vault w) (ledger w) (outbox w).
Definition set_db (x : Database) (w : World) : World :=
  mkWorld (clock w) (log w) (rate_limiter w) x (storage w) (vault w) (ledger w) (outbox w).
Definition set_storage (x : list Blob) (w : World) : World :=
  mkWorld (clock w) (log w) (rate_limiter w) (db w) x (vault w) (ledger w) (outbox w).
Definition set_vault (x : list (string * TokenData)) (w : World) : World :=
  mkWorld (clock w) (log w) (rate_limiter w) (db w) (storage w) x (ledger w) (outbox w).
Definition set_ledger (x : Ledger) (w : World) : World :=
  mkWorld (clock w) (log w) (rate_limiter w) (db w) (storage w) (vault w) x (outbox w).
Definition set_outbox (x : list string) (w : World) : World :=
  mkWorld (clock w) (log w) (rate_limiter w) (db w) (storage w) (vault w) (ledger w) x.

Definition set_tenants (x : list TenantDoc.t) (d : Database) : Database :=
  mkDatabase x (receipts d) (integrations d) (audit d) (email_mappings d).
Definition set_receipts (x : list ReceiptDoc.t) (d : Database) : Database :=
  mkDatabase (tenants d) x (integrations d) (audit d) (email_mappings d).
Definition set_audit (x : list AuditDoc.t) (d : Database) : Database :=
  mkDatabase (tenants d) (receipts d) (integrations d) x (email_mappings d).

Definition set_contacts (x : list Contact) (l : Ledger) : Ledger :=
  mkLedger x (invoices l) (payments l).
Definition set_invoices (x : list Invoice) (l : Ledger) : Ledger :=
  mkLedger (contacts l) x (payments l).
Definition set_payments (x : list Payment) (l : Ledger) : Ledger :=
  mkLedger (contacts l) (invoices l) x.

(** ** What the code cannot decide: the oracle *)

(** External calls are numbered by their position in the trace. The oracle
    says which of them raise, how long they take, what the HTTP status is,
    and supplies the values the code obtains from libraries whose results are
    not determined by the program (random draws, hashes, identifiers, date
    formatting, the ledger's text filter). *)
Record Env : Type := mkEnv {
  fault : nat -> bool;
  latency : nat -> Q;
  http_ok : nat -> bool;
  uniform1 : nat -> Q;                         (* [random.uniform(0.5, 1.5)] *)
  uniform2 : nat -> Q;                         (* [random.uniform(0.2, 0.5)] *)
  analyze : string -> Extraction.AnalyzeResult;
  py_hash : string -> Z;                       (* builtin [hash] *)
  sha256_hex : string -> string;
  uuid4 : nat -> string;
  ledger_id : nat -> string;                   (* identifier issued by the ledger *)
  isoformat : Q -> string;                     (* [datetime.isoformat()] *)
  strftime_stamp : Q -> string;                (* ["%Y%m%d_%H%M%S"] *)
  strftime_ymd : Q -> string;                  (* ["%Y-%m-%d"] *)
  name_contains : string -> string -> bool;    (* the ledger's [Name.Contains(text)]: text, name *)
  token_response : nat -> TokenData            (* body returned by the token endpoint *)
}.

(** ** The monad *)

Definition M (A : Type) : Type := World -> result A * World.

Definition ret {A : Type} (a : A) : M A := fun w => (Ok a, w).

Definition raise {A : Type} (e : exn) : M A := fun w => (Raise e, w).

Definition bind {A B : Type} (m : M A) (k : A -> M B) : M B :=
  fun w =>
    match m w with
    | (Ok a, w') => k a w'
    | (Raise e, w') => (Raise e, w')
    end.

(** [try: m except Exception as e: h e] *)
Definition try_except {A : Type} (m : M A) (h : exn -> M A) : M A :=
  fun w =>
    match m w with
    | (Ok a, w') => (Ok a, w')
    | (Raise e, w') => h e w'
    end.

Declare Scope monad_scope.
Delimit Scope monad_scope with monad.
Notation "x <- m ;; k" := (bind m (fun x => k))
  (at level 61, m at next level, right associativity) : monad_scope.
Notation "m ;; k" := (bind m (fun _ => k))
  (at level 61, right associativity) : monad_scope.

(** [for x in xs: body x]; an exception leaves the loop. *)
Fixpoint for_each {A : Type} (xs : list A) (body : A -> M unit) : M unit :=
  match xs with
  | [] => ret tt
  | x :: rest => bind (body x) (fun _ => for_each rest body)
  end.

Definition get_clock : M Q := fun w => (Ok (clock w), w).

(** Position of the next external call in the trace. *)
Definition next_index : M nat := fun w => (Ok (List.length (log w)), w).

(** [time.sleep(d)] *)
Definition sleep (d : Q) : M unit := fun w => (Ok tt, set_clock (clock w + d)%Q w).

(** [d[key]] on an optional key. *)
Definition item {A : Type} (key : string) (o : option A) : M A :=
  match o with
  | Some a => ret a
  | None => raise (KeyError key)
  end.

(** An optional string that is truthy: neither [None] nor [""]. *)
Definition nonempty (o : option string) : option string :=
  match o with
  | Some s => if truthy_str s then Some s else None
  | None => None
  end.

Section Calls.
Variable E : Env.

(** One external call: it takes its time, raises when the oracle says so or
    when the service refuses ([act] raises), and is entered in the trace. *)
Definition call {A : Type} (ev : Event) (act : World -> result A * World) : M A :=
  fun w =>
    let n := List.length (log w) in
    let w1 := set_clock (clock w + latency E n)%Q w in
    if fault E n then (Raise ServiceError, set_log (log w1 ++ [(ev, false)])%list w1)
    else
      match act w1 with
      | (Ok a, w2) => (Ok a, set_log (log w2 ++ [(ev, true)])%list w2)
      | (Raise e, w2) => (Raise e, set_log (log w2 ++ [(ev, false)])%list w2)
      end.

(** An HTTP request: [effect] is what the ledger does when it accepts the
    request; the result is [response.ok] with the body. *)
Definition http {A : Type} (ev : Event) (body : World -> A) (effect : World -> World)
  : M (bool * A) :=
  call ev (fun w =>
    if http_ok E (List.length (log w)) then (Ok (true, body w), effect w)
    else (Ok (false, body w), w)).

(** ** Record store *)

(** Modelled from the spec: the container definitions are not part of the
    sources; every container is "partitioned by tenant_id" (section 6), so a
    point read finds a record only under the tenant id it was written with. *)
Definition lookup {D : Type} (id_of part_of : D -> string) (item_id pk : string)
  (docs : list D) : option D :=
  find (fun d => String.eqb (id_of d) item_id && String.eqb (part_of d) pk) docs.

Definition read_item {D : Type} (c : Container) (sel : Database -> list D)
  (id_of part_of : D -> string) (item_id pk : string) : M D :=
  call (ReadItem c item_id pk) (fun w =>
    match lookup id_of part_of item_id pk (sel (db w)) with
    | Some d => (Ok d, w)
    | None => (Raise NotFound, w)
    end).

(** [create_item]: refused when the id exists in the partition. *)
Definition create_item {D : Type} (c : Container) (sel : Database -> list D)
  (upd : list D -> Database -> Database)
  (id_of part_of : D -> string) (doc : D) : M unit :=
  call (CreateItem c (id_of doc)) (fun w =>
    match lookup id_of part_of (id_of doc) (part_of doc) (sel (db w)) with
    | Some _ => (Raise Conflict, w)
    | None => (Ok tt, set_db (upd (sel (db w) ++ [doc])%list (db w)) w)
    end).

Definition replace_doc {D : Type} (id_of part_of : D -> string) (item_id : string)
  (body : D) (docs : list D) : list D :=
  map (fun d => if String.eqb (id_of d) item_id && String.eqb (part_of d) (part_of body)
                then body else d) docs.

(** [replace_item(item=item_id, body=body)] *)
Definition replace_item {D : Type} (c : Container) (sel : Database -> list D)
  (upd : list D -> Database -> Database)
  (id_of part_of : D -> string) (item_id : string) (body : D) : M unit :=
  call (ReplaceItem c item_id) (fun w =>
    match lookup id_of part_of item_id (part_of body) (sel (db w)) with
    | Some _ =>
        (Ok tt, set_db (upd (replace_doc id_of part_of item_id body (sel (db w))) (db w)) w)
    | None => (Raise NotFound, w)
    end).

Definition read_tenant : string -> string -> M TenantDoc.t :=
  read_item Tenants tenants TenantDoc.id TenantDoc.tenantId.
Definition replace_tenant : string -> TenantDoc.t -> M unit :=
  replace_item Tenants tenants set_tenants TenantDoc.id TenantDoc.tenantId.
Definition read_receipt : string -> string -> M ReceiptDoc.t :=
  read_item Receipts receipts ReceiptDoc.id ReceiptDoc.tenantId.
Definition create_receipt : ReceiptDoc.t -> M unit :=
  create_item Receipts receipts set_receipts ReceiptDoc.id ReceiptDoc.tenantId.
Definition replace_receipt : string -> ReceiptDoc.t -> M unit :=
  replace_item Receipts receipts set_receipts ReceiptDoc.id ReceiptDoc.tenantId.
Definition read_integration : string -> string -> M IntegrationDoc.t :=
  read_item Integrations integrations IntegrationDoc.id IntegrationDoc.tenantId.
Definition create_audit : AuditDoc.t -> M unit :=
  create_item Audit audit set_audit AuditDoc.id AuditDoc.tenantId.

(** [list(container.query_items(...))] with the filter already applied. *)
Definition query_items {D : Type} (c : Container) (sel : Database -> list D)
  (keep : D -> bool) : M (list D) :=
  call (QueryItems c) (fun w => (Ok (filter keep (sel (db w))), w)).

(** ** Blob store *)

Definition same_blob (cont name : string) (b : Blob) : bool :=
  String.eqb (container b) cont && String.eqb (blob_name b) name.

(** [blob_client.upload_blob(content, metadata=..., overwrite=True)] *)
Definition upload_blob (cont name data : string) (meta : list (string * string)) : M unit :=
  call (UploadBlob cont name) (fun w =>
    (Ok tt, set_storage (filter (fun b => negb (same_blob cont name b)) (storage w)
                           ++ [mkBlob cont name data meta])%list w)).

(** [blob_client.delete_blob()] *)
Definition delete_blob (cont name : string) : M unit :=
  call (DeleteBlob cont name) (fun w =>
    if existsb (same_blob cont name) (storage w)
    then (Ok tt, set_storage (filter (fun b => negb (same_blob cont name b)) (storage w)) w)
    else (Raise NotFound, w)).

(** ** Secret store *)

Definition get_secret (name : string) : M TokenData :=
  call (GetSecret name) (fun w =>
    match find (fun kv => String.eqb (fst kv) name) (vault w) with
    | Some kv => (Ok (snd kv), w)
    | None => (Raise NotFound, w)
    end).

Definition set_secret (name : string) (v : TokenData) : M unit :=
  call (SetSecret name) (fun w =>
    (Ok tt, set_vault ((name, v) :: filter (fun kv => negb (String.eqb (fst kv) name)) (vault w)) w)).

(** ** Mail service *)

Definition begin_send (recipient : string) : M unit :=
  call (SendEmail recipient) (fun w => (Ok tt, set_outbox (outbox w ++ [recipient])%list w)).

End Calls.

End Cloud.

(* ================================================================== *)
(** * azure_functions.py *)
(* ================================================================== *)

Module AzureFunctions.
Import Py Cloud.
#[local] Open Scope monad_scope.

(** The names bound at module level: the imports, the clients and containers,
    the rate limiter and the functions. A name that is neither here nor a
    builtin raises [NameError] when it is evaluated. *)
Definition module_globals : list string :=
  [ "func"; "logging"; "json"; "os"; "time"; "random"; "datetime"; "timedelta";
    "Dict"; "Any"; "Optional"; "List";
    "BlobServiceClient"; "DocumentIntelligenceClient"; "CosmosClient";
    "SecretClient"; "DefaultAzureCredential"; "requests";
    "credential"; "storage_client"; "cosmos_client"; "doc_intelligence_client";
    "keyvault_client"; "database"; "tenants_container"; "receipts_container";
    "integrations_container"; "audit_container";
    "XeroRateLimiter"; "rate_limiter";
    "main"; "extract_tenant_id_from_path"; "process_receipt_blob"; "get_tenant";
    "extract_receipt_data_from_blob"; "store_receipt_data"; "process_to_xero";
    "get_xero_integration"; "get_xero_access_token"; "refresh_xero_token";
    "create_or_get_xero_contact"; "create_xero_invoice";
    "move_blob_to_processing"; "move_blob_to_complete"; "delete_from_uploads";
    "update_receipt_status"; "update_receipt_xero_info"; "update_tenant_usage";
    "scheduled_processing_function"; "auto_pay_bills_function";
    "process_auto_payments"; "get_awaiting_payment_bills";
    "create_automatic_payment" ].

(** Evaluation of a global name. *)
Definition global (name : string) : M unit :=
  if existsb (String.eqb name) module_globals then ret tt else raise (NameError name).

(** [func.InputStream] *)
Record InputStream : Type := mkInputStream {
  name : string;
  data : string
}.

(** [int(x)] on a time stamp: truncation towards zero. *)
Definition int_of_Q (q : Q) : Z := Z.quot (Qnum q) (Z.pos (Qden q)).

Definition uploads_container (tenant_id : string) : string :=
  "tenant-" ++ tenant_id ++ "-uploads".
Definition processing_container (tenant_id : string) : string :=
  "tenant-" ++ tenant_id ++ "-processing".
Definition complete_container (tenant_id : string) : string :=
  "tenant-" ++ tenant_id ++ "-complete".

Definition contacts_url : string := "https://api.xero.com/api.xro/2.0/Contacts".
Definition invoices_url : string := "https://api.xero.com/api.xro/2.0/Invoices".
Definition payments_url : string := "https://api.xero.com/api.xro/2.0/Payments".
Definition token_url : string := "https://identity.xero.com/connect/token".

(** [extract_tenant_id_from_path] *)
Definition extract_tenant_id_from_path (blob_path : string) : option string :=
  let container_part := Str.split_head "/" blob_path in
  if Str.startswith "tenant-" container_part && Str.endswith "-uploads" container_part
  then Some (Str.remove_all "-uploads" (Str.remove_all "tenant-" container_part))
  else None.

Section WithEnv.
Variable E : Env.

(** [rate_limiter.wait_if_needed()] on the module-level limiter. *)
Definition wait_if_needed : M unit :=
  fun w =>
    let n := List.length (log w) in
    match RateLimiter.wait_if_needed (uniform1 E n) (uniform2 E n) (clock w)
            (rate_limiter w) with
    | Some (self, slept) =>
        (Ok tt, set_clock (clock w + slept)%Q (set_rate_limiter self w))
    | None =>
        (Raise IndexError,
         set_rate_limiter
           (RateLimiter.mkLimiter
              (RateLimiter.prune (clock w) (RateLimiter.request_times (rate_limiter w)))
              (RateLimiter.max_requests_per_minute (rate_limiter w))
              (RateLimiter.last_rate_limit_time (rate_limiter w))) w)
    end.

(** [datetime.utcnow().isoformat()] *)
Definition utcnow_iso : M string :=
  now <- get_clock ;; ret (isoformat E now).

(** [get_tenant] *)
Definition get_tenant (tenant_id : string) : M (option TenantDoc.t) :=
  try_except
    (t <- read_tenant E tenant_id tenant_id ;; ret (Some t))
    (fun _ => ret None).

(** [extract_receipt_data_from_blob] *)
Definition extract_receipt_data_from_blob (content filename : string)
  : M (option Extraction.ReceiptData) :=
  try_except
    (result <- call E (Analyze filename) (fun w => (Ok (analyze E content), w)) ;;
     now_iso <- utcnow_iso ;;
     ret (Some (Extraction.normalize now_iso result)))
    (fun _ => ret None).

(** [f"{tenant_id}-{int(time.time())}-{hash(filename) % 10000}"] *)
Definition receipt_id_at (tenant_id filename : string) (now : Q) : string :=
  (tenant_id ++ "-" ++ Str.of_Z (int_of_Q now) ++ "-"
     ++ Str.of_Z (py_hash E filename mod 10000))%string.

(** [store_receipt_data] *)
Definition store_receipt_data (tenant_id filename : string)
  (receipt_data : Extraction.ReceiptData) : M string :=
  now <- get_clock ;;
  let receipt_id := receipt_id_at tenant_id filename now in
  created <- utcnow_iso ;;
  let receipt_document :=
    {| ReceiptDoc.id := receipt_id;
       ReceiptDoc.tenantId := tenant_id;
       ReceiptDoc.filename := filename;
       ReceiptDoc.merchant := Some (Extraction.merchant receipt_data);
       ReceiptDoc.date := Some (Extraction.date receipt_data);
       ReceiptDoc.total := Some (Extraction.total receipt_data);
       ReceiptDoc.tax := Some (Extraction.tax receipt_data);
       ReceiptDoc.items := Extraction.items receipt_data;
       ReceiptDoc.status := "processing";
       ReceiptDoc.createdAt := created;
       ReceiptDoc.processedAt := None;
       ReceiptDoc.xeroInvoiceId := None;
       ReceiptDoc.xeroStatus := None;
       ReceiptDoc.source := None |} in
  create_receipt E receipt_document ;;
  ret receipt_id.

(** [get_xero_integration] *)
Definition get_xero_integration (tenant_id : string) : M (option IntegrationDoc.t) :=
  try_except
    (c <- read_integration E ("xero-" ++ tenant_id)%string tenant_id ;; ret (Some c))
    (fun _ => ret None).

(** [refresh_xero_token]. The source ends after the [if response.ok:] block:
    no handler follows its [try:], so an exception reaches the caller, and a
    response that is not ok returns [None]. *)
Definition refresh_xero_token (tenant_id : string) (xero_config : IntegrationDoc.t)
  (refresh : string) : M (option string) :=
  n <- next_index ;;
  r <- http E (HttpPost token_url) (fun _ => token_response E n) (fun w => w) ;;
  let (ok, new_token) := r in
  if ok then
    now <- get_clock ;;
    expires <- item "expires_in" (expires_in new_token) ;;
    let stored :=
      mkToken (access_token new_token) (refresh_token new_token)
              (expires_in new_token)
              (Some (inject_Z (int_of_Q (now + expires)%Q))) in
    set_secret E ("xero-token-" ++ tenant_id)%string stored ;;
    tok <- item "access_token" (access_token stored) ;;
    ret (Some tok)
  else ret None.

(** [get_xero_access_token]. The first component of the inner block's result
    says whether [token_data] was bound, the second is the value returned
    from inside the inner [try]. *)
Definition get_xero_access_token (tenant_id : string) (xero_config : IntegrationDoc.t)
  : M (option string) :=
  try_except
    (let secret_name := ("xero-token-" ++ tenant_id)%string in
     bound <- try_except
                (token_data <- get_secret E secret_name ;; ret (Some token_data))
                (fun _ => ret None) ;;
     now <- get_clock ;;
     let valid :=
       match bound with
       | Some token_data =>
           let expires := match expires_at token_data with Some x => x | None => 0%Q end in
           if RateLimiter.Qltb now (expires - 300)%Q then access_token token_data else None
       | None => None
       end in
     match valid with
     | Some tok => ret (Some tok)
     | None =>
         token_data <- match bound with
                       | Some token_data => ret token_data
                       | None => raise (NameError "token_data")
                       end ;;
         match refresh_token token_data with
         | Some refresh => refresh_xero_token tenant_id xero_config refresh
         | None => ret None
         end
     end)
    (fun _ => ret None).

(** The loop of [create_or_get_xero_contact] over the search result. *)
Definition exact_match (merchant_name : string) (found : list Contact) : option string :=
  match find (fun c => String.eqb (Str.upper (Name c)) (Str.upper merchant_name)) found with
  | Some c => Some (ContactID c)
  | None => None
  end.

(** [create_or_get_xero_contact] *)
Definition create_or_get_xero_contact (access_token xero_tenant_id merchant_name : string)
  : M (option string) :=
  try_except
    (wait_if_needed ;;
     r <- http E (HttpGet contacts_url)
            (fun w => filter (fun c => String.eqb (ContactOrg c) xero_tenant_id
                                       && name_contains E merchant_name (Name c))
                             (contacts (ledger w)))
            (fun w => w) ;;
     let (ok, found) := r in
     match (if ok then exact_match merchant_name found else None) with
     | Some contact_id => ret (Some contact_id)
     | None =>
         wait_if_needed ;;
         n <- next_index ;;
         let new_contact := mkContact xero_tenant_id (ledger_id E n) merchant_name true false in
         r <- http E (HttpPut contacts_url) (fun _ => new_contact)
                (fun w => set_ledger
                            (set_contacts (contacts (ledger w) ++ [new_contact])%list
                                          (ledger w)) w) ;;
         let (ok, created) := r in
         if ok then ret (Some (ContactID created)) else ret None
     end)
    (fun _ => ret None).

Definition tax_type (receipt_data : Extraction.ReceiptData) : string :=
  if gt0 (Extraction.tax receipt_data) then "INPUT" else "NONE".

(** The line items of [create_xero_invoice]; [None] is the [KeyError] of an
    item without description or amount. *)
Fixpoint item_lines (receipt_data : Extraction.ReceiptData)
  (its : list Extraction.ItemData) : option (list LineItem) :=
  match its with
  | [] => Some []
  | it :: rest =>
      match Extraction.description it, Extraction.unit_amount it, item_lines receipt_data rest with
      | Some d, Some a, Some ls =>
          Some (mkLineItem (Str.take 4000 d) (Extraction.quantity it) a "310"
                           (tax_type receipt_data) :: ls)
      | _, _, _ => None
      end
  end.

Definition line_items (receipt_data : Extraction.ReceiptData) : option (list LineItem) :=
  match Extraction.items receipt_data with
  | [] =>
      Some [ mkLineItem
               (Extraction.merchant receipt_data ++ " - " ++ Extraction.date receipt_data)%string
               (PyInt 1) (Extraction.total receipt_data) "310" (tax_type receipt_data) ]
  | its => item_lines receipt_data its
  end.

(** [create_xero_invoice] *)
Definition create_xero_invoice (access_token xero_tenant_id : string)
  (receipt_data : Extraction.ReceiptData) (contact_id : string) : M (option string) :=
  try_except
    (wait_if_needed ;;
     lines <- match line_items receipt_data with
              | Some ls => ret ls
              | None => raise (KeyError "description")
              end ;;
     n <- next_index ;;
     let day := Str.take 10 (Extraction.date receipt_data) in
     let invoice :=
       mkInvoice xero_tenant_id (ledger_id E n) "ACCPAY" (Some contact_id) day (Some day)
                 "Inclusive" lines "DRAFT" "AUD" None in
     r <- http E (HttpPost invoices_url) (fun _ => invoice)
            (fun w => set_ledger
                        (set_invoices (invoices (ledger w) ++ [invoice])%list (ledger w)) w) ;;
     let (ok, created) := r in
     if ok then ret (Some (InvoiceID created)) else ret None)
    (fun _ => ret None).

(** [move_blob_to_processing] *)
Definition move_blob_to_processing (tenant_id filename content : string) : M unit :=
  try_except
    (upload_blob E (processing_container tenant_id) filename content [])
    (fun _ => ret tt).

(** [move_blob_to_complete] *)
Definition move_blob_to_complete (tenant_id filename content : string) : M unit :=
  try_except
    (upload_blob E (complete_container tenant_id) filename content [])
    (fun _ => ret tt).

(** [delete_from_uploads] *)
Definition delete_from_uploads (tenant_id filename : string) : M unit :=
  try_except
    (delete_blob E (uploads_container tenant_id) filename)
    (fun _ => ret tt).

(** [update_receipt_status] *)
Definition update_receipt_status (receipt_id status : string) : M unit :=
  try_except
    (receipt <- read_receipt E receipt_id (Str.split_head "-" receipt_id) ;;
     now_iso <- utcnow_iso ;;
     replace_receipt E receipt_id (ReceiptDoc.with_status status now_iso receipt))
    (fun _ => ret tt).

(** [update_receipt_xero_info] *)
Definition update_receipt_xero_info (receipt_id : string) (invoice_id : option string)
  (xero_status : string) : M unit :=
  try_except
    (receipt <- read_receipt E receipt_id (Str.split_head "-" receipt_id) ;;
     replace_receipt E receipt_id (ReceiptDoc.with_xero invoice_id xero_status receipt))
    (fun _ => ret tt).

(** [update_tenant_usage] *)
Definition update_tenant_usage (tenant_id : string) : M unit :=
  try_except
    (tenant <- read_tenant E tenant_id tenant_id ;;
     now_iso <- utcnow_iso ;;
     let tenant' :=
       TenantDoc.mk (TenantDoc.id tenant) (TenantDoc.tenantId tenant)
         (TenantDoc.status tenant) (TenantDoc.email tenant)
         (TenantDoc.processingEnabled tenant) (TenantDoc.autoPayEnabled tenant)
         (TenantDoc.bankAccountId tenant) (TenantDoc.authorizedSenders tenant)
         (TenantDoc.receiptsProcessed tenant + 1)%Z (Some now_iso) in
     replace_tenant E tenant_id tenant')
    (fun _ => ret tt).

(** [process_to_xero] *)
Definition process_to_xero (tenant_id : string) (receipt_data : Extraction.ReceiptData)
  (receipt_id : string) : M bool :=
  try_except
    (xero_config <- get_xero_integration tenant_id ;;
     match xero_config with
     | None => ret false
     | Some xero_config =>
         access_token <- get_xero_access_token tenant_id xero_config ;;
         match nonempty access_token with
         | None => ret false
         | Some access_token =>
             xero_tenant_id <- item "xeroTenantId" (IntegrationDoc.xeroTenantId xero_config) ;;
             contact_id <- create_or_get_xero_contact access_token xero_tenant_id
                             (Extraction.merchant receipt_data) ;;
             match nonempty contact_id with
             | None => ret false
             | Some contact_id =>
                 invoice_id <- create_xero_invoice access_token xero_tenant_id
                                 receipt_data contact_id ;;
                 match nonempty invoice_id with
                 | None => ret false
                 | Some invoice_id =>
                     update_receipt_xero_info receipt_id (Some invoice_id) "success" ;;
                     ret true
                 end
             end
         end
     end)
    (fun _ =>
       update_receipt_xero_info receipt_id None "error" ;;
       ret false).

(** [process_receipt_blob] *)
Definition process_receipt_blob (blob : InputStream) (tenant_id : string) : M bool :=
  try_except
    (blob_content <- call E (BlobRead (name blob)) (fun w => (Ok (data blob), w)) ;;
     tenant <- get_tenant tenant_id ;;
     match tenant with
     | None => ret false
     | Some tenant =>
         if negb (TenantDoc.processingEnabled tenant) then ret false
         else
           receipt_data <- extract_receipt_data_from_blob blob_content (name blob) ;;
           match receipt_data with
           | None => ret false
           | Some receipt_data =>
               receipt_id <- store_receipt_data tenant_id (name blob) receipt_data ;;
               move_blob_to_processing tenant_id (name blob) blob_content ;;
               xero_success <- process_to_xero tenant_id receipt_data receipt_id ;;
               (if xero_success
                then move_blob_to_complete tenant_id (name blob) blob_content ;;
                     update_receipt_status receipt_id "completed"
                else update_receipt_status receipt_id "failed") ;;
               update_tenant_usage tenant_id ;;
               delete_from_uploads tenant_id (name blob) ;;
               ret xero_success
           end
     end)
    (fun _ => ret false).

(** [main]: the blob trigger. *)
Definition main (myblob : InputStream) : M unit :=
  try_except
    (match nonempty (extract_tenant_id_from_path (name myblob)) with
     | None => ret tt
     | Some tenant_id =>
         _ <- process_receipt_blob myblob tenant_id ;; ret tt
     end)
    (fun _ => ret tt).

(** [inv.get("AmountDue", 0) > 0] *)
Definition amount_due_positive (inv : Invoice) : bool :=
  match AmountDue inv with
  | Some a => PrimFloat.ltb 0%float a
  | None => false
  end.

(** [get_awaiting_payment_bills]. The ledger applies the [where] filter; the
    order it returns the bills in ([order=DueDate ASC]) is the ledger's. *)
Definition get_awaiting_payment_bills (access_token xero_tenant_id : string)
  : M (list Invoice) :=
  try_except
    (wait_if_needed ;;
     r <- http E (HttpGet invoices_url)
            (fun w => filter (fun inv => String.eqb (InvoiceOrg inv) xero_tenant_id
                                         && String.eqb (Type_ inv) "ACCPAY"
                                         && String.eqb (Status inv) "AUTHORISED")
                             (invoices (ledger w)))
            (fun w => w) ;;
     let (ok, invs) := r in
     if ok then ret (filter amount_due_positive invs) else ret [])
    (fun _ => ret []).

(** [create_automatic_payment] *)
Definition create_automatic_payment (access_token xero_tenant_id : string)
  (bill : Invoice) (bank_account_id : string) : M unit :=
  try_except
    (wait_if_needed ;;
     due_date <- item "DueDate" (DueDate bill) ;;
     now <- get_clock ;;
     payment_date <-
       (if Str.startswith "/Date(" due_date && Str.endswith ")/" due_date
        then match Str.to_Z (String.substring 6 13 due_date) with
             | Some timestamp => ret (strftime_ymd E (inject_Z timestamp / 1000)%Q)
             | None => raise ValueError
             end
        else ret (strftime_ymd E now)) ;;
     amount <- item "AmountDue" (AmountDue bill) ;;
     let payment := mkPayment xero_tenant_id (InvoiceID bill) bank_account_id
                              payment_date amount in
     r <- http E (HttpPut payments_url) (fun _ => tt)
            (fun w => set_ledger
                        (set_payments (payments (ledger w) ++ [payment])%list (ledger w)) w) ;;
     if negb (fst r) then raise PaymentFailed
     else
       (* audit_log = {"id": str(uuid.uuid4()), ...} *)
       global "uuid" ;;
       n <- next_index ;;
       stamp <- utcnow_iso ;;
       let audit_log :=
         AuditDoc.mk (uuid4 E n)
           (match InvContact bill with Some c => c | None => "unknown" end)
           "auto_payment_created" (InvoiceID bill) amount payment_date stamp in
       try_except (create_audit E audit_log) (fun _ => ret tt))
    (fun e => raise e).

(** [process_auto_payments] *)
Definition process_auto_payments (tenant_id : string) : M unit :=
  try_except
    (xero_config <- get_xero_integration tenant_id ;;
     match xero_config with
     | None => ret tt
     | Some xero_config =>
         access_token <- get_xero_access_token tenant_id xero_config ;;
         match nonempty access_token with
         | None => ret tt
         | Some access_token =>
             tenant <- get_tenant tenant_id ;;
             tenant <- match tenant with
                       | Some t => ret t
                       | None => raise AttributeError      (* [None.get] *)
                       end ;;
             match nonempty (TenantDoc.bankAccountId tenant) with
             | None => ret tt
             | Some bank_account_id =>
                 xero_tenant_id <- item "xeroTenantId"
                                     (IntegrationDoc.xeroTenantId xero_config) ;;
                 bills <- get_awaiting_payment_bills access_token xero_tenant_id ;;
                 for_each bills (fun bill =>
                   try_except
                     (create_automatic_payment access_token xero_tenant_id bill
                        bank_account_id)
                     (fun _ => ret tt))
             end
         end
     end)
    (fun _ => ret tt).

(** [auto_pay_bills_function]: the daily timer trigger. *)
Definition auto_pay_bills_function : M unit :=
  try_except
    (tenants <- query_items E Tenants tenants
                  (fun t => String.eqb (TenantDoc.status t) "active"
                            && TenantDoc.autoPayEnabled t) ;;
     for_each tenants (fun tenant =>
       try_except (process_auto_payments (TenantDoc.tenantId tenant))
                  (fun _ => ret tt)))
    (fun _ => ret tt).

End WithEnv.

End AzureFunctions.

(* ================================================================== *)
(** * email_processing_service.py *)
(* ================================================================== *)

Module EmailProcessing.
Import Py Cloud.
#[local] Open Scope monad_scope.

(** One part of a parsed message ([msg.walk()]). *)
Record Part : Type := mkPart {
  content_disposition : option string;
  part_filename : option string;           (* [get_filename()] *)
  payload : option string;                 (* [get_payload(decode=True)] *)
  content_type : string
}.

(** The parsed message: [email.message_from_string(email_data['body'])]. *)
Record Message : Type := mkMessage {
  From : option string;
  To : option string;
  Subject : option string;
  MessageID : option string;
  parts : list Part
}.

(** The JSON payload of the webhook. *)
Record EmailData : Type := mkEmailData {
  body : option Message
}.

(** The dictionaries built by [_extract_attachments]. *)
Record Attachment : Type := mkAttachment {
  att_filename : string;
  att_content : string;
  att_content_type : string;
  att_size : nat
}.

(** The state of an [EmailReceiptProcessor] object. *)
Record EmailReceiptProcessor : Type := mkProcessor {
  processed_emails : list string            (* a [set] of hashes *)
}.

(** [EmailReceiptProcessor.__init__] *)
Definition new_processor : EmailReceiptProcessor := {| processed_emails := [] |}.

Definition SUPPORTED_EXTENSIONS : list string :=
  [ ".pdf"; ".jpg"; ".jpeg"; ".png"; ".bmp"; ".tiff"; ".heif";
    ".docx"; ".xlsx"; ".pptx"; ".html" ].

(** The text after the last occurrence of [sep], the separator included;
    [None] when [sep] does not occur. *)
Fixpoint from_last (sep : ascii) (s : string) : option string :=
  match s with
  | EmptyString => None
  | String c r =>
      match from_last sep r with
      | Some t => Some t
      | None => if Ascii.eqb c sep then Some s else None
      end
  end.

Fixpoint drop_leading (sep : ascii) (s : string) : string :=
  match s with
  | EmptyString => EmptyString
  | String c r => if Ascii.eqb c sep then drop_leading sep r else s
  end.

(** [os.path.splitext(path)[1]] *)
Definition splitext_ext (path : string) : string :=
  let base := match from_last "/" path with
              | Some t => String.substring 1 (String.length t - 1) t
              | None => path
              end in
  match from_last "." (drop_leading "." base) with
  | Some ext => ext
  | None => EmptyString
  end.

(** [_extract_email_address] *)
Definition _extract_email_address (email_string : string) : string :=
  if Str.contains "<" email_string && Str.contains ">" email_string
  then match Str.split_second "<" email_string with
       | Some t => Str.lower (Str.strip (Str.split_head ">" t))
       | None => Str.lower (Str.strip email_string)
       end
  else Str.lower (Str.strip email_string).

(** [_extract_attachments]; walking a parsed message does not raise. *)
Fixpoint _extract_attachments (ps : list Part) : list Attachment :=
  match ps with
  | [] => []
  | part :: rest =>
      let skip := _extract_attachments rest in
      match content_disposition part with
      | Some d =>
          if String.eqb d "attachment" then
            match nonempty (part_filename part) with
            | None => skip
            | Some filename =>
                let file_ext := splitext_ext (Str.lower filename) in
                if negb (existsb (String.eqb file_ext) SUPPORTED_EXTENSIONS) then skip
                else
                  match nonempty (payload part) with
                  | None => skip
                  | Some content =>
                      mkAttachment filename content (content_type part)
                                   (String.length content) :: skip
                  end
            end
          else skip
      | None => skip
      end
  end.

Section WithEnv.
Variable E : Env.

(** [_send_confirmation_email] and [_send_error_email] *)
Definition _send_confirmation_email (recipient : string) : M unit :=
  try_except (begin_send E recipient) (fun _ => ret tt).

Definition _send_error_email (recipient : string) : M unit :=
  try_except (begin_send E recipient) (fun _ => ret tt).

(** [_is_sender_authorized] *)
Definition _is_sender_authorized (tenant_id sender_email : string) : M bool :=
  try_except
    (users <- query_items E Tenants tenants
                (fun t => String.eqb (TenantDoc.tenantId t) tenant_id) ;;
     tenant <- read_tenant E tenant_id tenant_id ;;
     let authorized_emails := TenantDoc.authorizedSenders tenant in
     if existsb (fun user =>
                   String.eqb
                     (Str.lower (match TenantDoc.email user with Some e => e | None => "" end))
                     sender_email) users
     then ret true
     else ret (existsb (String.eqb sender_email) authorized_emails))
    (fun _ => ret false).

(** The loop of [_get_tenant_by_email] over the mappings. *)
Fixpoint first_authorized (mappings : list MappingDoc.t) (from_email : string)
  : M (option string) :=
  match mappings with
  | [] => ret None
  | mapping :: rest =>
      ok <- _is_sender_authorized (MappingDoc.tenantId mapping) from_email ;;
      if ok then ret (Some (MappingDoc.tenantId mapping))
      else first_authorized rest from_email
  end.

(** [_get_tenant_by_email] *)
Definition _get_tenant_by_email (to_email from_email : string) : M (option string) :=
  try_except
    (mappings <- query_items E EmailMappings email_mappings
                   (fun m => String.eqb (MappingDoc.emailAddress m) to_email) ;;
     first_authorized mappings from_email)
    (fun _ => ret None).

(** [_create_receipt_record] *)
Definition _create_receipt_record (tenant_id filename : string) (attachment : Attachment)
  (sender_email subject : string) : M unit :=
  try_except
    (now <- get_clock ;;
     let receipt_id :=
       (tenant_id ++ "-email-" ++ Str.of_Z (AzureFunctions.int_of_Q now))%string in
     let receipt_document :=
       {| ReceiptDoc.id := receipt_id;
          ReceiptDoc.tenantId := tenant_id;
          ReceiptDoc.filename := filename;
          ReceiptDoc.merchant := None;
          ReceiptDoc.date := None;
          ReceiptDoc.total := None;
          ReceiptDoc.tax := None;
          ReceiptDoc.items := [];
          ReceiptDoc.status := "uploaded";
          ReceiptDoc.createdAt := isoformat E now;
          ReceiptDoc.processedAt := None;
          ReceiptDoc.xeroInvoiceId := None;
          ReceiptDoc.xeroStatus := Some "pending";
          ReceiptDoc.source :=
            Some (mkEmailInfo (att_filename attachment) sender_email subject
                              (att_size attachment) (att_content_type attachment)) |} in
     create_receipt E receipt_document)
    (fun _ => ret tt).

(** [_process_attachment] *)
Definition _process_attachment (tenant_id : string) (attachment : Attachment)
  (sender_email subject : string) : M bool :=
  try_except
    (let filename := att_filename attachment in
     let content := att_content attachment in
     now <- get_clock ;;
     let timestamp := strftime_stamp E now in
     let email_hash := Str.take 8 (sha256_hex E sender_email) in
     let safe_filename :=
       ("email_" ++ timestamp ++ "_" ++ email_hash ++ "_" ++ filename)%string in
     let metadata :=
       [ ("source", "email"); ("sender", sender_email); ("subject", subject);
         ("original_filename", filename); ("received_at", isoformat E now) ] in
     upload_blob E (AzureFunctions.uploads_container tenant_id) safe_filename content
       metadata ;;
     _create_receipt_record tenant_id safe_filename attachment sender_email subject ;;
     ret true)
    (fun _ => ret false).

(** The loop of [process_email] over the attachments: the number processed. *)
Fixpoint process_attachments (tenant_id : string) (attachments : list Attachment)
  (from_email subject : string) : M nat :=
  match attachments with
  | [] => ret O
  | attachment :: rest =>
      success <- _process_attachment tenant_id attachment from_email subject ;;
      count <- process_attachments tenant_id rest from_email subject ;;
      ret (if success then S count else count)
  end.

(** [process_email]: the result and the processor afterwards. *)
Definition process_email (self : EmailReceiptProcessor) (email_data : EmailData)
  : M (bool * EmailReceiptProcessor) :=
  try_except
    (msg <- item "body" (body email_data) ;;
     let from_email :=
       _extract_email_address (match From msg with Some x => x | None => "" end) in
     let to_email :=
       _extract_email_address (match To msg with Some x => x | None => "" end) in
     let subject := match Subject msg with Some x => x | None => "No Subject" end in
     let message_id := match MessageID msg with Some x => x | None => "" end in
     let email_hash := sha256_hex E (message_id ++ from_email)%string in
     if existsb (String.eqb email_hash) (processed_emails self) then ret (true, self)
     else
       tenant_id <- _get_tenant_by_email to_email from_email ;;
       match nonempty tenant_id with
       | None =>
           _send_error_email from_email ;;
           ret (false, self)
       | Some tenant_id =>
           match _extract_attachments (parts msg) with
           | [] =>
               _send_error_email from_email ;;
               ret (false, self)
           | attachments =>
               processed_count <- process_attachments tenant_id attachments
                                    from_email subject ;;
               (if (0 <? processed_count)%nat
                then _send_confirmation_email from_email
                else ret tt) ;;
               ret ((0 <? processed_count)%nat,
                    mkProcessor (email_hash :: processed_emails self))
           end
       end)
    (fun _ => ret (false, self)).

(** [main]: the HTTP entry point; the result is the status code. *)
Definition main (req : option EmailData) : M nat :=
  try_except
    (match req with
     | None => ret 400%nat
     | Some email_data =>
         let processor := new_processor in
         r <- process_email processor email_data ;;
         if fst r then ret 200%nat else ret 500%nat
     end)
    (fun _ => ret 500%nat).

End WithEnv.

End EmailProcessing.

(* ================================================================== *)
(** * Concrete worlds *)
(* ================================================================== *)

(** Inputs on which the functions above are evaluated in the theorems. *)
Module Examples.
Import Py Cloud.

(** An analysis result: a merchant, a total of 110.00 and no line item. *)
Definition sample_result : Extraction.AnalyzeResult :=
  {| Extraction.documents :=
       [ {| Extraction.MerchantName := Some (Extraction.text_field "Corner Cafe");
            Extraction.VendorName := None;
            Extraction.TransactionDate := None;
            Extraction.Total := Some (Extraction.currency_field 110%float);
            Extraction.Items := None |} ] |}.

(** The ledger's text filter read as a case-insensitive substring test. *)
Definition contains_ci (text name : string) : bool :=
  Str.contains (Str.upper text) (Str.upper name).

(** An oracle under which every call takes one second and every request is
    accepted; [bad] lists the positions of the external calls that raise. *)
Definition oracle (bad : list nat) : Env :=
  {| fault := fun n => existsb (Nat.eqb n) bad;
     latency := fun _ => 1%Q;
     http_ok := fun _ => true;
     uniform1 := fun _ => 1%Q;
     uniform2 := fun _ => 0.25%Q;
     analyze := fun _ => sample_result;
     py_hash := fun _ => 4242%Z;
     sha256_hex := fun s => ("#" ++ s)%string;
     uuid4 := fun n => ("uuid-" ++ Str.of_Z (Z.of_nat n))%string;
     ledger_id := fun n => ("id-" ++ Str.of_Z (Z.of_nat n))%string;
     isoformat := fun q => ("t" ++ Str.of_Z (AzureFunctions.int_of_Q q))%string;
     strftime_stamp := fun q => Str.of_Z (AzureFunctions.int_of_Q q);
     strftime_ymd := fun q => ("d" ++ Str.of_Z (AzureFunctions.int_of_Q q))%string;
     name_contains := contains_ci;
     token_response := fun _ => mkToken (Some "fresh") (Some "r2") (Some 1800%Q) None |}.

Definition quiet : Env := oracle [].

(** A tenant record as [TenantService.create_tenant] writes it, with the
    settings the scenarios need. *)
Definition tenant (tenant_id : string) (auto_pay : bool) (bank : option string)
  (senders : list string) : TenantDoc.t :=
  TenantDoc.mk tenant_id tenant_id "active" None true auto_pay bank senders 0 None.

Definition empty_world : World :=
  {| clock := 1000%Q;
     log := [];
     rate_limiter := RateLimiter.init;
     db := mkDatabase [] [] [] [] [];
     storage := [];
     vault := [];
     ledger := mkLedger [] [] [];
     outbox := [] |}.

(** One tenant with processing enabled and no ledger integration; its upload
    container holds the document [receipt.pdf]. *)
Definition upload_world (tenant_id : string) : World :=
  set_storage [ mkBlob (AzureFunctions.uploads_container tenant_id) "receipt.pdf" "%PDF" [] ]
    (set_db (mkDatabase [ tenant tenant_id false None [] ] [] [] [] []) empty_world).

Definition upload : AzureFunctions.InputStream :=
  AzureFunctions.mkInputStream "receipt.pdf" "%PDF".

(** A tenant id as [uuid.uuid4()] prints it. *)
Definition uuid_tenant : string := "3f2b8c1e-9d4a-4c7b-8e21-5a6f0b1c2d3e".

(** A receipt record that was synchronised, and one that was not. *)
Definition synced_receipt : ReceiptDoc.t :=
  ReceiptDoc.mk "acme-900-1" "acme" "old.pdf" (Some "Corner Cafe") (Some "t900")
    (Some 110%float) (Some (PyFloat 11%float)) [] "completed" "t900" (Some "t901")
    (Some "inv-1") (Some "success") None.

Definition failed_receipt : ReceiptDoc.t :=
  ReceiptDoc.mk "acme-950-2" "acme" "bad.pdf" (Some "Corner Cafe") (Some "t950")
    (Some 20%float) (Some (PyFloat 2%float)) [] "failed" "t950" (Some "t951")
    None (Some "error") None.

(** A tenant connected to the ledger organisation [org-1], with a valid token. *)
Definition integration (tenant_id org : string) : IntegrationDoc.t :=
  IntegrationDoc.mk ("xero-" ++ tenant_id) tenant_id "client" "secret" (Some org).

Definition valid_token : TokenData :=
  mkToken (Some "token") (Some "r1") (Some 1800%Q) (Some 100000%Q).

Definition connected_world : World :=
  set_vault [ ("xero-token-acme", valid_token) ]
    (set_db (mkDatabase [ tenant "acme" false None [] ]
                        [ synced_receipt; failed_receipt ]
                        [ integration "acme" "org-1" ] [] [])
       (set_storage [ mkBlob (AzureFunctions.uploads_container "acme") "receipt.pdf" "%PDF" [] ]
          (set_ledger (mkLedger [ mkContact "org-1" "c-1" "CORNER CAFE" true false ] [] [])
             empty_world))).

(** Auto-pay: tenant [a] has no bank account, tenant [b] has one and one
    authorised bill of 25.00 in its organisation. *)
Definition bill_25 : Invoice :=
  mkInvoice "org-b" "bill-1" "ACCPAY" (Some "c-9") "2024-05-01"
    (Some "/Date(1714521600000+0000)/") "Inclusive" [] "AUTHORISED" "AUD"
    (Some 25%float).

Definition autopay_world : World :=
  set_vault [ ("xero-token-a", valid_token); ("xero-token-b", valid_token) ]
    (set_db (mkDatabase [ tenant "a" true None []; tenant "b" true (Some "bank-1") [] ]
                        []
                        [ integration "a" "org-a"; integration "b" "org-b" ] [] [])
       (set_ledger (mkLedger [] [ bill_25 ] []) empty_world)).

(** E-mail: a message with one PDF attachment from an authorised sender. *)
Definition mail : EmailProcessing.EmailData :=
  {| EmailProcessing.body :=
       Some {| EmailProcessing.From := Some "Ann <ann@example.com>";
               EmailProcessing.To := Some "acme@receipts.xeroflow.com";
               EmailProcessing.Subject := Some "Lunch";
               EmailProcessing.MessageID := Some "<m1@example.com>";
               EmailProcessing.parts :=
                 [ EmailProcessing.mkPart None None (Some "see attached") "text/plain";
                   EmailProcessing.mkPart (Some "attachment") (Some "lunch.pdf")
                     (Some "%PDF") "application/pdf" ] |} |}.

Definition mail_world : World :=
  set_db (mkDatabase [ tenant "acme" false None [ "ann@example.com" ] ] [] [] []
                     [ MappingDoc.mk "mapping-acme" "acme" "acme@receipts.xeroflow.com" ])
    empty_world.

Definition lunch : EmailProcessing.Attachment :=
  EmailProcessing.mkAttachment "lunch.pdf" "%PDF" "application/pdf" 4.

(** Raw line items: a description without amount, an amount without
    description, neither, and both. *)
Definition only_description : Extraction.ItemField :=
  Extraction.mkItemField
    (Some (Extraction.mkItemObject (Some (Extraction.text_field "Coffee")) None None)).

Definition only_amount : Extraction.ItemField :=
  Extraction.mkItemField
    (Some (Extraction.mkItemObject None None (Some (Extraction.currency_field 4.5%float)))).

Definition neither : Extraction.ItemField :=
  Extraction.mkItemField (Some (Extraction.mkItemObject None None None)).

Definition complete_item : Extraction.ItemField :=
  Extraction.mkItemField
    (Some (Extraction.mkItemObject (Some (Extraction.text_field "Coffee")) None
                                   (Some (Extraction.currency_field 4.5%float)))).

End Examples.

(* ================================================================== *)
(** * Properties of runs *)
(* ================================================================== *)

(** The vocabulary in which the theorems below speak about a run of one of
    the functions: what it added to the trace, and what it left in place. *)
Module Logic.
Import Cloud.

(** The external calls a run from [w] to [w'] added to the trace. *)
Definition events_since (w w' : World) : list (Event * bool) :=
  skipn (List.length (log w)) (log w').

(** [m] relates every world to the world it leaves behind by [T]. *)
Definition stays (T : World -> World -> Prop) {A : Type} (m : M A) : Prop :=
  forall w, T w (snd (m w)).

(** [m] always returns normally. *)
Definition never_raises {A : Type} (m : M A) : Prop :=
  forall w, exists a, fst (m w) = Ok a.

(** The trace grew by events that all satisfy [P]. *)
Definition extends (P : Event * bool -> Prop) (w w' : World) : Prop :=
  exists evs, log w' = (log w ++ evs)%list /\ Forall P evs.

(** The ledger fields of a receipt record agree: an invoice id is present
    exactly when the synchronisation status is ["success"]. *)
Definition consistent (r : ReceiptDoc.t) : Prop :=
  ReceiptDoc.xeroInvoiceId r <> None <-> ReceiptDoc.xeroStatus r = Some "success".

Definition all_consistent (w : World) : Prop :=
  Forall consistent (receipts (db w)).

Definition keeps_consistent (w w' : World) : Prop :=
  all_consistent w -> all_consistent w'.

(** Neither the receipt records nor the stored blobs changed. *)
Definition untouched (w w' : World) : Prop :=
  receipts (db w') = receipts (db w) /\ storage w' = storage w.

(** Events that neither analyse a document, nor create a receipt record, nor
    delete a blob. *)
Definition routine (e : Event * bool) : Prop :=
  match fst e with
  | Analyze _ => False
  | CreateItem Receipts _ => False
  | DeleteBlob _ _ => False
  | _ => True
  end.

(** The relations a run is followed with: preorders that ignore the clock
    and the rate limiter. *)
Class Frame (T : World -> World -> Prop) : Prop := {
  frame_refl : forall w, T w w;
  frame_trans : forall a b c, T a b -> T b c -> T a c;
  frame_clock : forall w x, T w (set_clock x w);
  frame_limiter : forall w x, T w (set_rate_limiter x w)
}.

(** [T] holds between a world and the same world with [ev] entered in the trace. *)
Definition accepts (T : World -> World -> Prop) (ev : Event) : Prop :=
  forall w b, T w (set_log (log w ++ [(ev, b)])%list w).

(** [m] returns normally and adds to the trace events of the shape [S]. *)
Definition yields {A : Type} (m : M A) (S : list (Event * bool) -> Prop) : Prop :=
  forall w, exists a w' evs,
    m w = (Ok a, w') /\ log w' = (log w ++ evs)%list /\ S evs.

(** The part of [process_receipt_blob] that follows [store_receipt_data]. *)
Definition after_store (E : Env) (blob : AzureFunctions.InputStream)
  (tenant_id blob_content : string) (receipt_data : Extraction.ReceiptData)
  (receipt_id : string) : M bool :=
  (AzureFunctions.move_blob_to_processing E tenant_id (AzureFunctions.name blob)
     blob_content ;;
   xero_success <- AzureFunctions.process_to_xero E tenant_id receipt_data receipt_id ;;
   (if xero_success
    then AzureFunctions.move_blob_to_complete E tenant_id (AzureFunctions.name blob)
           blob_content ;;
         AzureFunctions.update_receipt_status E receipt_id "completed"
    else AzureFunctions.update_receipt_status E receipt_id "failed") ;;
   AzureFunctions.update_tenant_usage E tenant_id ;;
   AzureFunctions.delete_from_uploads E tenant_id (AzureFunctions.name blob) ;;
   ret xero_success)%monad.

(** The shape of the trace of [after_store]: the status update is attempted,
    then the usage update, and the delete of the upload comes last; nothing
    else analyses, creates a receipt record or deletes a blob. *)
Definition finishing_trace (tenant_id blob_name receipt_id : string)
  (evs : list (Event * bool)) : Prop :=
  exists mid b1 rest1 b2 rest2 b3,
    evs = (mid ++ (ReadItem Receipts receipt_id (Str.split_head "-" receipt_id), b1)
               :: rest1 ++ (ReadItem Tenants tenant_id tenant_id, b2)
               :: rest2 ++ [(DeleteBlob (AzureFunctions.uploads_container tenant_id)
                                        blob_name, b3)])%list
    /\ Forall routine mid /\ Forall routine rest1 /\ Forall routine rest2.

(** The events of [process_receipt_blob] that precede a successful analysis. *)
Definition before_record (e : Event * bool) : Prop :=
  match e with
  | (BlobRead _, _) => True
  | (ReadItem Tenants _ _, _) => True
  | (Analyze _, false) => True
  | _ => False
  end.

(** Events that are not the deletion of a blob. *)
Definition not_delete (e : Event * bool) : Prop :=
  match fst e with DeleteBlob _ _ => False | _ => True end.

(** [n] successive calls of [create_or_get_xero_contact] with the same
    arguments, and their results. *)
Fixpoint resolve_times (E : Env) (access_token xero_tenant_id merchant_name : string)
  (n : nat) : M (list (option string)) :=
  match n with
  | O => ret []
  | S k =>
      (r <- AzureFunctions.create_or_get_xero_contact E access_token xero_tenant_id
              merchant_name ;;
       rs <- resolve_times E access_token xero_tenant_id merchant_name k ;;
       ret (r :: rs))%monad
  end.

(** The contacts of an organisation whose name equals the merchant name up to
    case. *)
Definition same_name_contacts (xero_tenant_id merchant_name : string) (w : World)
  : list Contact :=
  filter (fun c => String.eqb (ContactOrg c) xero_tenant_id
                   && String.eqb (Str.upper (Name c)) (Str.upper merchant_name))
         (contacts (ledger w)).

(** The identifier, the status and the ledger fields of the records of a world. *)
Definition summary (w : World) : list (string * string * option string * option string) :=
  map (fun r => (ReceiptDoc.id r, ReceiptDoc.status r,
                 ReceiptDoc.xeroInvoiceId r, ReceiptDoc.xeroStatus r))
      (receipts (db w)).

(** The records of the database did not change. *)
Definition same_db (w w' : World) : Prop := db w' = db w.

(** The receipt records did not change. *)
Definition same_receipts (w w' : World) : Prop := receipts (db w') = receipts (db w).

End Logic.

(* ================================================================== *)
(** * azure_functions.py: the scheduled sweep *)
(* ================================================================== *)

(** [scheduled_processing_function], the timer trigger that looks for uploads
    the blob trigger missed.  It calls [process_receipt_blob] on a
    [MockInputStream] whose [read()] returns the downloaded bytes and cannot
    fail; [process_receipt_blob] treats every [blob.read()] as a call that
    may, so the model has every run of the source, and more. *)
Module ScheduledProcessing.
Import Py Cloud AzureFunctions.
#[local] Open Scope monad_scope.

Section WithEnv.
Variable E : Env.

(** [list(container_client.list_blobs())]: the blobs of the container at the
    time of the call.  The trace enters the listing as a read of the
    container. *)
Definition list_blobs (cont : string) : M (list Blob) :=
  call E (BlobRead cont)
    (fun w => (Ok (filter (fun b => String.eqb (container b) cont) (storage w)), w)).

(** [container_client.get_blob_client(name).download_blob().readall()] *)
Definition download_blob (cont name : string) : M string :=
  call E (BlobRead (cont ++ "/" ++ name)%string)
    (fun w =>
       match find (same_blob cont name) (storage w) with
       | Some b => (Ok (content b), w)
       | None => (Raise NotFound, w)
       end).

(** The body of the inner loop: one pending blob of a tenant. *)
Definition process_pending_blob (tenant_id uploads_container_name : string) (blob : Blob)
  : M unit :=
  try_except
    (content <- download_blob uploads_container_name (blob_name blob) ;;
     let mock_blob :=
       mkInputStream (uploads_container_name ++ "/" ++ blob_name blob)%string content in
     _ <- process_receipt_blob E mock_blob tenant_id ;;
     ret tt)
    (fun _ => ret tt).

(** The body of the outer loop: the pending uploads of one tenant, at most
    five of them ([blobs[:5]]). *)
Definition check_pending_uploads (tenant : TenantDoc.t) : M unit :=
  let tenant_id := TenantDoc.tenantId tenant in
  let uploads_container_name := uploads_container tenant_id in
  try_except
    (blobs <- list_blobs uploads_container_name ;;
     match blobs with
     | [] => ret tt
     | _ => for_each (firstn 5 blobs)
              (process_pending_blob tenant_id uploads_container_name)
     end)
    (fun _ => ret tt).

(** [scheduled_processing_function]: the timer trigger (every 15 minutes). *)
Definition scheduled_processing_function : M unit :=
  try_except
    (tenants <- query_items E Tenants tenants
                  (fun t => String.eqb (TenantDoc.status t) "active"
                            && TenantDoc.processingEnabled t) ;;
     for_each tenants check_pending_uploads)
    (fun _ => ret tt).

End WithEnv.

End ScheduledProcessing.

(* ================================================================== *)
(** * Further properties of runs *)
(* ================================================================== *)

(** The vocabulary of the theorems on paths, uploads, tokens, payments and
    the e-mail adapter. *)
Module Properties.
Import Py Cloud AzureFunctions.

(** A lower-case hexadecimal digit or a hyphen: the characters of
    [str(uuid.uuid4())]. *)
Definition hex_or_hyphen (c : ascii) : bool :=
  let n := nat_of_ascii c in
  ((48 <=? n)%nat && (n <=? 57)%nat) || ((97 <=? n)%nat && (n <=? 102)%nat)
  || (n =? 45)%nat.

Fixpoint all_chars (p : ascii -> bool) (s : string) : bool :=
  match s with
  | EmptyString => true
  | String c r => p c && all_chars p r
  end.

(** A tenant id in the format of a UUID. *)
Definition uuid_like (s : string) : bool := all_chars hex_or_hyphen s.

(** A blob that lies in some tenant's upload container. *)
Definition is_upload (b : Blob) : bool := Str.endswith "-uploads" (container b).

(** The blobs that wait in the upload containers. *)
Definition pending (w : World) : list Blob := filter is_upload (storage w).

(** No waiting blob has a name that begins like a container name. *)
Definition plainly_named (w : World) : Prop :=
  forall b, In b (pending w) -> Str.startswith "tenant-" (blob_name b) = false.

(** When the waiting blobs are plainly named, they are the same afterwards. *)
Definition uploads_stay (w w' : World) : Prop :=
  plainly_named w -> pending w' = pending w.

(** At most [k] receipt records were added, and none removed. *)
Definition grows_by (k : nat) (w w' : World) : Prop :=
  (List.length (receipts (db w)) <= List.length (receipts (db w'))
   <= List.length (receipts (db w)) + k)%nat.

(** The tenant record after one more processed receipt. *)
Definition counted (now_iso : string) (t : TenantDoc.t) : TenantDoc.t :=
  TenantDoc.mk (TenantDoc.id t) (TenantDoc.tenantId t) (TenantDoc.status t)
    (TenantDoc.email t) (TenantDoc.processingEnabled t) (TenantDoc.autoPayEnabled t)
    (TenantDoc.bankAccountId t) (TenantDoc.authorizedSenders t)
    (TenantDoc.receiptsProcessed t + 1)%Z (Some now_iso).

(** The line of a bill for one line item of a receipt. *)
Definition bill_line (receipt_data : Extraction.ReceiptData) (it : Extraction.ItemData)
  : LineItem :=
  mkLineItem
    (Str.take 4000 (match Extraction.description it with Some d => d | None => "" end))
    (Extraction.quantity it)
    (match Extraction.unit_amount it with Some a => a | None => 0%float end)
    "310" (tax_type receipt_data).

(** The single line of a bill for a receipt without line items. *)
Definition fallback_line (receipt_data : Extraction.ReceiptData) : LineItem :=
  mkLineItem
    (Extraction.merchant receipt_data ++ " - " ++ Extraction.date receipt_data)%string
    (PyInt 1) (Extraction.total receipt_data) "310" (tax_type receipt_data).

(** The records and the ledger are as before. *)
Definition same_books (w w' : World) : Prop := db w' = db w /\ ledger w' = ledger w.

(** The ledger is as before. *)
Definition same_ledger (w w' : World) : Prop := ledger w' = ledger w.

(** Nothing but the clock and the rate limiter changed, and the limiter kept
    its ceiling. *)
Definition only_waited (w w' : World) : Prop :=
  log w' = log w /\ db w' = db w /\ storage w' = storage w /\ vault w' = vault w /\
  ledger w' = ledger w /\ outbox w' = outbox w /\
  RateLimiter.max_requests_per_minute (rate_limiter w')
  = RateLimiter.max_requests_per_minute (rate_limiter w).

(** A bill the auto-pay sweep may pay: an authorised bill of the
    organisation with a positive amount due. *)
Definition payable (xero_tenant_id : string) (inv : Invoice) : bool :=
  String.eqb (InvoiceOrg inv) xero_tenant_id
  && String.eqb (Type_ inv) "ACCPAY"
  && String.eqb (Status inv) "AUTHORISED"
  && amount_due_positive inv.

(** No recorded request time lies in the future. *)
Definition timely (st : RateLimiter.State) : Prop :=
  Forall (fun t => (t <= snd st)%Q) (RateLimiter.request_times (fst st)).

(** The bill [create_xero_invoice] sends for a receipt. *)
Definition bill_of (xero_tenant_id invoice_id contact_id : string)
  (receipt_data : Extraction.ReceiptData) (lines : list LineItem) : Invoice :=
  mkInvoice xero_tenant_id invoice_id "ACCPAY" (Some contact_id)
    (Str.take 10 (Extraction.date receipt_data))
    (Some (Str.take 10 (Extraction.date receipt_data)))
    "Inclusive" lines "DRAFT" "AUD" None.

(** Whenever [m] returns normally, the value it returns satisfies [P]. *)
Definition returns_in {A : Type} (P : A -> Prop) (m : M A) : Prop :=
  forall w a w', m w = (Ok a, w') -> P a.

(** The extension of a file name is one of the supported ones, whatever the
    case of its letters. *)
Definition supported_name (filename : string) : bool :=
  existsb (String.eqb (EmailProcessing.splitext_ext (Str.lower filename)))
          EmailProcessing.SUPPORTED_EXTENSIONS.

(** The attachment [_extract_attachments] builds from a part with the given
    file name and content. *)
Definition attachment_of (part : EmailProcessing.Part) (filename content : string)
  : EmailProcessing.Attachment :=
  EmailProcessing.mkAttachment filename content (EmailProcessing.content_type part)
    (String.length content).

(** The sender address and the hash by which [process_email] recognises a
    message. *)
Definition sender_of (msg : EmailProcessing.Message) : string :=
  EmailProcessing._extract_email_address
    (match EmailProcessing.From msg with Some x => x | None => "" end).

Definition recipient_of (msg : EmailProcessing.Message) : string :=
  EmailProcessing._extract_email_address
    (match EmailProcessing.To msg with Some x => x | None => "" end).

(** The test [_is_sender_authorized] makes on the records it has read: the
    sender is the lower-cased [email] of a record of the tenants container
    with the tenant id, or an entry of the tenant's authorised senders. *)
Definition sender_matches (tenant_id sender_email : string) (t : TenantDoc.t)
  (w : World) : bool :=
  existsb (fun user =>
             String.eqb
               (Str.lower (match TenantDoc.email user with Some e => e | None => "" end))
               sender_email)
          (filter (fun t => String.eqb (TenantDoc.tenantId t) tenant_id) (tenants (db w)))
  || existsb (String.eqb sender_email) (TenantDoc.authorizedSenders t).

(** The name under which [_process_attachment] stores an attachment it
    receives at time [now]. *)
Definition safe_filename (E : Env) (now : Q) (sender_email filename : string) : string :=
  ("email_" ++ strftime_stamp E now ++ "_" ++ Str.take 8 (sha256_hex E sender_email)
     ++ "_" ++ filename)%string.

Definition message_hash (E : Env) (msg : EmailProcessing.Message) : string :=
  sha256_hex E ((match EmailProcessing.MessageID msg with Some x => x | None => "" end)
                ++ sender_of msg)%string.

End Properties.

(* ================================================================== *)
(** * Further concrete worlds *)
(* ================================================================== *)

Module Scenarios.
Import Py Cloud Examples.

(** The oracle of the examples, except that the ledger answers the requests
    at the positions [refused] with a status that is not ok. *)
Definition refusing (refused : list nat) : Env :=
  {| fault := fault quiet;
     latency := latency quiet;
     http_ok := fun n => negb (existsb (Nat.eqb n) refused);
     uniform1 := uniform1 quiet;
     uniform2 := uniform2 quiet;
     analyze := analyze quiet;
     py_hash := py_hash quiet;
     sha256_hex := sha256_hex quiet;
     uuid4 := uuid4 quiet;
     ledger_id := ledger_id quiet;
     isoformat := isoformat quiet;
     strftime_stamp := strftime_stamp quiet;
     strftime_ymd := strftime_ymd quiet;
     name_contains := name_contains quiet;
     token_response := token_response quiet |}.

(** The message of [mail] without its [From] header. *)
Definition anonymous_mail : EmailProcessing.EmailData :=
  {| EmailProcessing.body :=
       Some {| EmailProcessing.From := None;
               EmailProcessing.To := Some "acme@receipts.xeroflow.com";
               EmailProcessing.Subject := Some "Lunch";
               EmailProcessing.MessageID := Some "<m2@example.com>";
               EmailProcessing.parts :=
                 [ EmailProcessing.mkPart (Some "attachment") (Some "LUNCH.PDF")
                     (Some "%PDF") "application/pdf" ] |} |}.

(** The message of [mail]. *)
Definition lunch_message : EmailProcessing.Message :=
  {| EmailProcessing.From := Some "Ann <ann@example.com>";
     EmailProcessing.To := Some "acme@receipts.xeroflow.com";
     EmailProcessing.Subject := Some "Lunch";
     EmailProcessing.MessageID := Some "<m1@example.com>";
     EmailProcessing.parts :=
       [ EmailProcessing.mkPart None None (Some "see attached") "text/plain";
         EmailProcessing.mkPart (Some "attachment") (Some "lunch.pdf")
           (Some "%PDF") "application/pdf" ] |}.

(** Extracted data of a receipt of the Corner Cafe without line items. *)
Definition cafe_receipt : Extraction.ReceiptData :=
  Extraction.mkReceiptData "Corner Cafe" "2024-05-01T09:30:00" 110%float
    (PyFloat 10%float) [] sample_result.

(** [connected_world] with an integration record that lacks [xeroTenantId]. *)
Definition unlinked_world : World :=
  set_db (mkDatabase [ tenant "acme" false None [] ]
                     [ synced_receipt; failed_receipt ]
                     [ IntegrationDoc.mk "xero-acme" "acme" "client" "secret" None ] [] [])
    connected_world.

End Scenarios.

(* ################################################################## *)
(** * Theorems *)
(* ################################################################## *)

(* ================================================================== *)
(** ** Normalisation of the analysis result *)
(* ================================================================== *)

Module NormalisationFacts.
Import Py Extraction Examples.

(** Two floats are different when the IEEE comparison tells them apart and the
    second is a number. *)
Lemma float_neq (x y : float) :
  PrimFloat.eqb x y = false -> PrimFloat.eqb y y = true -> x <> y.
Proof. intros H1 H2 Heq. subst y. congruence. Qed.

Lemma PyFloat_inj (x y : float) : PyFloat x = PyFloat y -> x = y.
Proof. intro H. injection H as H. exact H. Qed.

(** C1 (as amended). The tax stored on the normalised receipt is the binary64
    product of the total and 0.1, not rounded, when the total is positive, and
    the integer 0 otherwise; a total of 110.00 gives 11.00 and a total of 0
    gives 0. *)
Theorem tax_is_unrounded_tenth_of_total :
  (forall (now_iso : string) (r : AnalyzeResult),
      tax (normalize now_iso r)
      = if PrimFloat.ltb 0%float (total (normalize now_iso r))
        then PyFloat (PrimFloat.mul (total (normalize now_iso r)) 0.1%float)
        else PyInt 0)
  /\ (forall now_iso t,
        total (normalize now_iso (result_with_total t)) = t)
  /\ (forall now_iso,
        tax (normalize now_iso (result_with_total 110%float)) = PyFloat 11%float)
  /\ (forall now_iso,
        tax (normalize now_iso (result_with_total 0%float)) = PyInt 0).
Proof.
  split; [| split; [| split]].
  - intros now_iso r. unfold normalize, tax_of. simpl. reflexivity.
  - intros now_iso t. reflexivity.
  - intros now_iso. vm_compute. reflexivity.
  - intros now_iso. vm_compute. reflexivity.
Qed.

(** C1 (as stated) fails: for a total of 12.34 the stored tax is the float
    1.234, while [round(12.34 * 0.10, 2)] is 1.23. *)
Lemma tax_of_12_34_is_not_rounded :
  tax (normalize "2024-05-01T00:00:00" (result_with_total 12.34%float))
  <> spec_tax 12.34%float.
Proof.
  intro H. vm_compute in H. apply PyFloat_inj in H. revert H.
  apply float_neq; vm_compute; reflexivity.
Qed.

(** Membership in the list built by the loop over the raw line items. *)
Lemma collect_items_In (arr : list ItemField) (d : ItemData) :
  In d (collect_items arr) <->
  exists o, In (mkItemField (Some o)) arr /\ d = build_item_data o /\ keep_item d = true.
Proof.
  induction arr as [| [vo] arr IH]; simpl.
  - split; [tauto | intros (o & [] & _)].
  - destruct vo as [o |].
    + destruct (keep_item (build_item_data o)) eqn:K; simpl; rewrite IH.
      * split.
        -- intros [<- | (o' & Hin & Hd & Hk)]; [exists o; auto | exists o'; auto].
        -- intros (o' & [Heq | Hin] & Hd & Hk).
           ++ injection Heq as <-. left. auto.
           ++ right. exists o'. auto.
      * split.
        -- intros (o' & Hin & Hd & Hk). exists o'. auto.
        -- intros (o' & [Heq | Hin] & Hd & Hk).
           ++ injection Heq as <-. subst d. congruence.
           ++ exists o'. auto.
    + rewrite IH. split.
      * intros (o' & Hin & Hd & Hk). exists o'. auto.
      * intros (o' & [Heq | Hin] & Hd & Hk); [discriminate | exists o'; auto].
Qed.

Lemma keep_item_spec (o : ItemObject) :
  keep_item (build_item_data o) = true <->
  exists s a, item_description o = Some s /\ s <> "" /\
              item_unit_amount o = Some a /\ truthy_float a = true.
Proof.
  unfold keep_item, build_item_data. simpl.
  destruct (item_description o) as [s |], (item_unit_amount o) as [a |].
  - rewrite andb_true_iff. split.
    + intros [Hs Ha]. exists s, a. repeat split; auto.
      intro; subst s; discriminate.
    + intros (s' & a' & Hs & Hne & Ha & Ht).
      injection Hs as <-. injection Ha as <-. split; auto.
      destruct s; [congruence | reflexivity].
  - split; [discriminate | intros (s' & a' & _ & _ & Ha & _); discriminate].
  - split; [discriminate | intros (s' & a' & Hs & _); discriminate].
  - split; [discriminate | intros (s' & a' & Hs & _); discriminate].
Qed.

(** C2 (as amended). A raw line item reaches the normalised list exactly when
    it carries both a non-empty description and a non-zero amount; an item
    that lacks its description, its amount, or both, is dropped. *)
Theorem line_item_kept_iff_description_and_amount
  (now_iso : string) (arr : list ItemField) (d : ItemData) :
  In d (items (normalize now_iso (result_with_items arr))) <->
  exists o, In (mkItemField (Some o)) arr /\ d = build_item_data o /\
            exists s a, item_description o = Some s /\ s <> "" /\
                        item_unit_amount o = Some a /\ truthy_float a = true.
Proof.
  change (items (normalize now_iso (result_with_items arr))) with (collect_items arr).
  rewrite collect_items_In. split.
  - intros (o & Hin & Hd & Hk). exists o. repeat split; auto.
    apply keep_item_spec. subst d. exact Hk.
  - intros (o & Hin & Hd & Hk). exists o. repeat split; auto.
    subst d. apply keep_item_spec. exact Hk.
Qed.

(** C2 (as stated) fails: a line item with the description "Coffee" and no
    amount is dropped, and so is one with an amount and no description. *)
Lemma item_with_description_only_is_dropped :
  (exists o, value_object only_description = Some o /\
             item_description o = Some "Coffee" /\ item_unit_amount o = None) /\
  items (normalize "2024-05-01T00:00:00" (result_with_items [only_description])) = [] /\
  (exists o a, value_object only_amount = Some o /\
               item_description o = None /\ item_unit_amount o = Some a) /\
  items (normalize "2024-05-01T00:00:00" (result_with_items [only_amount])) = [].
Proof.
  repeat split.
  - eexists. repeat split; reflexivity.
  - eexists. eexists. repeat split; reflexivity.
Qed.

End NormalisationFacts.

(* ================================================================== *)
(** ** The rate limiter *)
(* ================================================================== *)

Module RateLimiterFacts.
Import RateLimiter.
#[local] Open Scope Q_scope.

Lemma Qltb_iff (a b : Q) : Qltb a b = true <-> a < b.
Proof.
  unfold Qltb. rewrite negb_true_iff.
  split; intro H.
  - destruct (Qlt_le_dec a b) as [Hl | Hl]; [exact Hl |].
    apply Qle_bool_iff in Hl. congruence.
  - destruct (Qle_bool b a) eqn:E; [| reflexivity].
    apply Qle_bool_iff in E. lra.
Qed.

(** A later window holds no more of the recorded timestamps. *)
Lemma prune_length_mono (l : list Q) (T T' : Q) :
  T <= T' -> (List.length (prune T' l) <= List.length (prune T l))%nat.
Proof.
  intro HT. induction l as [| t l IH]; simpl; [lia |].
  destruct (Qltb (T' - t) 60) eqn:E'.
  - apply Qltb_iff in E'.
    assert (E : Qltb (T - t) 60 = true) by (apply Qltb_iff; lra).
    rewrite E. simpl. lia.
  - destruct (Qltb (T - t) 60); simpl; lia.
Qed.

Lemma prune_length_le (l : list Q) (T : Q) :
  (List.length (prune T l) <= List.length l)%nat.
Proof. unfold prune. apply filter_length_le. Qed.

Lemma prune_head_recent (now t0 : Q) (l rest : list Q) :
  prune now l = t0 :: rest -> now - t0 < 60.
Proof.
  intro H. apply Qltb_iff.
  assert (In t0 (prune now l)) as Hin by (rewrite H; left; reflexivity).
  unfold prune in Hin. apply filter_In in Hin. tauto.
Qed.

Lemma bounded_init (t0 : Q) : bounded (init, t0).
Proof. repeat split. intros T _. unfold in_window. simpl. lia. Qed.

(** One call keeps the bound: when the window is full the call sleeps until
    the oldest kept timestamp is 65 seconds old, so that timestamp has left
    the window by the time the new one is recorded. *)
Lemma step_bounded (st : State) (c : Call) :
  well_formed c -> bounded st -> exists st', step st c = Some st' /\ bounded st'.
Proof.
  destruct st as [self clock]. intros (Hgap & Hd1 & Hd2) (Hlast & Hmax & Hwin).
  simpl in Hlast, Hmax, Hwin.
  unfold step, wait_if_needed. rewrite Hlast, Hmax. simpl cooling_down. cbv iota.
  set (now := clock + gap c).
  assert (Hnow : (List.length (prune now (request_times self)) <= 50)%nat).
  { apply (Hwin now). unfold now. lra. }
  destruct (50 <=? List.length (prune now (request_times self)))%nat eqn:Hfull.
  - apply Nat.leb_le in Hfull.
    destruct (prune now (request_times self)) as [| t0 rest] eqn:Hp;
      [simpl in Hfull; lia |].
    pose proof (prune_head_recent _ _ _ _ Hp) as Hrecent.
    assert (Hpos : Qltb 0 (65 - (now - t0)) = true) by (apply Qltb_iff; lra).
    rewrite Hpos. eexists. split; [reflexivity |].
    repeat split; simpl; auto.
    intros T HT. unfold in_window. simpl request_times.
    change ((t0 :: rest) ++ [now])%list with (t0 :: (rest ++ [now]))%list.
    unfold prune at 1. simpl filter. fold (prune T (rest ++ [now])%list).
    assert (Hold : Qltb (T - t0) 60 = false).
    { destruct (Qltb (T - t0) 60) eqn:E; [| reflexivity].
      apply Qltb_iff in E. lra. }
    rewrite Hold.
    pose proof (prune_length_le (rest ++ [now])%list T) as Hle.
    rewrite length_app in Hle. simpl in Hle, Hnow. lia.
  - apply Nat.leb_gt in Hfull.
    eexists. split; [reflexivity |].
    repeat split; simpl; auto.
    intros T HT. unfold in_window. simpl request_times.
    pose proof (prune_length_le (prune now (request_times self) ++ [now])%list T) as Hle.
    rewrite length_app in Hle. simpl in Hle. lia.
Qed.

Lemma run_bounded (calls : list Call) :
  Forall well_formed calls ->
  forall st, bounded st -> exists st', run calls st = Some st' /\ bounded st'.
Proof.
  induction 1 as [| c calls Hc _ IH]; intros st Hst.
  - exists st. split; [reflexivity | exact Hst].
  - destruct (step_bounded st c Hc Hst) as (st1 & Hstep & Hinv1).
    destruct (IH st1 Hinv1) as (st' & Hrun & Hinv').
    exists st'. split; [| exact Hinv'].
    simpl. rewrite Hstep. exact Hrun.
Qed.

(** C7. Starting from a fresh limiter, after any sequence of sequential calls
    of [wait_if_needed] (each preceded by some non-negative amount of work,
    each sleeping on the same clock), the call sequence completes and, at
    every instant [T] from the return of the last call on, at most 50 of the
    recorded timestamps lie in the 60 seconds that end at [T]. *)
Theorem rate_limiter_window_bound (calls : list Call) (t0 : Q) :
  Forall well_formed calls ->
  exists self clock,
    run calls (init, t0) = Some (self, clock) /\
    forall T, clock <= T -> (in_window T self <= 50)%nat.
Proof.
  intro Hwf.
  destruct (run_bounded calls Hwf (init, t0) (bounded_init t0))
    as ([self clock] & Hrun & Hinv).
  exists self, clock. split; [exact Hrun |]. apply Hinv.
Qed.

Lemma burst_well_formed (n : nat) : Forall well_formed (burst n).
Proof.
  unfold burst. apply Forall_forall. intros c Hc.
  apply repeat_spec in Hc. subst c. unfold well_formed. simpl. lra.
Qed.

(** The bound of C7 on a burst of 51 calls. *)
Lemma rate_limiter_window_bound_witness :
  Forall well_formed (burst 51) /\
  exists self clock,
    run (burst 51) (init, 0) = Some (self, clock) /\
    forall T, clock <= T -> (in_window T self <= 50)%nat.
Proof.
  split.
  - apply burst_well_formed.
  - apply (rate_limiter_window_bound (burst 51) 0). apply burst_well_formed.
Defined.

(** The list itself may hold 51 entries: the 51st call of a burst is recorded
    with the time it was entered at, 40 seconds before it returns. What the
    bound counts is the window that ends at the current time. *)
Lemma burst_records_51_timestamps :
  match run (burst 51) (init, 0) with
  | Some (self, clock) =>
      List.length (request_times self) = 51%nat /\ in_window clock self = 40%nat
  | None => False
  end.
Proof. vm_compute. split; reflexivity. Qed.

End RateLimiterFacts.

(* ================================================================== *)
(** ** Reasoning about runs *)
(* ================================================================== *)

Module RunFacts.
Import Py Cloud Logic.

Section Stays.
Context {T : World -> World -> Prop} {HT : Frame T}.

Lemma stays_ret {A : Type} (a : A) : stays T (ret a).
Proof. intro w. apply frame_refl. Qed.

Lemma stays_raise {A : Type} (e : exn) : stays T (@raise A e).
Proof. intro w. apply frame_refl. Qed.

Lemma stays_bind {A B : Type} (m : M A) (k : A -> M B) :
  stays T m -> (forall a, stays T (k a)) -> stays T (bind m k).
Proof.
  intros Hm Hk w. unfold bind. specialize (Hm w).
  destruct (m w) as [[a | e] w1]; simpl in *.
  - eapply frame_trans; [exact Hm | apply Hk].
  - exact Hm.
Qed.

Lemma stays_try_except {A : Type} (m : M A) (h : exn -> M A) :
  stays T m -> (forall e, stays T (h e)) -> stays T (try_except m h).
Proof.
  intros Hm Hh w. unfold try_except. specialize (Hm w).
  destruct (m w) as [[a | e] w1]; simpl in *.
  - exact Hm.
  - eapply frame_trans; [exact Hm | apply Hh].
Qed.

Lemma stays_for_each {A : Type} (xs : list A) (body : A -> M unit) :
  (forall x, stays T (body x)) -> stays T (for_each xs body).
Proof.
  intro Hb. induction xs as [| x xs IH]; simpl.
  - apply stays_ret.
  - apply stays_bind; [apply Hb | intros _; exact IH].
Qed.

Lemma stays_get_clock : stays T get_clock.
Proof. intro w. apply frame_refl. Qed.

Lemma stays_next_index : stays T next_index.
Proof. intro w. apply frame_refl. Qed.

Lemma stays_item {A : Type} (key : string) (o : option A) : stays T (item key o).
Proof. destruct o; [apply stays_ret | apply stays_raise]. Qed.

Lemma stays_call (E : Env) {A : Type} (ev : Event) (act : World -> result A * World) :
  accepts T ev -> (forall w, T w (snd (act w))) -> stays T (call E ev act).
Proof.
  intros Hev Hact w. unfold call.
  set (w1 := set_clock _ w).
  assert (H1 : T w w1) by apply frame_clock.
  destruct (fault E (List.length (log w))).
  - eapply frame_trans; [exact H1 | exact (Hev w1 false)].
  - specialize (Hact w1). destruct (act w1) as [[a | e] w2];
      (eapply frame_trans; [exact H1 | eapply frame_trans; [exact Hact | apply Hev]]).
Qed.

Lemma stays_http (E : Env) {A : Type} (ev : Event) (body : World -> A)
  (effect : World -> World) :
  accepts T ev -> (forall w, T w (effect w)) -> stays T (http E ev body effect).
Proof.
  intros Hev Heff. apply stays_call; [exact Hev |].
  intro w. destruct (http_ok E (List.length (log w))); simpl;
    [apply Heff | apply frame_refl].
Qed.

Lemma stays_read_item (E : Env) {D : Type} (c : Container) (sel : Database -> list D)
  (id_of part_of : D -> string) (i pk : string) :
  accepts T (ReadItem c i pk) -> stays T (read_item E c sel id_of part_of i pk).
Proof.
  intro Hev. apply stays_call; [exact Hev |].
  intro w. destruct (lookup id_of part_of i pk (sel (db w))); apply frame_refl.
Qed.

Lemma stays_query_items (E : Env) {D : Type} (c : Container) (sel : Database -> list D)
  (keep : D -> bool) :
  accepts T (QueryItems c) -> stays T (query_items E c sel keep).
Proof. intro Hev. apply stays_call; [exact Hev | intro w; apply frame_refl]. Qed.

Lemma stays_create_item (E : Env) {D : Type} (c : Container) (sel : Database -> list D)
  (upd : list D -> Database -> Database) (id_of part_of : D -> string) (doc : D) :
  accepts T (CreateItem c (id_of doc)) ->
  (forall w, T w (set_db (upd (sel (db w) ++ [doc]) (db w)) w)) ->
  stays T (create_item E c sel upd id_of part_of doc).
Proof.
  intros Hev Heff. apply stays_call; [exact Hev |].
  intro w. destruct (lookup id_of part_of (id_of doc) (part_of doc) (sel (db w)));
    [apply frame_refl | apply Heff].
Qed.

Lemma stays_replace_item (E : Env) {D : Type} (c : Container) (sel : Database -> list D)
  (upd : list D -> Database -> Database) (id_of part_of : D -> string)
  (i : string) (body : D) :
  accepts T (ReplaceItem c i) ->
  (forall w, T w (set_db (upd (replace_doc id_of part_of i body (sel (db w))) (db w)) w)) ->
  stays T (replace_item E c sel upd id_of part_of i body).
Proof.
  intros Hev Heff. apply stays_call; [exact Hev |].
  intro w. destruct (lookup id_of part_of i (part_of body) (sel (db w)));
    [apply Heff | apply frame_refl].
Qed.

Lemma stays_upload_blob (E : Env) (cont name data : string) (meta : list (string * string)) :
  accepts T (UploadBlob cont name) ->
  (forall w x, T w (set_storage x w)) ->
  stays T (upload_blob E cont name data meta).
Proof. intros Hev Heff. apply stays_call; [exact Hev | intro w; apply Heff]. Qed.

Lemma stays_delete_blob (E : Env) (cont name : string) :
  accepts T (DeleteBlob cont name) ->
  (forall w x, T w (set_storage x w)) ->
  stays T (delete_blob E cont name).
Proof.
  intros Hev Heff. apply stays_call; [exact Hev |].
  intro w. destruct (existsb (same_blob cont name) (storage w));
    [apply Heff | apply frame_refl].
Qed.

Lemma stays_get_secret (E : Env) (name : string) :
  accepts T (GetSecret name) -> stays T (get_secret E name).
Proof.
  intro Hev. apply stays_call; [exact Hev |].
  intro w. destruct (find _ (vault w)); apply frame_refl.
Qed.

Lemma stays_set_secret (E : Env) (name : string) (v : TokenData) :
  accepts T (SetSecret name) ->
  (forall w x, T w (set_vault x w)) ->
  stays T (set_secret E name v).
Proof. intros Hev Heff. apply stays_call; [exact Hev | intro w; apply Heff]. Qed.

Lemma stays_begin_send (E : Env) (recipient : string) :
  accepts T (SendEmail recipient) ->
  (forall w x, T w (set_outbox x w)) ->
  stays T (begin_send E recipient).
Proof. intros Hev Heff. apply stays_call; [exact Hev | intro w; apply Heff]. Qed.

Lemma stays_wait_if_needed (E : Env) : stays T (AzureFunctions.wait_if_needed E).
Proof.
  intro w. unfold AzureFunctions.wait_if_needed.
  destruct (RateLimiter.wait_if_needed _ _ _ _) as [[self slept] |]; simpl.
  - eapply frame_trans; [apply frame_limiter | apply frame_clock].
  - apply frame_limiter.
Qed.

End Stays.

(** *** The three relations *)

#[export] Instance extends_frame (P : Event * bool -> Prop) : Frame (extends P).
Proof.
  split.
  - intro w. exists []. split; [symmetry; apply app_nil_r | constructor].
  - intros a b c (e1 & H1 & F1) (e2 & H2 & F2). exists (e1 ++ e2). split.
    + rewrite H2, H1. symmetry. apply app_assoc.
    + apply Forall_app. split; assumption.
  - intros w x. exists []. split; [symmetry; apply app_nil_r | constructor].
  - intros w x. exists []. split; [symmetry; apply app_nil_r | constructor].
Qed.

#[export] Instance keeps_consistent_frame : Frame keeps_consistent.
Proof.
  split; unfold keeps_consistent, all_consistent; simpl; auto.
Qed.

#[export] Instance untouched_frame : Frame untouched.
Proof.
  split; unfold untouched; simpl; auto.
  intros a b c [H1 H2] [H3 H4]. split; congruence.
Qed.

Lemma extends_accepts (P : Event * bool -> Prop) (ev : Event) :
  (forall b, P (ev, b)) -> accepts (extends P) ev.
Proof. intros HP w b. exists [(ev, b)]. split; [reflexivity | repeat constructor; apply HP]. Qed.

Lemma keeps_consistent_accepts (ev : Event) : accepts keeps_consistent ev.
Proof. intros w b. unfold keeps_consistent, all_consistent. simpl. auto. Qed.

Lemma untouched_accepts (ev : Event) : accepts untouched ev.
Proof. intros w b. split; reflexivity. Qed.

(** *** Normal return *)

Lemma never_raises_ret {A : Type} (a : A) : never_raises (ret a).
Proof. intro w. exists a. reflexivity. Qed.

Lemma never_raises_bind {A B : Type} (m : M A) (k : A -> M B) :
  never_raises m -> (forall a, never_raises (k a)) -> never_raises (bind m k).
Proof.
  intros Hm Hk w. unfold bind. destruct (Hm w) as (a & Ha).
  destruct (m w) as [[a' | e] w1]; simpl in Ha; [| discriminate].
  apply Hk.
Qed.

Lemma never_raises_try_except {A : Type} (m : M A) (h : exn -> M A) :
  (forall e, never_raises (h e)) -> never_raises (try_except m h).
Proof.
  intros Hh w. unfold try_except.
  destruct (m w) as [[a | e] w1]; [exists a; reflexivity | apply Hh].
Qed.

(** *** Shapes of traces *)

Lemma yields_weaken {A : Type} (m : M A) (S S' : list (Event * bool) -> Prop) :
  yields m S -> (forall evs, S evs -> S' evs) -> yields m S'.
Proof.
  intros Hm HS w. destruct (Hm w) as (a & w' & evs & H1 & H2 & H3).
  exists a, w', evs. auto.
Qed.

Lemma yields_ret {A : Type} (a : A) : yields (ret a) (fun evs => evs = []).
Proof. intro w. exists a, w, []. repeat split. symmetry. apply app_nil_r. Qed.

Lemma yields_bind {A B : Type} (m : M A) (k : A -> M B)
  (S1 S2 : list (Event * bool) -> Prop) :
  yields m S1 -> (forall a, yields (k a) S2) ->
  yields (bind m k) (fun evs => exists e1 e2, evs = e1 ++ e2 /\ S1 e1 /\ S2 e2).
Proof.
  intros Hm Hk w. destruct (Hm w) as (a & w1 & e1 & H1 & L1 & P1).
  destruct (Hk a w1) as (b & w2 & e2 & H2 & L2 & P2).
  exists b, w2, (e1 ++ e2). unfold bind. rewrite H1, H2. repeat split.
  - rewrite L2, L1. symmetry. apply app_assoc.
  - exists e1, e2. auto.
Qed.

Lemma yields_of_stays {A : Type} (m : M A) (P : Event * bool -> Prop) :
  never_raises m -> stays (extends P) m -> yields m (Forall P).
Proof.
  intros Hn Hs w. destruct (Hn w) as (a & Ha). destruct (Hs w) as (evs & L & F).
  destruct (m w) as [r w1]. simpl in *. subst r. exists a, w1, evs. auto.
Qed.

(** The entry a service call makes in the trace. *)
Lemma call_log (E : Env) {A : Type} (ev : Event) (act : World -> result A * World)
  (w : World) :
  (forall w0, log (snd (act w0)) = log w0) ->
  exists b, log (snd (call E ev act w)) = log w ++ [(ev, b)] /\
            (b = true <-> exists a, fst (call E ev act w) = Ok a).
Proof.
  intro Hact. unfold call.
  destruct (fault E (List.length (log w))).
  - exists false. simpl. split; [reflexivity |].
    split; [discriminate | intros (a & Ha); discriminate].
  - specialize (Hact (set_clock (clock w + latency E (List.length (log w)))%Q w)).
    destruct (act _) as [[a | e] w2]; simpl in *.
    + exists true. rewrite Hact. split; [reflexivity |].
      split; [intros _; exists a; reflexivity | reflexivity].
    + exists false. rewrite Hact. split; [reflexivity |].
      split; [discriminate | intros (a & Ha); discriminate].
Qed.

(** A guarded block that starts with a service call: the call is the first
    event of its trace. *)
Lemma yields_guarded_call (E : Env) {A B : Type} (ev : Event)
  (act : World -> result A * World) (k : A -> M B) (h : exn -> M B)
  (P : Event * bool -> Prop) :
  (forall w0, log (snd (act w0)) = log w0) ->
  (forall a, stays (extends P) (k a)) ->
  (forall e, stays (extends P) (h e)) ->
  (forall e, never_raises (h e)) ->
  yields (try_except (bind (call E ev act) k) h)
         (fun evs => exists b rest, evs = (ev, b) :: rest /\ Forall P rest).
Proof.
  intros Hact Hk Hh Hn w.
  destruct (call_log E ev act w Hact) as (b & L & _).
  unfold try_except, bind.
  destruct (call E ev act w) as [[a | e] w1]; simpl in L.
  - destruct (Hk a w1) as (e1 & L1 & F1).
    destruct (k a w1) as [[x | e] w2]; simpl in L1.
    + exists x, w2, ((ev, b) :: e1). repeat split.
      * rewrite L1, L. rewrite <- app_assoc. reflexivity.
      * exists b, e1. auto.
    + destruct (Hn e w2) as (x & Hx). destruct (Hh e w2) as (e2 & L2 & F2).
      destruct (h e w2) as [r w3]. simpl in *. subst r.
      exists x, w3, ((ev, b) :: e1 ++ e2). repeat split.
      * rewrite L2, L1, L. rewrite <- !app_assoc. reflexivity.
      * exists b, (e1 ++ e2). split; [reflexivity |]. apply Forall_app. auto.
  - destruct (Hn e w1) as (x & Hx). destruct (Hh e w1) as (e2 & L2 & F2).
    destruct (h e w1) as [r w3]. simpl in *. subst r.
    exists x, w3, ((ev, b) :: e2). repeat split.
    + rewrite L2, L. rewrite <- app_assoc. reflexivity.
    + exists b, e2. auto.
Qed.

End RunFacts.

(* ================================================================== *)
(** ** The blob pipeline *)
(* ================================================================== *)

Module PipelineFacts.
Import Py Cloud Logic RunFacts AzureFunctions.

(** Unfolding of the pipeline down to the service calls. *)
Ltac open_calls :=
  unfold read_tenant, replace_tenant, read_receipt, create_receipt, replace_receipt,
    read_integration, create_audit.

Ltac open_helpers :=
  unfold get_tenant, extract_receipt_data_from_blob, get_xero_integration,
    get_xero_access_token, refresh_xero_token, create_or_get_xero_contact,
    create_xero_invoice, move_blob_to_processing, move_blob_to_complete,
    delete_from_uploads, update_tenant_usage, utcnow_iso.

(** One step of a proof of [stays T m] along the structure of [m]; [side]
    settles what a service call asks of [T], [known] applies the lemmas
    already proved about helper functions. *)
Ltac stays_step side known :=
  intros;
  lazymatch goal with
  | |- stays _ (bind _ _) => apply stays_bind
  | |- stays _ (try_except _ _) => apply stays_try_except
  | |- stays _ (for_each _ _) => apply stays_for_each
  | |- stays _ (ret _) => apply stays_ret
  | |- stays _ (raise _) => apply stays_raise
  | |- stays _ get_clock => apply stays_get_clock
  | |- stays _ next_index => apply stays_next_index
  | |- stays _ (item _ _) => apply stays_item
  | |- stays _ (wait_if_needed _) => apply stays_wait_if_needed
  | |- stays _ (read_item _ _ _ _ _ _ _) => apply stays_read_item; side
  | |- stays _ (query_items _ _ _ _) => apply stays_query_items; side
  | |- stays _ (create_item _ _ _ _ _ _ _) => apply stays_create_item; side
  | |- stays _ (replace_item _ _ _ _ _ _ _ _) => apply stays_replace_item; side
  | |- stays _ (upload_blob _ _ _ _ _) => apply stays_upload_blob; side
  | |- stays _ (delete_blob _ _ _) => apply stays_delete_blob; side
  | |- stays _ (get_secret _ _) => apply stays_get_secret; side
  | |- stays _ (set_secret _ _ _) => apply stays_set_secret; side
  | |- stays _ (begin_send _ _) => apply stays_begin_send; side
  | |- stays _ (http _ _ _ _) => apply stays_http; side
  | |- stays _ (call _ _ _) => apply stays_call; side
  | |- stays _ (match ?x with _ => _ end) => destruct x
  | |- stays _ _ => first [ known | progress open_calls | progress open_helpers ]
  end.

Ltac stays_auto side known := repeat (stays_step side known).

Ltac never_auto :=
  repeat first [ apply never_raises_try_except; intro
               | apply never_raises_bind; [| intro]
               | apply never_raises_ret ].

(** A world with the same trace extends it by nothing. *)
Lemma extends_same_log (P : Event * bool -> Prop) (w w' : World) :
  log w' = log w -> extends P w w'.
Proof. intro H. exists []. rewrite H. split; [symmetry; apply app_nil_r | constructor]. Qed.

Ltac routine_side :=
  first [ apply extends_accepts; intro; exact I
        | intros; apply extends_same_log; reflexivity ].

Ltac consistent_side :=
  first [ apply keeps_consistent_accepts
        | intros; unfold keeps_consistent, all_consistent; simpl; tauto ].

Ltac untouched_side :=
  first [ apply untouched_accepts
        | intros; split; reflexivity ].

Section WithEnv.
Variable E : Env.

(** *** Helpers that catch every exception *)

Lemma update_receipt_xero_info_returns receipt_id invoice_id xero_status :
  never_raises (update_receipt_xero_info E receipt_id invoice_id xero_status).
Proof. unfold update_receipt_xero_info. never_auto. Qed.

Lemma update_receipt_status_returns receipt_id status :
  never_raises (update_receipt_status E receipt_id status).
Proof. unfold update_receipt_status. never_auto. Qed.

Lemma update_tenant_usage_returns tenant_id :
  never_raises (update_tenant_usage E tenant_id).
Proof. unfold update_tenant_usage. never_auto. Qed.

Lemma move_blob_to_processing_returns tenant_id filename content :
  never_raises (move_blob_to_processing E tenant_id filename content).
Proof. unfold move_blob_to_processing. never_auto. Qed.

Lemma move_blob_to_complete_returns tenant_id filename content :
  never_raises (move_blob_to_complete E tenant_id filename content).
Proof. unfold move_blob_to_complete. never_auto. Qed.

Lemma process_to_xero_returns tenant_id receipt_data receipt_id :
  never_raises (process_to_xero E tenant_id receipt_data receipt_id).
Proof.
  unfold process_to_xero. apply never_raises_try_except. intro e.
  apply never_raises_bind; [apply update_receipt_xero_info_returns | intro].
  apply never_raises_ret.
Qed.

(** *** The trace between the creation of the record and the final delete *)

Lemma process_to_xero_routine tenant_id receipt_data receipt_id :
  stays (extends routine) (process_to_xero E tenant_id receipt_data receipt_id).
Proof.
  unfold process_to_xero, update_receipt_xero_info.
  stays_auto routine_side fail.
Qed.

Lemma move_blob_to_processing_routine tenant_id filename content :
  stays (extends routine) (move_blob_to_processing E tenant_id filename content).
Proof. stays_auto routine_side fail. Qed.

Lemma move_blob_to_complete_routine tenant_id filename content :
  stays (extends routine) (move_blob_to_complete E tenant_id filename content).
Proof. stays_auto routine_side fail. Qed.

Lemma update_receipt_status_first receipt_id status :
  yields (update_receipt_status E receipt_id status)
    (fun evs => exists b rest,
       evs = (ReadItem Receipts receipt_id (Str.split_head "-" receipt_id), b) :: rest
       /\ Forall routine rest).
Proof.
  unfold update_receipt_status, read_receipt, read_item.
  apply yields_guarded_call.
  - intro w0. destruct (lookup _ _ _ _ _); reflexivity.
  - stays_auto routine_side fail.
  - stays_auto routine_side fail.
  - intro e. apply never_raises_ret.
Qed.

Lemma update_tenant_usage_first tenant_id :
  yields (update_tenant_usage E tenant_id)
    (fun evs => exists b rest,
       evs = (ReadItem Tenants tenant_id tenant_id, b) :: rest /\ Forall routine rest).
Proof.
  unfold update_tenant_usage, read_tenant, read_item.
  apply yields_guarded_call.
  - intro w0. destruct (lookup _ _ _ _ _); reflexivity.
  - stays_auto routine_side fail.
  - stays_auto routine_side fail.
  - intro e. apply never_raises_ret.
Qed.

Lemma delete_from_uploads_single tenant_id filename :
  yields (delete_from_uploads E tenant_id filename)
    (fun evs => exists b, evs = [(DeleteBlob (uploads_container tenant_id) filename, b)]).
Proof.
  intro w. unfold delete_from_uploads, try_except, delete_blob.
  match goal with |- context [call E ?ev ?act w] =>
    destruct (call_log E ev act w) as (b & L & _);
      [ intro w0; destruct (existsb _ _); reflexivity |];
    destruct (call E ev act w) as [[u | e] w1]; simpl in L
  end.
  - exists u, w1, [(DeleteBlob (uploads_container tenant_id) filename, b)].
    repeat split; [exact L | exists b; reflexivity].
  - exists tt, w1, [(DeleteBlob (uploads_container tenant_id) filename, b)].
    repeat split; [exact L | exists b; reflexivity].
Qed.

(** After the record is stored, the run always reaches the delete of the
    upload, whatever fails on the way. *)
Lemma after_store_trace blob tenant_id blob_content receipt_data receipt_id :
  yields (after_store E blob tenant_id blob_content receipt_data receipt_id)
         (finishing_trace tenant_id (name blob) receipt_id).
Proof.
  unfold after_store.
  eapply yields_weaken.
  - eapply yields_bind.
    + apply (yields_of_stays _ routine);
        [apply move_blob_to_processing_returns | apply move_blob_to_processing_routine].
    + intros _. eapply yields_bind.
      * apply (yields_of_stays _ routine);
          [apply process_to_xero_returns | apply process_to_xero_routine].
      * intro xero_success. eapply yields_bind.
        -- instantiate (1 := fun evs => exists pre b rest,
             evs = pre ++ (ReadItem Receipts receipt_id (Str.split_head "-" receipt_id), b)
                         :: rest
             /\ Forall routine pre /\ Forall routine rest).
           destruct xero_success.
           ++ eapply yields_weaken.
              ** eapply yields_bind.
                 --- apply (yields_of_stays _ routine);
                       [apply move_blob_to_complete_returns
                       | apply move_blob_to_complete_routine].
                 --- intros _. apply update_receipt_status_first.
              ** intros evs (e1 & e2 & -> & F1 & b & rest & -> & F2).
                 exists e1, b, rest. auto.
           ++ eapply yields_weaken; [apply update_receipt_status_first |].
              intros evs (b & rest & -> & F). exists [], b, rest. auto.
        -- intros _. eapply yields_bind.
           ++ apply update_tenant_usage_first.
           ++ intros _. eapply yields_bind.
              ** apply delete_from_uploads_single.
              ** intros _. apply yields_ret.
  - cbv beta.
    intros evs (e1 & x1 & -> & F1 & e2 & x2 & -> & F2 & e3 & x3 & -> &
                (pre & b1 & rest1 & -> & Fp & Fr1) & e4 & x4 & -> &
                (b2 & rest2 & -> & Fr2) & e5 & x5 & -> & (b3 & ->) & ->).
    exists (e1 ++ e2 ++ pre), b1, rest1, b2, rest2, b3. repeat split.
    + rewrite app_nil_r. rewrite <- !app_assoc. simpl. reflexivity.
    + repeat (apply Forall_app; split); assumption.
    + assumption.
    + assumption.
Qed.

(** *** The steps that precede the creation of the record *)

Lemma untouched_refl w : untouched w w.
Proof. split; reflexivity. Qed.

Lemma untouched_trans a b c : untouched a b -> untouched b c -> untouched a c.
Proof. apply (@frame_trans untouched _). Qed.

Lemma blob_read_cases (n d : string) (w : World) :
  exists r w' b,
    call E (BlobRead n) (fun w0 => (Ok d, w0)) w = (r, w') /\
    log w' = log w ++ [(BlobRead n, b)] /\ untouched w w' /\
    ((r = Ok d /\ b = true) \/ ((exists e, r = Raise e) /\ b = false)).
Proof.
  unfold call. destruct (fault E (List.length (log w))).
  - eexists _, _, false. repeat split. right. split; [eexists |]; reflexivity.
  - eexists _, _, true. repeat split. left. split; reflexivity.
Qed.

Lemma get_tenant_cases (tenant_id : string) (w : World) :
  exists o w' b,
    get_tenant E tenant_id w = (Ok o, w') /\
    log w' = log w ++ [(ReadItem Tenants tenant_id tenant_id, b)] /\ untouched w w' /\
    (o <> None -> b = true).
Proof.
  unfold get_tenant, try_except, bind, read_tenant, read_item, call.
  destruct (fault E (List.length (log w))).
  - eexists _, _, false. repeat split. intro H. exfalso. apply H. reflexivity.
  - cbn [db set_clock]. destruct (lookup _ _ _ _ _) as [t |].
    + eexists _, _, true. repeat split.
    + eexists _, _, false. repeat split. intro H. exfalso. apply H. reflexivity.
Qed.

Lemma extract_cases (content filename : string) (w : World) :
  exists o w' b,
    extract_receipt_data_from_blob E content filename w = (Ok o, w') /\
    log w' = log w ++ [(Analyze filename, b)] /\ untouched w w' /\
    ((b = true /\ exists d, o = Some d) \/ (b = false /\ o = None)).
Proof.
  unfold extract_receipt_data_from_blob, try_except, bind, call.
  destruct (fault E (List.length (log w))).
  - eexists _, _, false. repeat split. right. split; reflexivity.
  - eexists _, _, true. repeat split. left. split; [| eexists]; reflexivity.
Qed.

Lemma store_cases (tenant_id filename : string) (d : Extraction.ReceiptData) (w : World) :
  exists r w' rid b,
    store_receipt_data E tenant_id filename d w = (r, w') /\
    log w' = log w ++ [(CreateItem Receipts rid, b)] /\
    ((b = true /\ r = Ok rid) \/ (b = false /\ (exists e, r = Raise e) /\ untouched w w')).
Proof.
  unfold store_receipt_data, bind, get_clock, utcnow_iso, bind, get_clock, ret,
    create_receipt, create_item, call.
  cbn [ReceiptDoc.id ReceiptDoc.tenantId].
  destruct (fault E (List.length (log w))).
  - eexists _, _, _, false. repeat split. right. repeat split. eexists. reflexivity.
  - cbn [db set_clock]. destruct (lookup _ _ _ _ _) as [t |].
    + eexists _, _, _, false. repeat split. right. repeat split. eexists. reflexivity.
    + eexists _, _, _, true. repeat split. left. split; reflexivity.
Qed.

Lemma process_receipt_blob_eq (blob : InputStream) (tenant_id : string) :
  process_receipt_blob E blob tenant_id =
  try_except
    (bind (call E (BlobRead (name blob)) (fun w => (Ok (data blob), w)))
       (fun blob_content =>
          bind (get_tenant E tenant_id) (fun tenant =>
            match tenant with
            | None => ret false
            | Some tenant =>
                if negb (TenantDoc.processingEnabled tenant) then ret false
                else
                  bind (extract_receipt_data_from_blob E blob_content (name blob))
                    (fun receipt_data =>
                       match receipt_data with
                       | None => ret false
                       | Some receipt_data =>
                           bind (store_receipt_data E tenant_id (name blob) receipt_data)
                             (after_store E blob tenant_id blob_content receipt_data)
                       end)
            end)))
    (fun _ => ret false).
Proof. reflexivity. Qed.

(** The shape of every run of [process_receipt_blob]: it stops before the
    analysis succeeded and changes nothing; or the record could not be
    created and nothing changed; or the record was created and the run went on
    to the delete of the upload. *)
Lemma process_receipt_blob_trace (blob : InputStream) (tenant_id : string) (w : World) :
  exists r w' evs,
    process_receipt_blob E blob tenant_id w = (r, w') /\
    log w' = log w ++ evs /\
    ( (Forall before_record evs /\ r = Ok false /\ untouched w w')
      \/ (exists rid,
            evs = [ (BlobRead (name blob), true);
                    (ReadItem Tenants tenant_id tenant_id, true);
                    (Analyze (name blob), true);
                    (CreateItem Receipts rid, false) ]
            /\ r = Ok false /\ untouched w w')
      \/ (exists rid fin,
            evs = [ (BlobRead (name blob), true);
                    (ReadItem Tenants tenant_id tenant_id, true);
                    (Analyze (name blob), true);
                    (CreateItem Receipts rid, true) ] ++ fin
            /\ finishing_trace tenant_id (name blob) rid fin) ).
Proof.
  rewrite process_receipt_blob_eq. unfold try_except, bind.
  destruct (blob_read_cases (name blob) (data blob) w)
    as (r0 & w0 & b0 & H0 & L0 & U0 & C0).
  rewrite H0. destruct C0 as [[-> ->] | [(e & ->) ->]].
  2:{ eexists _, _, _. split; [reflexivity |]. split; [exact L0 |].
      left. repeat split; try apply U0. repeat constructor. }
  destruct (get_tenant_cases tenant_id w0) as (o & w1 & b1 & H1 & L1 & U1 & B1).
  rewrite H1.
  assert (U01 : untouched w w1) by (eapply untouched_trans; eassumption).
  assert (L01 : log w1 = log w ++ [(BlobRead (name blob), true);
                                     (ReadItem Tenants tenant_id tenant_id, b1)]).
  { rewrite L1, L0. rewrite <- app_assoc. reflexivity. }
  destruct o as [t |].
  2:{ eexists _, _, _. split; [reflexivity |]. split; [exact L01 |].
      left. repeat split; try apply U01. repeat constructor. }
  destruct (negb (TenantDoc.processingEnabled t)).
  { eexists _, _, _. split; [reflexivity |]. split; [exact L01 |].
    left. repeat split; try apply U01. repeat constructor. }
  destruct (extract_cases (data blob) (name blob) w1)
    as (o2 & w2 & b2 & H2 & L2 & U2 & C2).
  rewrite H2.
  assert (U02 : untouched w w2) by (eapply untouched_trans; eassumption).
  destruct C2 as [[-> (d & ->)] | [-> ->]].
  2:{ eexists _, _, _. split; [reflexivity |]. split.
      - rewrite L2, L01. rewrite <- app_assoc. reflexivity.
      - left. repeat split; try apply U02. repeat constructor. }
  assert (b1 = true) as -> by (apply B1; discriminate).
  assert (L02 : log w2 = log w ++ [(BlobRead (name blob), true);
                                     (ReadItem Tenants tenant_id tenant_id, true);
                                     (Analyze (name blob), true)]).
  { rewrite L2, L01. rewrite <- app_assoc. reflexivity. }
  destruct (store_cases tenant_id (name blob) d w2)
    as (r3 & w3 & rid & b3 & H3 & L3 & C3).
  rewrite H3.
  destruct C3 as [[-> ->] | [-> [(e & ->) U3]]].
  - destruct (after_store_trace blob tenant_id (data blob) d rid w3)
      as (a & w4 & fin & H4 & L4 & F4).
    rewrite H4. eexists _, _, _. split; [reflexivity |]. split.
    + rewrite L4, L3, L02. rewrite <- !app_assoc. reflexivity.
    + right. right. exists rid, fin. split; [reflexivity | exact F4].
  - eexists _, _, _. split; [reflexivity |]. split.
    + rewrite L3, L02. rewrite <- app_assoc. reflexivity.
    + right. left. exists rid. repeat split.
      * eapply untouched_trans; eassumption.
      * eapply untouched_trans; eassumption.
Qed.

End WithEnv.
End PipelineFacts.

(* ================================================================== *)
(** ** What a run of the blob pipeline persists, and when *)
(* ================================================================== *)

Module IngestFacts.
Import Py Cloud Logic RunFacts AzureFunctions PipelineFacts Examples.

Lemma events_since_app (w w' : World) (evs : list (Event * bool)) :
  log w' = log w ++ evs -> events_since w w' = evs.
Proof.
  intro H. unfold events_since. rewrite H.
  rewrite skipn_app, skipn_all, Nat.sub_diag. reflexivity.
Qed.

Lemma routine_not_delete (e : Event * bool) : routine e -> not_delete e.
Proof. destruct e as [ev b]. unfold routine, not_delete. destruct ev; simpl; tauto. Qed.

(** An event of a kind that occurs only at the end of a list splits the list
    in one way. *)
Lemma split_at_last {A : Type} (Q : A -> Prop) (body : list A) (x : A) :
  Forall Q body ->
  forall pre y post, body ++ [x] = pre ++ y :: post -> ~ Q y ->
                     pre = body /\ post = [] /\ y = x.
Proof.
  induction 1 as [| a body Ha _ IH]; intros pre y post Heq Hy.
  - destruct pre as [| p pre]; simpl in Heq.
    + injection Heq as -> <-. auto.
    + injection Heq as _ Heq. destruct pre; discriminate.
  - destruct pre as [| p pre]; simpl in Heq.
    + injection Heq as -> _. contradiction.
    + injection Heq as -> Heq. destruct (IH pre y post Heq Hy) as (-> & -> & ->). auto.
Qed.

Section WithEnv.
Variable E : Env.

(** C5 (as amended). In the blob pipeline a receipt record is persisted only
    after a successful extraction: when the run contains no successful
    analysis call (the call failed, or the run stopped before it), the run
    returns [False], and neither the receipt records nor the stored blobs
    changed; and every call that creates a receipt record is preceded, in the
    same run, by the successful analysis of the document. *)
Theorem blob_receipt_only_after_extraction
  (blob : InputStream) (tenant_id : string) (w : World) :
  (~ In (Analyze (name blob), true)
        (events_since w (snd (process_receipt_blob E blob tenant_id w))) ->
   fst (process_receipt_blob E blob tenant_id w) = Ok false /\
   untouched w (snd (process_receipt_blob E blob tenant_id w)))
  /\
  (forall pre rid b post,
     events_since w (snd (process_receipt_blob E blob tenant_id w))
     = pre ++ (CreateItem Receipts rid, b) :: post ->
     In (Analyze (name blob), true) pre).
Proof.
  destruct (process_receipt_blob_trace E blob tenant_id w)
    as (r & w' & evs & H & L & C).
  rewrite H. simpl fst. simpl snd. rewrite (events_since_app _ _ _ L).
  destruct C as [(F & -> & U) | [(rid0 & -> & -> & U) | (rid0 & fin & -> & Ffin)]].
  - split; [auto |].
    intros pre rid b post Heq. exfalso.
    rewrite Forall_forall in F.
    apply (F (CreateItem Receipts rid, b)). rewrite Heq. apply in_elt.
  - split; [auto |].
    intros pre rid b post Heq.
    destruct pre as [| p0 [| p1 [| p2 pre]]]; simpl in Heq; try discriminate.
    injection Heq as <- <- <- _. simpl. auto.
  - split.
    + intro Hn. exfalso. apply Hn. simpl. auto.
    + intros pre rid b post Heq.
      destruct pre as [| p0 [| p1 [| p2 pre]]]; simpl in Heq; try discriminate.
      injection Heq as <- <- <- _. simpl. auto.
Qed.

(** C10 (as amended). In every run of [process_receipt_blob], a call that
    deletes the source from the upload container is the last external call of
    the run, and it comes after the blob was read, the tenant resolved, the
    document analysed and the receipt record created (all successfully), and
    after the status update and the usage update were attempted, in this
    order. A failure before the record exists therefore ends the run without a
    delete; a failure inside the status or usage update does not. *)
Theorem upload_deleted_last
  (blob : InputStream) (tenant_id : string) (w : World)
  (pre post : list (Event * bool)) (b : bool) :
  events_since w (snd (process_receipt_blob E blob tenant_id w))
  = pre ++ (DeleteBlob (uploads_container tenant_id) (name blob), b) :: post ->
  post = [] /\
  exists rid mid b1 rest1 b2 rest2,
    pre = [ (BlobRead (name blob), true);
            (ReadItem Tenants tenant_id tenant_id, true);
            (Analyze (name blob), true);
            (CreateItem Receipts rid, true) ]
          ++ mid
          ++ (ReadItem Receipts rid (Str.split_head "-" rid), b1) :: rest1
          ++ (ReadItem Tenants tenant_id tenant_id, b2) :: rest2
    /\ Forall not_delete pre.
Proof.
  destruct (process_receipt_blob_trace E blob tenant_id w)
    as (r & w' & evs & H & L & C).
  rewrite H. simpl snd. rewrite (events_since_app _ _ _ L). intro Heq.
  destruct C as [(F & _) | [(rid0 & -> & _) | (rid0 & fin & -> & Ffin)]].
  - exfalso. rewrite Forall_forall in F.
    apply (F (DeleteBlob (uploads_container tenant_id) (name blob), b)).
    rewrite Heq. apply in_elt.
  - exfalso.
    destruct pre as [| p0 [| p1 [| p2 [| p3 pre]]]]; simpl in Heq; try discriminate.
    injection Heq as _ _ _ _ Heq. destruct pre; discriminate.
  - destruct Ffin as (mid & b1 & rest1 & b2 & rest2 & b3 & -> & Fm & F1 & F2).
    set (four := [ (BlobRead (name blob), true);
                   (ReadItem Tenants tenant_id tenant_id, true);
                   (Analyze (name blob), true);
                   (CreateItem Receipts rid0, true) ]) in *.
    set (body := four ++ mid
                 ++ (ReadItem Receipts rid0 (Str.split_head "-" rid0), b1) :: rest1
                 ++ (ReadItem Tenants tenant_id tenant_id, b2) :: rest2).
    assert (Hbody : Forall not_delete body).
    { unfold body, four.
      repeat (apply Forall_app; split);
        repeat (apply Forall_cons; [exact I |]);
        try apply Forall_nil;
        try (eapply Forall_impl; [apply routine_not_delete | assumption]).
      apply Forall_app. split;
        [eapply Forall_impl; [apply routine_not_delete | assumption] |].
      apply Forall_cons; [exact I |].
      eapply Forall_impl; [apply routine_not_delete | assumption]. }
    assert (Hev : four ++ mid
                  ++ (ReadItem Receipts rid0 (Str.split_head "-" rid0), b1) :: rest1
                  ++ (ReadItem Tenants tenant_id tenant_id, b2) :: rest2
                  ++ [(DeleteBlob (uploads_container tenant_id) (name blob), b3)]
                  = body ++ [(DeleteBlob (uploads_container tenant_id) (name blob), b3)]).
    { unfold body. rewrite <- !app_assoc. simpl. rewrite <- !app_assoc. reflexivity. }
    rewrite Hev in Heq.
    destruct (split_at_last not_delete body _ Hbody _ _ _ Heq) as (-> & -> & _).
    { simpl. auto. }
    split; [reflexivity |].
    exists rid0, mid, b1, rest1, b2, rest2. split; [reflexivity | exact Hbody].
Qed.

End WithEnv.

(** The run of C10 on a tenant without ledger integration: all ten calls
    before the delete are the ones the theorem lists. *)
Lemma upload_deleted_last_witness :
  events_since (upload_world "acme")
    (snd (process_receipt_blob quiet upload "acme" (upload_world "acme")))
  = [ (BlobRead "receipt.pdf", true);
      (ReadItem Tenants "acme" "acme", true);
      (Analyze "receipt.pdf", true);
      (CreateItem Receipts "acme-1003-4242", true);
      (UploadBlob "tenant-acme-processing" "receipt.pdf", true);
      (ReadItem Integrations "xero-acme" "acme", false);
      (ReadItem Receipts "acme-1003-4242" "acme", true);
      (ReplaceItem Receipts "acme-1003-4242", true);
      (ReadItem Tenants "acme" "acme", true);
      (ReplaceItem Tenants "acme", true) ]
    ++ (DeleteBlob (uploads_container "acme") (name upload), true) :: []
  /\ ([] = @nil (Event * bool) /\
      exists rid mid b1 rest1 b2 rest2,
        [ (BlobRead "receipt.pdf", true);
          (ReadItem Tenants "acme" "acme", true);
          (Analyze "receipt.pdf", true);
          (CreateItem Receipts "acme-1003-4242", true);
          (UploadBlob "tenant-acme-processing" "receipt.pdf", true);
          (ReadItem Integrations "xero-acme" "acme", false);
          (ReadItem Receipts "acme-1003-4242" "acme", true);
          (ReplaceItem Receipts "acme-1003-4242", true);
          (ReadItem Tenants "acme" "acme", true);
          (ReplaceItem Tenants "acme", true) ]
        = [ (BlobRead (name upload), true);
            (ReadItem Tenants "acme" "acme", true);
            (Analyze (name upload), true);
            (CreateItem Receipts rid, true) ]
          ++ mid
          ++ (ReadItem Receipts rid (Str.split_head "-" rid), b1) :: rest1
          ++ (ReadItem Tenants "acme" "acme", b2) :: rest2
        /\ Forall not_delete
             [ (BlobRead "receipt.pdf", true);
               (ReadItem Tenants "acme" "acme", true);
               (Analyze "receipt.pdf", true);
               (CreateItem Receipts "acme-1003-4242", true);
               (UploadBlob "tenant-acme-processing" "receipt.pdf", true);
               (ReadItem Integrations "xero-acme" "acme", false);
               (ReadItem Receipts "acme-1003-4242" "acme", true);
               (ReplaceItem Receipts "acme-1003-4242", true);
               (ReadItem Tenants "acme" "acme", true);
               (ReplaceItem Tenants "acme", true) ]).
Proof.
  assert (H : events_since (upload_world "acme")
                (snd (process_receipt_blob quiet upload "acme" (upload_world "acme")))
              = [ (BlobRead "receipt.pdf", true);
                  (ReadItem Tenants "acme" "acme", true);
                  (Analyze "receipt.pdf", true);
                  (CreateItem Receipts "acme-1003-4242", true);
                  (UploadBlob "tenant-acme-processing" "receipt.pdf", true);
                  (ReadItem Integrations "xero-acme" "acme", false);
                  (ReadItem Receipts "acme-1003-4242" "acme", true);
                  (ReplaceItem Receipts "acme-1003-4242", true);
                  (ReadItem Tenants "acme" "acme", true);
                  (ReplaceItem Tenants "acme", true) ]
                ++ (DeleteBlob (uploads_container "acme") (name upload), true) :: [])
    by (vm_compute; reflexivity).
  split; [exact H |].
  exact (upload_deleted_last quiet upload "acme" (upload_world "acme") _ _ _ H).
Defined.

(** C10 (as stated) fails: when the write of the status update raises (the
    eighth external call), the exception is caught, the upload is deleted all
    the same, and the record is left in status "processing". *)
Lemma upload_deleted_although_status_write_failed :
  let w' := snd (process_receipt_blob (oracle [7%nat]) upload "acme" (upload_world "acme")) in
  In (ReplaceItem Receipts "acme-1003-4242", false) (log w') /\
  In (DeleteBlob "tenant-acme-uploads" "receipt.pdf", true) (log w') /\
  map ReceiptDoc.status (receipts (db w')) = ["processing"] /\
  existsb (same_blob "tenant-acme-uploads" "receipt.pdf") (storage w') = false.
Proof. vm_compute. intuition. Qed.

End IngestFacts.

(* ================================================================== *)
(** ** The ledger fields of a receipt record *)
(* ================================================================== *)

Module ConsistencyFacts.
Import Py Cloud Logic RunFacts AzureFunctions PipelineFacts Examples.

Lemma lookup_In {D : Type} (id_of part_of : D -> string) (i pk : string)
  (docs : list D) (d : D) :
  lookup id_of part_of i pk docs = Some d -> In d docs.
Proof. unfold lookup. intro H. apply find_some in H. tauto. Qed.

Lemma Forall_replace_doc {D : Type} (P : D -> Prop) (id_of part_of : D -> string)
  (i : string) (body : D) (docs : list D) :
  Forall P docs -> P body -> Forall P (replace_doc id_of part_of i body docs).
Proof.
  intros Hd Hb. unfold replace_doc. apply Forall_map.
  eapply Forall_impl; [| exact Hd]. intros d Pd. simpl.
  destruct (_ && _); assumption.
Qed.

Lemma with_status_consistent (s now : string) (r : ReceiptDoc.t) :
  consistent r -> consistent (ReceiptDoc.with_status s now r).
Proof. unfold consistent. simpl. tauto. Qed.

Lemma with_xero_consistent (invoice_id : option string) (xero_status : string)
  (r : ReceiptDoc.t) :
  (invoice_id <> None <-> xero_status = "success") ->
  consistent (ReceiptDoc.with_xero invoice_id xero_status r).
Proof.
  unfold consistent. simpl. intros H. rewrite H. split.
  - intros ->. reflexivity.
  - intro Heq. injection Heq as ->. reflexivity.
Qed.

Section WithEnv.
Variable E : Env.

Lemma read_receipt_result (i pk : string) (w : World) :
  receipts (db (snd (read_receipt E i pk w))) = receipts (db w) /\
  forall d, fst (read_receipt E i pk w) = Ok d -> In d (receipts (db w)).
Proof.
  unfold read_receipt, read_item, call.
  destruct (fault E (List.length (log w))).
  - split; [reflexivity | discriminate].
  - cbn [db set_clock].
    destruct (lookup ReceiptDoc.id ReceiptDoc.tenantId i pk (receipts (db w)))
      as [r |] eqn:Hl.
    + split; [reflexivity |]. intros d Hd. injection Hd as <-.
      eapply lookup_In. exact Hl.
    + split; [reflexivity | discriminate].
Qed.

Lemma replace_receipt_result (P : ReceiptDoc.t -> Prop) (i : string)
  (body : ReceiptDoc.t) (w : World) :
  Forall P (receipts (db w)) -> P body ->
  Forall P (receipts (db (snd (replace_receipt E i body w)))).
Proof.
  intros Hinv Hb. unfold replace_receipt, replace_item, call.
  destruct (fault E (List.length (log w))); [exact Hinv |].
  cbn [db set_clock].
  destruct (lookup _ _ _ _ _); [| exact Hinv].
  cbn. apply Forall_replace_doc; assumption.
Qed.

(** A record read from the store and written back after a change that keeps
    it consistent leaves the store consistent. *)
Lemma read_modify_write_consistent (receipt_id pk : string)
  (change : World -> ReceiptDoc.t -> ReceiptDoc.t) :
  (forall w r, consistent r -> consistent (change w r)) ->
  stays keeps_consistent
    (try_except
       (bind (read_receipt E receipt_id pk)
          (fun receipt w => replace_receipt E receipt_id (change w receipt) w))
       (fun _ => ret tt)).
Proof.
  intros Hchange w Hinv. unfold all_consistent in *.
  unfold try_except, bind.
  destruct (read_receipt_result receipt_id pk w) as [Hsame Hin].
  destruct (read_receipt E receipt_id pk w) as [[d | e] w1]; simpl in Hsame, Hin.
  - assert (Hinv1 : Forall consistent (receipts (db w1))) by (rewrite Hsame; exact Hinv).
    assert (Hd : consistent d).
    { rewrite Forall_forall in Hinv. apply Hinv. apply Hin. reflexivity. }
    pose proof (replace_receipt_result consistent receipt_id (change w1 d) w1 Hinv1
                  (Hchange w1 d Hd)) as H.
    destruct (replace_receipt E receipt_id (change w1 d) w1) as [[u | e] w2];
      simpl in *; exact H.
  - simpl. rewrite Hsame. exact Hinv.
Qed.

Lemma update_receipt_status_consistent (receipt_id status : string) :
  stays keeps_consistent (update_receipt_status E receipt_id status).
Proof.
  apply (read_modify_write_consistent receipt_id (Str.split_head "-" receipt_id)
           (fun w r => ReceiptDoc.with_status status (isoformat E (clock w)) r)).
  intros w r. apply with_status_consistent.
Qed.

Lemma update_receipt_xero_info_consistent (receipt_id : string)
  (invoice_id : option string) (xero_status : string) :
  (invoice_id <> None <-> xero_status = "success") ->
  stays keeps_consistent (update_receipt_xero_info E receipt_id invoice_id xero_status).
Proof.
  intro H.
  apply (read_modify_write_consistent receipt_id (Str.split_head "-" receipt_id)
           (fun _ r => ReceiptDoc.with_xero invoice_id xero_status r)).
  intros w r _. apply with_xero_consistent. exact H.
Qed.

Ltac new_record_side :=
  first [ apply keeps_consistent_accepts
        | intros w Hinv; unfold all_consistent in *; cbn;
          apply Forall_app; split; [exact Hinv |];
          apply Forall_cons; [| apply Forall_nil];
          unfold consistent; cbn; split; [congruence | discriminate] ].

Lemma store_receipt_data_consistent (tenant_id filename : string)
  (receipt_data : Extraction.ReceiptData) :
  stays keeps_consistent (store_receipt_data E tenant_id filename receipt_data).
Proof.
  unfold store_receipt_data.
  stays_auto new_record_side fail.
Qed.

Ltac known_consistent :=
  idtac;
  lazymatch goal with
  | |- stays _ (update_receipt_status _ _ _) => apply update_receipt_status_consistent
  | |- stays _ (update_receipt_xero_info _ _ _ _) =>
      apply update_receipt_xero_info_consistent;
      split; intro; solve [ congruence | reflexivity | discriminate ]
  | |- stays _ (store_receipt_data _ _ _ _) => apply store_receipt_data_consistent
  end.

Lemma process_to_xero_consistent (tenant_id : string)
  (receipt_data : Extraction.ReceiptData) (receipt_id : string) :
  stays keeps_consistent (process_to_xero E tenant_id receipt_data receipt_id).
Proof.
  unfold process_to_xero.
  stays_auto consistent_side known_consistent.
Qed.

Lemma process_receipt_blob_consistent (blob : InputStream) (tenant_id : string) :
  stays keeps_consistent (process_receipt_blob E blob tenant_id).
Proof.
  unfold process_receipt_blob.
  stays_auto consistent_side
    ltac:(idtac;
          lazymatch goal with
          | |- stays _ (process_to_xero _ _ _ _) => apply process_to_xero_consistent
          | _ => known_consistent
          end).
Qed.

Lemma main_consistent (myblob : InputStream) :
  stays keeps_consistent (main E myblob).
Proof.
  unfold main.
  stays_auto consistent_side
    ltac:(idtac;
          lazymatch goal with
          | |- stays _ (process_receipt_blob _ _ _) => apply process_receipt_blob_consistent
          end).
Qed.

(** *** The e-mail adapter *)

Ltac pending_record_side :=
  first [ apply keeps_consistent_accepts
        | intros w Hinv; unfold all_consistent in *; cbn;
          apply Forall_app; split; [exact Hinv |];
          apply Forall_cons; [| apply Forall_nil];
          unfold consistent; cbn; split; [congruence | discriminate] ].

Lemma create_receipt_record_consistent (tenant_id filename : string)
  (attachment : EmailProcessing.Attachment) (sender_email subject : string) :
  stays keeps_consistent
    (EmailProcessing._create_receipt_record E tenant_id filename attachment
       sender_email subject).
Proof.
  unfold EmailProcessing._create_receipt_record.
  stays_auto pending_record_side fail.
Qed.

Lemma process_attachment_consistent (tenant_id : string)
  (attachment : EmailProcessing.Attachment) (sender_email subject : string) :
  stays keeps_consistent
    (EmailProcessing._process_attachment E tenant_id attachment sender_email subject).
Proof.
  unfold EmailProcessing._process_attachment.
  stays_auto consistent_side
    ltac:(idtac;
          lazymatch goal with
          | |- stays _ (EmailProcessing._create_receipt_record _ _ _ _ _ _) =>
              apply create_receipt_record_consistent
          end).
Qed.

Lemma process_attachments_consistent (tenant_id : string)
  (attachments : list EmailProcessing.Attachment) (from_email subject : string) :
  stays keeps_consistent
    (EmailProcessing.process_attachments E tenant_id attachments from_email subject).
Proof.
  induction attachments as [| a rest IH]; simpl.
  - apply stays_ret.
  - apply stays_bind; [apply process_attachment_consistent | intro].
    apply stays_bind; [exact IH | intro; apply stays_ret].
Qed.

Lemma is_sender_authorized_consistent (tenant_id sender_email : string) :
  stays keeps_consistent (EmailProcessing._is_sender_authorized E tenant_id sender_email).
Proof.
  unfold EmailProcessing._is_sender_authorized.
  stays_auto consistent_side fail.
Qed.

Lemma first_authorized_consistent (mappings : list MappingDoc.t) (from_email : string) :
  stays keeps_consistent (EmailProcessing.first_authorized E mappings from_email).
Proof.
  induction mappings as [| m rest IH]; simpl.
  - apply stays_ret.
  - apply stays_bind; [apply is_sender_authorized_consistent | intros []].
    + apply stays_ret.
    + exact IH.
Qed.

Lemma process_email_consistent (self : EmailProcessing.EmailReceiptProcessor)
  (email_data : EmailProcessing.EmailData) :
  stays keeps_consistent (EmailProcessing.process_email E self email_data).
Proof.
  unfold EmailProcessing.process_email, EmailProcessing._get_tenant_by_email,
    EmailProcessing._send_error_email, EmailProcessing._send_confirmation_email.
  stays_auto consistent_side
    ltac:(idtac;
          lazymatch goal with
          | |- stays _ (EmailProcessing.first_authorized _ _ _) =>
              apply first_authorized_consistent
          | |- stays _ (EmailProcessing.process_attachments _ _ _ _ _) =>
              apply process_attachments_consistent
          end).
Qed.

Lemma email_main_consistent (req : option EmailProcessing.EmailData) :
  stays keeps_consistent (EmailProcessing.main E req).
Proof.
  unfold EmailProcessing.main.
  stays_auto consistent_side
    ltac:(idtac;
          lazymatch goal with
          | |- stays _ (EmailProcessing.process_email _ _ _) =>
              apply process_email_consistent
          end).
Qed.

(** C4. Every operation of the pipeline keeps the ledger fields of every
    receipt record in step: in a store where each record has an invoice id
    exactly when its synchronisation status is "success", this still holds
    after a record is created ([store_receipt_data], and the e-mail
    adapter's initial record), after the synchronisation and its update of
    the ledger fields ([process_to_xero]), after a status update
    ([update_receipt_status]), and so after a whole run of either entry point. *)
Theorem ledger_fields_stay_consistent (w : World) :
  all_consistent w ->
  (forall tenant_id filename receipt_data,
      all_consistent (snd (store_receipt_data E tenant_id filename receipt_data w)))
  /\ (forall tenant_id receipt_data receipt_id,
        all_consistent (snd (process_to_xero E tenant_id receipt_data receipt_id w)))
  /\ (forall receipt_id status,
        all_consistent (snd (update_receipt_status E receipt_id status w)))
  /\ (forall blob tenant_id,
        all_consistent (snd (process_receipt_blob E blob tenant_id w)))
  /\ (forall myblob, all_consistent (snd (main E myblob w)))
  /\ (forall tenant_id filename attachment sender_email subject,
        all_consistent
          (snd (EmailProcessing._create_receipt_record E tenant_id filename attachment
                  sender_email subject w)))
  /\ (forall req, all_consistent (snd (EmailProcessing.main E req w))).
Proof.
  intro Hinv. repeat split; intros.
  - apply store_receipt_data_consistent; exact Hinv.
  - apply process_to_xero_consistent; exact Hinv.
  - apply update_receipt_status_consistent; exact Hinv.
  - apply process_receipt_blob_consistent; exact Hinv.
  - apply main_consistent; exact Hinv.
  - apply create_receipt_record_consistent; exact Hinv.
  - apply email_main_consistent; exact Hinv.
Qed.

End WithEnv.

Lemma connected_world_consistent : all_consistent connected_world.
Proof.
  unfold all_consistent, connected_world. cbn.
  repeat constructor; unfold consistent; cbn; intros; congruence.
Qed.

(** C4 on a store that holds a synchronised and a failed record. *)
Lemma ledger_fields_stay_consistent_witness :
  all_consistent connected_world /\
  ((forall tenant_id filename receipt_data,
       all_consistent
         (snd (store_receipt_data quiet tenant_id filename receipt_data connected_world)))
   /\ (forall tenant_id receipt_data receipt_id,
         all_consistent
           (snd (process_to_xero quiet tenant_id receipt_data receipt_id connected_world)))
   /\ (forall receipt_id status,
         all_consistent (snd (update_receipt_status quiet receipt_id status connected_world)))
   /\ (forall blob tenant_id,
         all_consistent (snd (process_receipt_blob quiet blob tenant_id connected_world)))
   /\ (forall myblob, all_consistent (snd (main quiet myblob connected_world)))
   /\ (forall tenant_id filename attachment sender_email subject,
         all_consistent
           (snd (EmailProcessing._create_receipt_record quiet tenant_id filename
                   attachment sender_email subject connected_world)))
   /\ (forall req, all_consistent (snd (EmailProcessing.main quiet req connected_world)))).
Proof.
  split.
  - exact connected_world_consistent.
  - exact (ledger_fields_stay_consistent quiet connected_world connected_world_consistent).
Defined.

(** The run of the pipeline on that store ends with three consistent records,
    the new one synchronised. *)
Lemma connected_run_synchronises :
  map (fun r => (ReceiptDoc.status r, ReceiptDoc.xeroInvoiceId r, ReceiptDoc.xeroStatus r))
      (receipts (db (snd (process_receipt_blob quiet upload "acme" connected_world))))
  = [ ("completed", Some "inv-1", Some "success");
      ("failed", None, Some "error");
      ("completed", Some "id-8", Some "success") ].
Proof. vm_compute. reflexivity. Qed.

End ConsistencyFacts.

(* ================================================================== *)
(** ** Contact resolution *)
(* ================================================================== *)

Module ContactFacts.
Import Py Cloud Logic RunFacts AzureFunctions PipelineFacts IngestFacts Examples.

Lemma find_filter {A : Type} (p q : A -> bool) (l : list A) :
  find p (filter q l) = find (fun x => q x && p x) l.
Proof.
  induction l as [| a l IH]; simpl; [reflexivity |].
  destruct (q a); simpl; [destruct (p a); auto | exact IH].
Qed.

Lemma find_hd_filter {A : Type} (f : A -> bool) (l : list A) :
  find f l = hd_error (filter f l).
Proof.
  induction l as [| a l IH]; simpl; [reflexivity |].
  destruct (f a); simpl; auto.
Qed.

Lemma find_ext {A : Type} (f g : A -> bool) (l : list A) :
  (forall x, f x = g x) -> find f l = find g l.
Proof.
  intro H. induction l as [| a l IH]; simpl; [reflexivity |].
  rewrite H, IH. reflexivity.
Qed.

Lemma prefix_refl (s : string) : String.prefix s s = true.
Proof.
  induction s as [| c s IH]; simpl; [reflexivity |].
  destruct (ascii_dec c c); [exact IH | congruence].
Qed.

Lemma contains_refl (s : string) : Str.contains s s = true.
Proof.
  destruct s as [| c s]; [reflexivity |].
  change (Str.contains (String c s) (String c s))
    with (String.prefix (String c s) (String c s) || Str.contains (String c s) s).
  rewrite prefix_refl. reflexivity.
Qed.

Lemma contains_ci_same_name (text nm : string) :
  Str.upper text = Str.upper nm -> contains_ci text nm = true.
Proof. unfold contains_ci. intros ->. apply contains_refl. Qed.

(** With a positive ceiling the wait returns. *)
Lemma limiter_wait_returns (u1 u2 now : Q) (self : RateLimiter.XeroRateLimiter) :
  (0 < RateLimiter.max_requests_per_minute self)%nat ->
  exists self' slept,
    RateLimiter.wait_if_needed u1 u2 now self = Some (self', slept) /\
    RateLimiter.max_requests_per_minute self' = RateLimiter.max_requests_per_minute self.
Proof.
  intro Hmax. unfold RateLimiter.wait_if_needed.
  destruct (RateLimiter.cooling_down _ _); [eauto |].
  destruct (_ <=? _)%nat eqn:Hfull; [| eauto].
  apply Nat.leb_le in Hfull.
  destruct (RateLimiter.prune _ _) as [| t0 rest]; [simpl in Hfull; lia |].
  destruct (RateLimiter.Qltb _ _); eauto.
Qed.

Section WithEnv.
Variable E : Env.

Hypothesis filter_finds_same_name :
  forall text nm, Str.upper text = Str.upper nm -> name_contains E text nm = true.
Hypothesis search_succeeds : forall i, fault E i = false /\ http_ok E i = true.

(** One resolution of a merchant that the ledger knows under one contact. *)
Lemma resolve_existing (access_token xero_tenant_id merchant_name : string)
  (c : Contact) (w : World) :
  (0 < RateLimiter.max_requests_per_minute (rate_limiter w))%nat ->
  same_name_contacts xero_tenant_id merchant_name w = [c] ->
  exists w',
    create_or_get_xero_contact E access_token xero_tenant_id merchant_name w
    = (Ok (Some (ContactID c)), w') /\
    ledger w' = ledger w /\
    log w' = log w ++ [(HttpGet contacts_url, true)] /\
    RateLimiter.max_requests_per_minute (rate_limiter w')
    = RateLimiter.max_requests_per_minute (rate_limiter w).
Proof.
  intros Hmax Hone.
  unfold create_or_get_xero_contact, try_except, bind.
  unfold wait_if_needed at 1.
  destruct (limiter_wait_returns (uniform1 E (List.length (log w)))
              (uniform2 E (List.length (log w))) (clock w) (rate_limiter w) Hmax)
    as (self' & slept & -> & Hmax').
  unfold http, call. cbn [log set_clock set_rate_limiter].
  destruct (search_succeeds (List.length (log w))) as [-> ->].
  cbn [log set_clock set_rate_limiter ledger].
  assert (Hfound :
            exact_match merchant_name
              (filter (fun c0 => String.eqb (ContactOrg c0) xero_tenant_id
                                 && name_contains E merchant_name (Name c0))
                      (contacts (ledger w)))
            = Some (ContactID c)).
  { unfold exact_match. rewrite find_filter.
    rewrite (find_ext _ (fun c0 => String.eqb (ContactOrg c0) xero_tenant_id
                                   && String.eqb (Str.upper (Name c0))
                                                 (Str.upper merchant_name))).
    - rewrite find_hd_filter. unfold same_name_contacts in Hone. rewrite Hone.
      reflexivity.
    - intro x. destruct (String.eqb (Str.upper (Name x)) (Str.upper merchant_name)) eqn:Hp.
      + apply String.eqb_eq in Hp. symmetry in Hp.
        rewrite (filter_finds_same_name _ _ Hp).
        rewrite !andb_true_r. reflexivity.
      + rewrite !andb_false_r. reflexivity. }
  rewrite Hfound.
  eexists. split; [reflexivity |]. cbn. repeat split. exact Hmax'.
Qed.

Lemma resolve_times_existing
  (access_token xero_tenant_id merchant_name : string) (c : Contact) (n : nat) :
  forall w,
    (0 < RateLimiter.max_requests_per_minute (rate_limiter w))%nat ->
    same_name_contacts xero_tenant_id merchant_name w = [c] ->
    exists w',
      resolve_times E access_token xero_tenant_id merchant_name n w
      = (Ok (repeat (Some (ContactID c)) n), w') /\
      ledger w' = ledger w /\
      log w' = log w ++ repeat (HttpGet contacts_url, true) n.
Proof.
  induction n as [| n IH]; intros w Hmax Hone.
  - exists w. repeat split. symmetry. apply app_nil_r.
  - destruct (resolve_existing access_token xero_tenant_id merchant_name c w Hmax Hone)
      as (w1 & H1 & Hl & Hlog & Hmax1).
    assert (Hone1 : same_name_contacts xero_tenant_id merchant_name w1 = [c]).
    { unfold same_name_contacts in *. rewrite Hl. exact Hone. }
    assert (Hmax1' : (0 < RateLimiter.max_requests_per_minute (rate_limiter w1))%nat)
      by (rewrite Hmax1; exact Hmax).
    destruct (IH w1 Hmax1' Hone1) as (w2 & H2 & Hl2 & Hlog2).
    exists w2. cbn [resolve_times]. unfold bind. rewrite H1, H2. repeat split.
    + rewrite Hl2. exact Hl.
    + rewrite Hlog2, Hlog. rewrite <- app_assoc. reflexivity.
Qed.

(** C6. When the ledger holds exactly one contact whose name equals the
    merchant name up to case, the ledger's text filter returns the names that
    are equal up to case, and the calls to the ledger succeed, then any number
    of resolutions all return that contact's id, the ledger's contacts stay
    as they were, and the only requests issued are contact searches: no
    contact is created. *)
Theorem contact_resolution_idempotent
  (access_token xero_tenant_id merchant_name : string) (c : Contact)
  (n : nat) (w : World) :
  (0 < RateLimiter.max_requests_per_minute (rate_limiter w))%nat ->
  same_name_contacts xero_tenant_id merchant_name w = [c] ->
  fst (resolve_times E access_token xero_tenant_id merchant_name n w)
  = Ok (repeat (Some (ContactID c)) n)
  /\ contacts (ledger (snd (resolve_times E access_token xero_tenant_id merchant_name n w)))
     = contacts (ledger w)
  /\ events_since w (snd (resolve_times E access_token xero_tenant_id merchant_name n w))
     = repeat (HttpGet contacts_url, true) n.
Proof.
  intros Hmax Hone.
  destruct (resolve_times_existing access_token xero_tenant_id merchant_name c n w Hmax Hone)
    as (w' & H & Hl & Hlog).
  rewrite H. simpl. repeat split.
  - rewrite Hl. reflexivity.
  - apply events_since_app. exact Hlog.
Qed.

End WithEnv.

(** C6 on the ledger of [connected_world]: the merchant "Corner Cafe" is
    known as "CORNER CAFE"; three resolutions return its id. *)
Lemma contact_resolution_idempotent_witness :
  (forall text nm, Str.upper text = Str.upper nm -> name_contains quiet text nm = true)
  /\ (forall i, fault quiet i = false /\ http_ok quiet i = true)
  /\ (0 < RateLimiter.max_requests_per_minute (rate_limiter connected_world))%nat
  /\ same_name_contacts "org-1" "Corner Cafe" connected_world
     = [ mkContact "org-1" "c-1" "CORNER CAFE" true false ]
  /\ (fst (resolve_times quiet "token" "org-1" "Corner Cafe" 3 connected_world)
      = Ok (repeat (Some "c-1") 3)
      /\ contacts (ledger (snd (resolve_times quiet "token" "org-1" "Corner Cafe" 3
                                  connected_world)))
         = contacts (ledger connected_world)
      /\ events_since connected_world
           (snd (resolve_times quiet "token" "org-1" "Corner Cafe" 3 connected_world))
         = repeat (HttpGet contacts_url, true) 3).
Proof.
  assert (H1 : forall text nm, Str.upper text = Str.upper nm ->
                               name_contains quiet text nm = true)
    by exact contains_ci_same_name.
  assert (H2 : forall i, fault quiet i = false /\ http_ok quiet i = true)
    by (intro i; split; reflexivity).
  assert (H3 : (0 < RateLimiter.max_requests_per_minute (rate_limiter connected_world))%nat)
    by (simpl; lia).
  assert (H4 : same_name_contacts "org-1" "Corner Cafe" connected_world
               = [ mkContact "org-1" "c-1" "CORNER CAFE" true false ])
    by (vm_compute; reflexivity).
  split; [exact H1 |]. split; [exact H2 |]. split; [exact H3 |]. split; [exact H4 |].
  exact (contact_resolution_idempotent quiet H1 H2 "token" "org-1" "Corner Cafe"
           (mkContact "org-1" "c-1" "CORNER CAFE" true false) 3 connected_world H3 H4).
Defined.

(** Without a contact of that name the resolution creates one, and finds it
    the next time. *)
Lemma unknown_merchant_is_created_once :
  let r := resolve_times quiet "token" "org-1" "Bakery" 2 connected_world in
  fst r = Ok [Some "id-1"; Some "id-1"] /\
  events_since connected_world (snd r)
  = [ (HttpGet contacts_url, true); (HttpPut contacts_url, true);
      (HttpGet contacts_url, true) ].
Proof. vm_compute. split; reflexivity. Qed.

End ContactFacts.

(* ================================================================== *)
(** ** The lines of a bill *)
(* ================================================================== *)

Module InvoiceFacts.
Import Py Cloud Logic AzureFunctions Examples.



End InvoiceFacts.

(* ================================================================== *)
(** ** Runs on concrete worlds *)
(* ================================================================== *)

Module ScenarioFacts.
Import Py Cloud Logic AzureFunctions Examples.

(** On a tenant whose id has no hyphen and that has no ledger integration,
    the run returns [False] and the record ends in status "failed", with no
    synchronisation status and no invoice id. *)
Lemma no_integration_marks_receipt_failed :
  let r := process_receipt_blob quiet upload "acme" (upload_world "acme") in
  fst r = Ok false /\
  summary (snd r) = [ ("acme-1003-4242", "failed", None, None) ].
Proof. vm_compute. split; reflexivity. Qed.

(** C3 fails on a tenant whose id is a UUID, as [create_tenant] issues them:
    the status update reads the record under the partition key
    [receipt_id.split('-')[0]], which is the first group of the UUID and not
    the tenant id; the read fails, the exception is caught, and the record
    stays in status "processing". *)
Lemma no_integration_uuid_tenant_stays_processing :
  let r := process_receipt_blob quiet upload uuid_tenant (upload_world uuid_tenant) in
  fst r = Ok false /\
  summary (snd r)
  = [ ("3f2b8c1e-9d4a-4c7b-8e21-5a6f0b1c2d3e-1003-4242", "processing", None, None) ] /\
  In (ReadItem Receipts "3f2b8c1e-9d4a-4c7b-8e21-5a6f0b1c2d3e-1003-4242" "3f2b8c1e", false)
     (log (snd r)) /\
  Str.split_head "-" "3f2b8c1e-9d4a-4c7b-8e21-5a6f0b1c2d3e-1003-4242" = "3f2b8c1e".
Proof. vm_compute. intuition. Qed.

(** C5 (as stated) fails: the e-mail entry point stores the attachment and
    creates a receipt record in status "uploaded"; no document is analysed in
    that run. *)
Lemma email_creates_receipt_before_extraction :
  let r := EmailProcessing.main quiet (Some mail) mail_world in
  fst r = Ok 200%nat /\
  log (snd r)
  = [ (QueryItems EmailMappings, true);
      (QueryItems Tenants, true);
      (ReadItem Tenants "acme" "acme", true);
      (UploadBlob "tenant-acme-uploads" "email_1003_#ann@exa_lunch.pdf", true);
      (CreateItem Receipts "acme-email-1004", true);
      (SendEmail "ann@example.com", true) ] /\
  summary (snd r) = [ ("acme-email-1004", "uploaded", None, Some "pending") ].
Proof. vm_compute. intuition. Qed.

(** An [EmailReceiptProcessor] that has processed a message recognises it:
    the second call returns [True] and calls no service. *)
Theorem same_processor_deduplicates (E : Env) (self : EmailProcessing.EmailReceiptProcessor)
  (msg : EmailProcessing.Message) (w : World) :
  In (sha256_hex E
        ((match EmailProcessing.MessageID msg with Some x => x | None => "" end)
         ++ EmailProcessing._extract_email_address
              (match EmailProcessing.From msg with Some x => x | None => "" end))%string)
     (EmailProcessing.processed_emails self) ->
  EmailProcessing.process_email E self (EmailProcessing.mkEmailData (Some msg)) w
  = (Ok (true, self), w).
Proof.
  intro Hin. unfold EmailProcessing.process_email, try_except, bind. simpl.
  match goal with |- context [existsb ?f ?l] =>
    assert (Hex : existsb f l = true)
  end.
  { apply existsb_exists. eexists. split; [exact Hin | apply String.eqb_refl]. }
  rewrite Hex. reflexivity.
Qed.

(** A processor that holds the hash of the message of [mail]. *)
Lemma same_processor_deduplicates_witness :
  In (sha256_hex quiet ("<m1@example.com>" ++ "ann@example.com")%string)
     [ "#<m1@example.com>ann@example.com" ] /\
  EmailProcessing.process_email quiet
    (EmailProcessing.mkProcessor [ "#<m1@example.com>ann@example.com" ]) mail mail_world
  = (Ok (true, EmailProcessing.mkProcessor [ "#<m1@example.com>ann@example.com" ]),
     mail_world).
Proof.
  split; [left; reflexivity |].
  exact (same_processor_deduplicates quiet
           (EmailProcessing.mkProcessor [ "#<m1@example.com>ann@example.com" ])
           {| EmailProcessing.From := Some "Ann <ann@example.com>";
              EmailProcessing.To := Some "acme@receipts.xeroflow.com";
              EmailProcessing.Subject := Some "Lunch";
              EmailProcessing.MessageID := Some "<m1@example.com>";
              EmailProcessing.parts :=
                [ EmailProcessing.mkPart None None (Some "see attached") "text/plain";
                  EmailProcessing.mkPart (Some "attachment") (Some "lunch.pdf")
                    (Some "%PDF") "application/pdf" ] |}
           mail_world (or_introl eq_refl)).
Defined.

(** C8 fails at the entry point: [main] builds a new processor for every
    request, so the set of processed messages is empty each time. The same
    message submitted twice is processed twice: the second submission uploads
    the attachment again and creates a second receipt record. *)
Lemma resubmitted_email_is_processed_again :
  let first := EmailProcessing.main quiet (Some mail) mail_world in
  let second := EmailProcessing.main quiet (Some mail) (snd first) in
  fst first = Ok 200%nat /\ fst second = Ok 200%nat /\
  events_since (snd first) (snd second)
  = [ (QueryItems EmailMappings, true);
      (QueryItems Tenants, true);
      (ReadItem Tenants "acme" "acme", true);
      (UploadBlob "tenant-acme-uploads" "email_1009_#ann@exa_lunch.pdf", true);
      (CreateItem Receipts "acme-email-1010", true);
      (SendEmail "ann@example.com", true) ] /\
  map blob_name (storage (snd second))
  = [ "email_1003_#ann@exa_lunch.pdf"; "email_1009_#ann@exa_lunch.pdf" ] /\
  summary (snd second)
  = [ ("acme-email-1004", "uploaded", None, Some "pending");
      ("acme-email-1010", "uploaded", None, Some "pending") ].
Proof. vm_compute. intuition. Qed.

(** The name [uuid] is not bound in [azure_functions.py]. *)
Lemma uuid_is_not_a_global : global "uuid" empty_world = (Raise (NameError "uuid"), empty_world).
Proof. reflexivity. Qed.

(** C9 fails: in the sweep over tenant [a] (no bank account) and tenant [b]
    (one authorised bill of 25.00), tenant [a] is skipped without a payment
    and the payment for [b] is created, but building the audit record
    evaluates [uuid.uuid4()], which raises [NameError]; the exception is
    caught and logged by the caller, and no audit entry is written. *)
Lemma auto_pay_writes_no_audit_entry :
  let r := auto_pay_bills_function quiet autopay_world in
  fst r = Ok tt /\
  payments (ledger (snd r))
  = [ mkPayment "org-b" "bill-1" "bank-1" "d1714521600" 25%float ] /\
  audit (db (snd r)) = [] /\
  log (snd r)
  = [ (QueryItems Tenants, true);
      (ReadItem Integrations "xero-a" "a", true);
      (GetSecret "xero-token-a", true);
      (ReadItem Tenants "a" "a", true);
      (ReadItem Integrations "xero-b" "b", true);
      (GetSecret "xero-token-b", true);
      (ReadItem Tenants "b" "b", true);
      (HttpGet invoices_url, true);
      (HttpPut payments_url, true) ] /\
  fst (create_automatic_payment quiet "token" "org-b" bill_25 "bank-1" autopay_world)
  = Raise (NameError "uuid").
Proof. vm_compute. intuition. Qed.

End ScenarioFacts.

(* ================================================================== *)
(** ** A tenant without ledger integration *)
(* ================================================================== *)

Module NotConfiguredFacts.
Import Py Cloud Logic RunFacts AzureFunctions PipelineFacts Examples.

#[export] Instance same_db_frame : Frame same_db.
Proof.
  split; unfold same_db; simpl; auto.
  intros a b c H1 H2. congruence.
Qed.

#[export] Instance same_receipts_frame : Frame same_receipts.
Proof.
  split; unfold same_receipts; simpl; auto.
  intros a b c H1 H2. congruence.
Qed.

Ltac same_db_side :=
  first [ intros w b; reflexivity | intros; reflexivity ].

Ltac same_receipts_side :=
  first [ intros w b; reflexivity | intros; unfold same_receipts; reflexivity ].

(** Splitting at the first hyphen gives back a prefix that has none. *)
Lemma split_head_prefix (sep : ascii) (a b : string) :
  Str.split_head sep a = a ->
  Str.split_head sep (a ++ String sep b) = a.
Proof.
  induction a as [| c a IH]; simpl.
  - intros _. rewrite Ascii.eqb_refl. reflexivity.
  - destruct (Ascii.eqb c sep); [discriminate |].
    intro H. injection H as H. rewrite (IH H). reflexivity.
Qed.

Lemma lookup_app_new {D : Type} (id_of part_of : D -> string) (i pk : string)
  (docs : list D) (d : D) :
  lookup id_of part_of i pk docs = None ->
  id_of d = i -> part_of d = pk ->
  lookup id_of part_of i pk (docs ++ [d]) = Some d.
Proof.
  intros Hnone Hi Hp. unfold lookup in *.
  induction docs as [| x docs IH]; simpl in *.
  - rewrite Hi, Hp, !String.eqb_refl. reflexivity.
  - destruct (String.eqb (id_of x) i && String.eqb (part_of x) pk); [discriminate |].
    apply IH. exact Hnone.
Qed.

Lemma replace_doc_app_new {D : Type} (id_of part_of : D -> string) (i : string)
  (docs : list D) (d body : D) :
  lookup id_of part_of i (part_of body) docs = None ->
  id_of d = i -> part_of d = part_of body ->
  replace_doc id_of part_of i body (docs ++ [d]) = docs ++ [body].
Proof.
  intros Hnone Hi Hp. unfold replace_doc, lookup in *.
  rewrite map_app. simpl. rewrite Hi, Hp, !String.eqb_refl. simpl. f_equal.
  induction docs as [| x docs IH]; simpl in *; [reflexivity |].
  destruct (String.eqb (id_of x) i && String.eqb (part_of x) (part_of body));
    [discriminate |].
  rewrite (IH Hnone). reflexivity.
Qed.

Lemma lookup_fields {D : Type} (id_of part_of : D -> string) (i pk : string)
  (docs : list D) (d : D) :
  lookup id_of part_of i pk docs = Some d -> id_of d = i /\ part_of d = pk.
Proof.
  unfold lookup. intro H. apply find_some in H. destruct H as [_ H].
  apply andb_true_iff in H. destruct H as [H1 H2].
  apply String.eqb_eq in H1, H2. auto.
Qed.

(** A computation that returns and leaves the database alone. *)
Lemma returns_same_db {A : Type} (m : M A) (w : World) :
  never_raises m -> stays same_db m ->
  exists a w1, m w = (Ok a, w1) /\ db w1 = db w.
Proof.
  intros Hn Hs. destruct (Hn w) as (a & Ha). specialize (Hs w).
  destruct (m w) as [r w1]. simpl in *. subst r. exists a, w1. auto.
Qed.

Lemma returns_same_receipts {A : Type} (m : M A) (w : World) :
  never_raises m -> stays same_receipts m ->
  exists a w1, m w = (Ok a, w1) /\ receipts (db w1) = receipts (db w).
Proof.
  intros Hn Hs. destruct (Hn w) as (a & Ha). specialize (Hs w).
  destruct (m w) as [r w1]. simpl in *. subst r. exists a, w1. auto.
Qed.

Section WithEnv.
Variable E : Env.
Hypothesis no_fault : forall i, fault E i = false.

Lemma call_returns {A : Type} (ev : Event) (act : World -> result A * World) (w : World) :
  call E ev act w
  = match act (set_clock (clock w + latency E (List.length (log w)))%Q w) with
    | (Ok a, w2) => (Ok a, set_log (log w2 ++ [(ev, true)]) w2)
    | (Raise e, w2) => (Raise e, set_log (log w2 ++ [(ev, false)]) w2)
    end.
Proof. unfold call. rewrite no_fault. reflexivity. Qed.

Lemma update_tenant_usage_same_receipts tenant_id :
  stays same_receipts (update_tenant_usage E tenant_id).
Proof. stays_auto same_receipts_side fail. Qed.

Lemma delete_from_uploads_same_db tenant_id filename :
  stays same_db (delete_from_uploads E tenant_id filename).
Proof. stays_auto same_db_side fail. Qed.

Lemma move_blob_to_processing_same_db tenant_id filename content :
  stays same_db (move_blob_to_processing E tenant_id filename content).
Proof. stays_auto same_db_side fail. Qed.

Lemma blob_read_ok (n d : string) (w : World) :
  exists w1, call E (BlobRead n) (fun w0 => (Ok d, w0)) w = (Ok d, w1) /\ db w1 = db w.
Proof. rewrite call_returns. eexists. split; reflexivity. Qed.

Lemma get_tenant_ok (tenant_id : string) (t : TenantDoc.t) (w : World) :
  lookup TenantDoc.id TenantDoc.tenantId tenant_id tenant_id (tenants (db w)) = Some t ->
  exists w1, get_tenant E tenant_id w = (Ok (Some t), w1) /\ db w1 = db w.
Proof.
  intro H. unfold get_tenant, try_except, bind, read_tenant, read_item.
  rewrite call_returns. cbn [db set_clock]. rewrite H.
  eexists. split; reflexivity.
Qed.

Lemma extract_ok (content filename : string) (w : World) :
  exists d w1,
    extract_receipt_data_from_blob E content filename w = (Ok (Some d), w1) /\
    db w1 = db w.
Proof.
  unfold extract_receipt_data_from_blob, try_except, bind.
  rewrite call_returns. eexists _, _. split; reflexivity.
Qed.

Lemma store_ok (tenant_id filename : string) (d : Extraction.ReceiptData) (w : World) :
  (forall now, lookup ReceiptDoc.id ReceiptDoc.tenantId
                      (receipt_id_at E tenant_id filename now) tenant_id
                      (receipts (db w)) = None) ->
  exists now doc w1,
    store_receipt_data E tenant_id filename d w
    = (Ok (receipt_id_at E tenant_id filename now), w1) /\
    db w1 = set_receipts (receipts (db w) ++ [doc]) (db w) /\
    ReceiptDoc.id doc = receipt_id_at E tenant_id filename now /\
    ReceiptDoc.tenantId doc = tenant_id /\
    ReceiptDoc.xeroStatus doc = None /\
    ReceiptDoc.xeroInvoiceId doc = None.
Proof.
  intro Hfresh.
  unfold store_receipt_data, bind, get_clock, utcnow_iso, bind, get_clock, ret,
    create_receipt, create_item.
  rewrite call_returns. cbn [ReceiptDoc.id ReceiptDoc.tenantId db set_clock].
  rewrite Hfresh. eexists _, _, _. split; [reflexivity |]. repeat split.
Qed.

Lemma process_to_xero_not_configured (tenant_id : string)
  (receipt_data : Extraction.ReceiptData) (receipt_id : string) (w : World) :
  lookup IntegrationDoc.id IntegrationDoc.tenantId ("xero-" ++ tenant_id) tenant_id
         (integrations (db w)) = None ->
  exists w1,
    process_to_xero E tenant_id receipt_data receipt_id w = (Ok false, w1) /\
    db w1 = db w.
Proof.
  intro H.
  unfold process_to_xero, try_except, bind, get_xero_integration, try_except, bind,
    read_integration, read_item.
  rewrite call_returns. cbn [db set_clock]. rewrite H.
  eexists. split; reflexivity.
Qed.

Lemma update_receipt_status_ok (receipt_id status : string) (d : ReceiptDoc.t)
  (w : World) :
  lookup ReceiptDoc.id ReceiptDoc.tenantId receipt_id (Str.split_head "-" receipt_id)
         (receipts (db w)) = Some d ->
  exists now_iso w1,
    update_receipt_status E receipt_id status w = (Ok tt, w1) /\
    receipts (db w1)
    = replace_doc ReceiptDoc.id ReceiptDoc.tenantId receipt_id
        (ReceiptDoc.with_status status now_iso d) (receipts (db w)).
Proof.
  intro H. destruct (lookup_fields _ _ _ _ _ _ H) as [Hid Hpk].
  unfold update_receipt_status, try_except, bind, read_receipt, read_item.
  rewrite call_returns. cbn [db set_clock]. rewrite H.
  unfold utcnow_iso, bind, get_clock, ret, replace_receipt, replace_item.
  rewrite call_returns. cbn [db set_clock set_log ReceiptDoc.with_status ReceiptDoc.tenantId].
  rewrite Hpk, H. eexists _, _. split; reflexivity.
Qed.

(** On a tenant whose id has no hyphen and that has no ledger integration,
    when no service call raises and the store holds no record with the
    identifier the document gets, the run returns [False] and leaves one new
    record, in status "failed", with no synchronisation status and no
    invoice id. *)
Theorem no_integration_ends_failed
  (blob : InputStream) (tenant_id : string) (t : TenantDoc.t) (w : World) :
  Str.split_head "-" tenant_id = tenant_id ->
  lookup TenantDoc.id TenantDoc.tenantId tenant_id tenant_id (tenants (db w)) = Some t ->
  TenantDoc.processingEnabled t = true ->
  lookup IntegrationDoc.id IntegrationDoc.tenantId ("xero-" ++ tenant_id) tenant_id
         (integrations (db w)) = None ->
  (forall now, lookup ReceiptDoc.id ReceiptDoc.tenantId
                      (receipt_id_at E tenant_id (name blob) now) tenant_id
                      (receipts (db w)) = None) ->
  fst (process_receipt_blob E blob tenant_id w) = Ok false /\
  exists d,
    receipts (db (snd (process_receipt_blob E blob tenant_id w)))
    = receipts (db w) ++ [d] /\
    ReceiptDoc.tenantId d = tenant_id /\
    ReceiptDoc.status d = "failed" /\
    ReceiptDoc.xeroStatus d = None /\
    ReceiptDoc.xeroInvoiceId d = None.
Proof.
  intros Hhyphen Htenant Henabled Hnoint Hfresh.
  rewrite (process_receipt_blob_eq E). unfold try_except, bind.
  destruct (blob_read_ok (name blob) (data blob) w) as (w1 & -> & D1).
  assert (Ht1 : lookup TenantDoc.id TenantDoc.tenantId tenant_id tenant_id
                        (tenants (db w1)) = Some t) by (rewrite D1; exact Htenant).
  destruct (get_tenant_ok tenant_id t w1 Ht1) as (w2 & -> & D2).
  rewrite Henabled. cbn [negb].
  destruct (extract_ok (data blob) (name blob) w2) as (d & w3 & -> & D3).
  assert (Hfresh3 : forall now, lookup ReceiptDoc.id ReceiptDoc.tenantId
                        (receipt_id_at E tenant_id (name blob) now) tenant_id
                        (receipts (db w3)) = None)
    by (intro now; rewrite D3, D2, D1; apply Hfresh).
  destruct (store_ok tenant_id (name blob) d w3 Hfresh3)
    as (now & doc & w4 & -> & D4 & Hid & Hpart & Hxs & Hxi).
  set (rid := receipt_id_at E tenant_id (name blob) now) in *.
  unfold after_store, bind.
  destruct (returns_same_db
              (move_blob_to_processing E tenant_id (name blob) (data blob)) w4
              (move_blob_to_processing_returns E _ _ _)
              (move_blob_to_processing_same_db _ _ _)) as (u5 & w5 & -> & D5).
  assert (Hint5 : lookup IntegrationDoc.id IntegrationDoc.tenantId
                          ("xero-" ++ tenant_id) tenant_id (integrations (db w5)) = None).
  { rewrite D5, D4. cbn [integrations set_receipts]. rewrite D3, D2, D1. exact Hnoint. }
  destruct (process_to_xero_not_configured tenant_id d rid w5 Hint5) as (w6 & -> & D6).
  assert (Hrec6 : receipts (db w6) = receipts (db w) ++ [doc]).
  { rewrite D6, D5, D4. cbn [receipts set_receipts]. rewrite D3, D2, D1. reflexivity. }
  assert (Hsplit : Str.split_head "-" rid = tenant_id).
  { unfold rid, receipt_id_at. apply (split_head_prefix "-" tenant_id). exact Hhyphen. }
  assert (Hfound : lookup ReceiptDoc.id ReceiptDoc.tenantId rid (Str.split_head "-" rid)
                          (receipts (db w6)) = Some doc).
  { rewrite Hsplit, Hrec6. apply lookup_app_new; [apply Hfresh | exact Hid | exact Hpart]. }
  destruct (update_receipt_status_ok rid "failed" doc w6 Hfound) as (iso & w7 & -> & R7).
  destruct (returns_same_receipts (update_tenant_usage E tenant_id) w7
              (update_tenant_usage_returns E _)
              (update_tenant_usage_same_receipts _)) as (u8 & w8 & -> & R8).
  assert (Hdel : never_raises (delete_from_uploads E tenant_id (name blob)))
    by (unfold delete_from_uploads; never_auto).
  destruct (returns_same_db (delete_from_uploads E tenant_id (name blob)) w8 Hdel
              (delete_from_uploads_same_db _ _)) as (u9 & w9 & -> & D9).
  cbn [fst snd ret]. split; [reflexivity |].
  exists (ReceiptDoc.with_status "failed" iso doc).
  rewrite D9, R8, R7, Hrec6. split.
  - apply replace_doc_app_new; [| exact Hid | reflexivity].
    cbn [ReceiptDoc.with_status ReceiptDoc.tenantId]. rewrite Hpart. apply Hfresh.
  - cbn [ReceiptDoc.with_status ReceiptDoc.tenantId ReceiptDoc.status
         ReceiptDoc.xeroStatus ReceiptDoc.xeroInvoiceId]. auto.
Qed.

End WithEnv.


Lemma no_integration_ends_failed_witness :
  (forall i, fault quiet i = false) /\
  Str.split_head "-" "acme" = "acme" /\
  lookup TenantDoc.id TenantDoc.tenantId "acme" "acme" (tenants (db (upload_world "acme")))
  = Some (tenant "acme" false None []) /\
  TenantDoc.processingEnabled (tenant "acme" false None []) = true /\
  lookup IntegrationDoc.id IntegrationDoc.tenantId ("xero-" ++ "acme") "acme"
         (integrations (db (upload_world "acme"))) = None /\
  (forall now, lookup ReceiptDoc.id ReceiptDoc.tenantId
                      (receipt_id_at quiet "acme" (name upload) now) "acme"
                      (receipts (db (upload_world "acme"))) = None) /\
  (fst (process_receipt_blob quiet upload "acme" (upload_world "acme")) = Ok false /\
   exists d,
     receipts (db (snd (process_receipt_blob quiet upload "acme" (upload_world "acme"))))
     = receipts (db (upload_world "acme")) ++ [d] /\
     ReceiptDoc.tenantId d = "acme" /\
     ReceiptDoc.status d = "failed" /\
     ReceiptDoc.xeroStatus d = None /\
     ReceiptDoc.xeroInvoiceId d = None).
Proof.
  assert (H0 : forall i, fault quiet i = false) by (intro; reflexivity).
  assert (H5 : forall now, lookup ReceiptDoc.id ReceiptDoc.tenantId
                      (receipt_id_at quiet "acme" (name upload) now) "acme"
                      (receipts (db (upload_world "acme"))) = None)
    by (intro; reflexivity).
  split; [exact H0 |]. split; [reflexivity |]. split; [reflexivity |].
  split; [reflexivity |]. split; [reflexivity |]. split; [exact H5 |].
  exact (no_integration_ends_failed quiet H0 upload "acme" (tenant "acme" false None [])
           (upload_world "acme") eq_refl eq_refl eq_refl eq_refl H5).
Defined.

End NotConfiguredFacts.

(* ================================================================== *)
(** ** Strings *)
(* ================================================================== *)

Module StringFacts.
Import Py Properties.
#[local] Open Scope nat_scope.
#[local] Open Scope string_scope.

Lemma append_assoc (a b c : string) : (a ++ b) ++ c = a ++ (b ++ c).
Proof. induction a as [| x a IH]; simpl; [reflexivity | rewrite IH; reflexivity]. Qed.

Lemma append_empty_r (s : string) : s ++ "" = s.
Proof. induction s as [| x s IH]; simpl; [reflexivity | rewrite IH; reflexivity]. Qed.

Lemma length_append (a b : string) :
  String.length (a ++ b) = String.length a + String.length b.
Proof. induction a as [| x a IH]; simpl; [reflexivity | rewrite IH; reflexivity]. Qed.

Lemma prefix_cons (a b : ascii) (p s : string) :
  String.prefix (String a p) (String b s)
  = if Ascii.eqb a b then String.prefix p s else false.
Proof.
  simpl. destruct (ascii_dec a b) as [-> | Hne].
  - rewrite Ascii.eqb_refl. reflexivity.
  - destruct (Ascii.eqb a b) eqn:Heq; [| reflexivity].
    apply Ascii.eqb_eq in Heq. contradiction.
Qed.

Lemma prefix_append (p x : string) : String.prefix p (p ++ x) = true.
Proof.
  induction p as [| a p IH]; [destruct x; reflexivity |].
  change (String a p ++ x) with (String a (p ++ x)).
  rewrite prefix_cons, Ascii.eqb_refl. exact IH.
Qed.

(** A prefix no longer than [x] is decided inside [x]. *)
Lemma prefix_append_short (p x y : string) :
  String.length p <= String.length x ->
  String.prefix p (x ++ y) = String.prefix p x.
Proof.
  revert x. induction p as [| a p IH]; intros x Hlen.
  - destruct x, y; reflexivity.
  - destruct x as [| b x]; [simpl in Hlen; lia |].
    change (String b x ++ y) with (String b (x ++ y)).
    rewrite !prefix_cons. destruct (Ascii.eqb a b); [| reflexivity].
    apply IH. simpl in Hlen. lia.
Qed.

Lemma rev_string_append (a b : string) :
  Str.rev_string (a ++ b) = Str.rev_string b ++ Str.rev_string a.
Proof.
  induction a as [| x a IH]; simpl.
  - rewrite append_empty_r. reflexivity.
  - rewrite IH, append_assoc. reflexivity.
Qed.

Lemma rev_string_length (s : string) :
  String.length (Str.rev_string s) = String.length s.
Proof.
  induction s as [| x s IH]; simpl; [reflexivity |].
  rewrite length_append, IH. simpl. lia.
Qed.

Lemma endswith_append (p a : string) : Str.endswith p (a ++ p) = true.
Proof. unfold Str.endswith. rewrite rev_string_append. apply prefix_append. Qed.

(** A suffix no longer than [b] is decided inside [b]. *)
Lemma endswith_append_short (p a b : string) :
  String.length p <= String.length b ->
  Str.endswith p (a ++ b) = Str.endswith p b.
Proof.
  intro Hlen. unfold Str.endswith. rewrite rev_string_append.
  apply prefix_append_short. rewrite !rev_string_length. exact Hlen.
Qed.

Lemma all_chars_append (p : ascii -> bool) (a b : string) :
  all_chars p (a ++ b) = all_chars p a && all_chars p b.
Proof.
  induction a as [| x a IH]; simpl; [reflexivity |].
  rewrite IH, andb_assoc. reflexivity.
Qed.

Lemma all_chars_impl (p q : ascii -> bool) (s : string) :
  (forall c, p c = true -> q c = true) ->
  all_chars p s = true -> all_chars q s = true.
Proof.
  intro Hpq. induction s as [| x s IH]; simpl; [reflexivity |].
  rewrite !andb_true_iff. intros [Hx Hs]. split; [apply Hpq; exact Hx | apply IH; exact Hs].
Qed.

(** A string without the separator is its own first field. *)
Lemma split_head_without (sep : ascii) (s : string) :
  all_chars (fun c => negb (Ascii.eqb c sep)) s = true -> Str.split_head sep s = s.
Proof.
  induction s as [| x s IH]; simpl; [reflexivity |].
  rewrite andb_true_iff, negb_true_iff. intros [-> Hs].
  rewrite (IH Hs). reflexivity.
Qed.

(** A pattern whose first character does not occur in [s] does not occur in [s]. *)
Lemma contains_first_absent (c : ascii) (p s : string) :
  all_chars (fun x => negb (Ascii.eqb x c)) s = true ->
  Str.contains (String c p) s = false.
Proof.
  induction s as [| x s IH].
  - reflexivity.
  - cbn [all_chars]. rewrite andb_true_iff, negb_true_iff. intros [Hx Hs].
    cbn [Str.contains]. rewrite prefix_cons.
    assert (Hc : Ascii.eqb c x = false).
    { destruct (Ascii.eqb c x) eqn:Heq; [| reflexivity].
      apply Ascii.eqb_eq in Heq. subst x. rewrite Ascii.eqb_refl in Hx. discriminate. }
    rewrite Hc. simpl. apply IH. exact Hs.
Qed.

(** Removing a pattern that does not occur changes nothing. *)
Lemma remove_all_fuel_absent (n : nat) (old s : string) :
  Str.contains old s = false -> Str.remove_all_fuel n old s = s.
Proof.
  revert s. induction n as [| n IH]; intros s H; [reflexivity |].
  destruct s as [| x s]; [reflexivity |].
  cbn [Str.contains] in H. apply orb_false_iff in H. destruct H as [Hp Hc].
  cbn [Str.remove_all_fuel]. rewrite Hp. rewrite (IH s Hc). reflexivity.
Qed.

Lemma substring_skip (p x : string) :
  String.substring (String.length p) (String.length (p ++ x) - String.length p) (p ++ x) = x.
Proof.
  rewrite length_append. replace (String.length p + String.length x - String.length p)
    with (String.length x) by lia.
  induction p as [| a p IH]; simpl.
  - induction x as [| b x IHx]; simpl; [reflexivity | rewrite IHx; reflexivity].
  - exact IH.
Qed.

(** Removing a pattern that occurs at the front and nowhere after it. *)
Lemma remove_all_front (old x : string) :
  old <> "" -> Str.contains old x = false -> Str.remove_all old (old ++ x) = x.
Proof.
  intros Hne Hx. unfold Str.remove_all.
  destruct old as [| a old]; [congruence |].
  change (String a old ++ x) with (String a (old ++ x)).
  cbn [String.length Str.remove_all_fuel].
  change (String a (old ++ x)) with (String a old ++ x).
  rewrite prefix_append.
  pose proof (substring_skip (String a old) x) as Hs.
  cbn [String.length] in Hs.
  change (String a old ++ x) with (String a (old ++ x)) in *.
  cbn [String.length] in Hs. rewrite Hs.
  apply remove_all_fuel_absent. exact Hx.
Qed.

End StringFacts.

(* ================================================================== *)
(** ** The path of an upload *)
(* ================================================================== *)

Module PathFacts.
Import Py Cloud AzureFunctions Properties StringFacts Examples.
#[local] Open Scope nat_scope.
#[local] Open Scope string_scope.

Lemma hex_or_hyphen_not_slash (c : ascii) :
  hex_or_hyphen c = true -> negb (Ascii.eqb c "/") = true.
Proof.
  destruct c as [[] [] [] [] [] [] [] []]; intro H; try reflexivity;
    vm_compute in H; discriminate.
Qed.

Lemma hex_or_hyphen_not_t (c : ascii) :
  hex_or_hyphen c = true -> negb (Ascii.eqb c "t") = true.
Proof.
  destruct c as [[] [] [] [] [] [] [] []]; intro H; try reflexivity;
    vm_compute in H; discriminate.
Qed.

Lemma hex_or_hyphen_not_u (c : ascii) :
  hex_or_hyphen c = true -> negb (Ascii.eqb c "u") = true.
Proof.
  destruct c as [[] [] [] [] [] [] [] []]; intro H; try reflexivity;
    vm_compute in H; discriminate.
Qed.

(** Removing the suffix ["-uploads"] from a text without the letter [u]. *)
Lemma remove_uploads_suffix (a : string) :
  all_chars (fun c => negb (Ascii.eqb c "u")) a = true ->
  forall n, String.length a + 8 <= n ->
            Str.remove_all_fuel n "-uploads" (a ++ "-uploads") = a.
Proof.
  induction a as [| c a IH]; intros Hu n Hn.
  - destruct n as [| n]; [simpl in Hn; lia |].
    destruct n; reflexivity.
  - cbn [all_chars] in Hu. apply andb_true_iff in Hu. destruct Hu as [Hc Ha].
    destruct n as [| n]; [simpl in Hn; lia |].
    change (String c a ++ "-uploads") with (String c (a ++ "-uploads")).
    cbn [Str.remove_all_fuel].
    assert (Hp : String.prefix "-uploads" (String c (a ++ "-uploads")) = false).
    { change "-uploads" with (String "-" "uploads") at 1. rewrite prefix_cons.
      destruct (Ascii.eqb "-" c); [| reflexivity].
      destruct a as [| d a].
      - reflexivity.
      - change (String d a ++ "-uploads") with (String d (a ++ "-uploads")).
        change "uploads" with (String "u" "ploads") at 1. rewrite prefix_cons.
        cbn [all_chars] in Ha. apply andb_true_iff in Ha. destruct Ha as [Hd _].
        apply negb_true_iff in Hd.
        destruct (Ascii.eqb "u" d) eqn:Heq; [| reflexivity].
        apply Ascii.eqb_eq in Heq. subst d. discriminate. }
    rewrite Hp. rewrite (IH Ha n); [reflexivity |]. simpl in Hn. lia.
Qed.

(** The tenant id is read back from the path of an upload: for every tenant
    id in the format of a UUID and every file name, the path
    [tenant-<id>-uploads/<file>] yields the id. *)
Theorem upload_path_gives_tenant_back (tenant_id filename : string) :
  uuid_like tenant_id = true ->
  extract_tenant_id_from_path (uploads_container tenant_id ++ "/" ++ filename)
  = Some tenant_id.
Proof.
  intro Hid. unfold extract_tenant_id_from_path, uploads_container.
  assert (Hslash : all_chars (fun c => negb (Ascii.eqb c "/"))
                     ("tenant-" ++ tenant_id ++ "-uploads") = true).
  { rewrite !all_chars_append. rewrite (all_chars_impl _ _ _ hex_or_hyphen_not_slash Hid).
    reflexivity. }
  assert (Hhead : Str.split_head "/" (("tenant-" ++ tenant_id ++ "-uploads") ++ "/" ++ filename)
                  = "tenant-" ++ tenant_id ++ "-uploads").
  { apply (NotConfiguredFacts.split_head_prefix "/"). apply split_head_without. exact Hslash. }
  rewrite Hhead. unfold Str.startswith. rewrite prefix_append.
  rewrite <- append_assoc. rewrite endswith_append. cbn [andb].
  rewrite append_assoc.
  rewrite remove_all_front.
  - unfold Str.remove_all. rewrite remove_uploads_suffix; [reflexivity | | ].
    + apply (all_chars_impl _ _ _ hex_or_hyphen_not_u Hid).
    + rewrite length_append. simpl. lia.
  - discriminate.
  - apply contains_first_absent. rewrite all_chars_append.
    rewrite (all_chars_impl _ _ _ hex_or_hyphen_not_t Hid). reflexivity.
Qed.

(** The path of a document uploaded by the tenant of the examples. *)
Lemma upload_path_gives_tenant_back_witness :
  uuid_like uuid_tenant = true /\
  extract_tenant_id_from_path (uploads_container uuid_tenant ++ "/" ++ "receipt.pdf")
  = Some uuid_tenant.
Proof.
  split; [reflexivity |].
  exact (upload_path_gives_tenant_back uuid_tenant "receipt.pdf" eq_refl).
Defined.

(** A tenant id that contains one of the two markers is not read back. *)
Lemma marker_in_tenant_id_is_lost :
  extract_tenant_id_from_path (uploads_container "my-uploads-co" ++ "/" ++ "receipt.pdf")
  = Some "my-co".
Proof. reflexivity. Qed.

(** A path that yields a tenant id begins with ["tenant-"]. *)
Lemma accepted_path_prefix (blob_path tenant_id : string) :
  extract_tenant_id_from_path blob_path = Some tenant_id ->
  Str.startswith "tenant-" blob_path = true.
Proof.
  unfold extract_tenant_id_from_path.
  destruct (Str.startswith "tenant-" (Str.split_head "/" blob_path)) eqn:Hs;
    [| discriminate].
  intros _. revert Hs. unfold Str.startswith.
  assert (Hgen : forall p s, String.prefix p (Str.split_head "/" s) = true ->
                             String.prefix p s = true).
  { induction p as [| a p IH]; intros s H.
    - destruct s; reflexivity.
    - destruct s as [| b s]; [simpl in H; discriminate |].
      cbn [Str.split_head] in H. destruct (Ascii.eqb b "/"); [simpl in H; discriminate |].
      rewrite prefix_cons in *. destruct (Ascii.eqb a b); [| discriminate].
      apply IH. exact H. }
  apply Hgen.
Qed.

End PathFacts.

(* ================================================================== *)
(** ** The two triggers of the blob pipeline *)
(* ================================================================== *)

Module TriggerFacts.
Import Py Cloud Logic RunFacts AzureFunctions PipelineFacts Properties StringFacts
  PathFacts ScheduledProcessing Examples.
#[local] Open Scope nat_scope.

(** *** The waiting uploads *)

#[export] Instance uploads_stay_frame : Frame uploads_stay.
Proof.
  split; unfold uploads_stay.
  - reflexivity.
  - intros a b c Hab Hbc Ha. specialize (Hab Ha).
    rewrite <- Hab. apply Hbc. unfold plainly_named in *. rewrite Hab. exact Ha.
  - reflexivity.
  - reflexivity.
Qed.

Ltac uploads_side :=
  first [ intros ? ? ?; reflexivity
        | intros; unfold uploads_stay; intros _; reflexivity
        | intros ?; unfold uploads_stay; intros _;
          repeat match goal with |- context [match ?x with _ => _ end] => destruct x end;
          reflexivity ].

Lemma filter_filter_neutral {A : Type} (p q : A -> bool) (l : list A) :
  (forall x, In x l -> p x = true -> q x = true) ->
  filter p (filter q l) = filter p l.
Proof.
  induction l as [| a l IH]; intro H; simpl; [reflexivity |].
  assert (IH' : filter p (filter q l) = filter p l).
  { apply IH. intros x Hx. apply H. right. exact Hx. }
  destruct (q a) eqn:Hq; simpl.
  - rewrite IH'. reflexivity.
  - destruct (p a) eqn:Hp; [| exact IH'].
    rewrite (H a (or_introl eq_refl) Hp) in Hq. discriminate.
Qed.

Lemma uploads_container_is_upload (tenant_id : string) :
  Str.endswith "-uploads" (uploads_container tenant_id) = true.
Proof.
  unfold uploads_container. rewrite <- append_assoc. apply endswith_append.
Qed.

Lemma processing_container_not_upload (tenant_id : string) :
  Str.endswith "-uploads" (processing_container tenant_id) = false.
Proof.
  unfold processing_container. rewrite <- append_assoc.
  rewrite endswith_append_short; [reflexivity | simpl; lia].
Qed.

Lemma complete_container_not_upload (tenant_id : string) :
  Str.endswith "-uploads" (complete_container tenant_id) = false.
Proof.
  unfold complete_container. rewrite <- append_assoc.
  rewrite endswith_append_short; [reflexivity | simpl; lia].
Qed.

Section WithEnv.
Variable E : Env.

(** Writing a blob into a container that is not an upload container. *)
Lemma upload_elsewhere_stays (cont name data : string) (meta : list (string * string)) :
  Str.endswith "-uploads" cont = false ->
  stays uploads_stay (upload_blob E cont name data meta).
Proof.
  intro Hc. apply stays_call; [uploads_side |].
  intros w _. unfold pending. cbn [snd storage set_storage].
  rewrite filter_app. cbn [filter]. unfold is_upload at 2. cbn [container].
  rewrite Hc, app_nil_r.
  apply filter_filter_neutral. intros b _ Hb.
  unfold same_blob. destruct (String.eqb (container b) cont) eqn:Heq; [| reflexivity].
  apply String.eqb_eq in Heq. unfold is_upload in Hb. congruence.
Qed.

(** Deleting a blob whose name begins like a container name. *)
Lemma delete_prefixed_stays (cont name : string) :
  Str.startswith "tenant-" name = true ->
  stays uploads_stay (delete_blob E cont name).
Proof.
  intro Hn. apply stays_call; [uploads_side |].
  intros w Hp. destruct (existsb (same_blob cont name) (storage w)); [| reflexivity].
  unfold pending. cbn [snd storage set_storage].
  apply filter_filter_neutral. intros b Hin Hb.
  unfold same_blob. destruct (String.eqb (blob_name b) name) eqn:Heq;
    [| rewrite andb_false_r; reflexivity].
  apply String.eqb_eq in Heq.
  assert (Hfalse : Str.startswith "tenant-" (blob_name b) = false).
  { apply Hp. unfold pending. apply filter_In. split; assumption. }
  congruence.
Qed.

Lemma move_blob_to_processing_stays (tenant_id filename content : string) :
  stays uploads_stay (move_blob_to_processing E tenant_id filename content).
Proof.
  unfold move_blob_to_processing. apply stays_try_except; [| intro; apply stays_ret].
  apply upload_elsewhere_stays. apply processing_container_not_upload.
Qed.

Lemma move_blob_to_complete_stays (tenant_id filename content : string) :
  stays uploads_stay (move_blob_to_complete E tenant_id filename content).
Proof.
  unfold move_blob_to_complete. apply stays_try_except; [| intro; apply stays_ret].
  apply upload_elsewhere_stays. apply complete_container_not_upload.
Qed.

Lemma delete_from_uploads_stays (tenant_id filename : string) :
  Str.startswith "tenant-" filename = true ->
  stays uploads_stay (delete_from_uploads E tenant_id filename).
Proof.
  intro Hn. unfold delete_from_uploads. apply stays_try_except; [| intro; apply stays_ret].
  apply delete_prefixed_stays. exact Hn.
Qed.

Ltac known_uploads :=
  idtac;
  lazymatch goal with
  | |- stays _ (move_blob_to_processing _ _ _ _) => apply move_blob_to_processing_stays
  | |- stays _ (move_blob_to_complete _ _ _ _) => apply move_blob_to_complete_stays
  | |- stays _ (delete_from_uploads _ _ _) => apply delete_from_uploads_stays; assumption
  end.

(** A run on a blob whose name is a path leaves the waiting uploads alone. *)
Lemma process_receipt_blob_stays (blob : InputStream) (tenant_id : string) :
  Str.startswith "tenant-" (name blob) = true ->
  stays uploads_stay (process_receipt_blob E blob tenant_id).
Proof.
  intro Hn. unfold process_receipt_blob, store_receipt_data, process_to_xero,
    update_receipt_status, update_receipt_xero_info.
  stays_auto uploads_side known_uploads.
Qed.

Lemma main_stays (myblob : InputStream) : stays uploads_stay (main E myblob).
Proof.
  unfold main. apply stays_try_except; [| intro; apply stays_ret].
  destruct (extract_tenant_id_from_path (name myblob)) as [t |] eqn:Hpath;
    [| apply stays_ret].
  cbn [nonempty]. destruct (truthy_str t); [| apply stays_ret].
  apply stays_bind; [| intro; apply stays_ret].
  apply process_receipt_blob_stays. eapply accepted_path_prefix. exact Hpath.
Qed.

Lemma process_pending_blob_stays (tenant_id : string) (blob : Blob) :
  stays uploads_stay
    (process_pending_blob E tenant_id (uploads_container tenant_id) blob).
Proof.
  unfold process_pending_blob. apply stays_try_except; [| intro; apply stays_ret].
  apply stays_bind.
  - unfold download_blob. apply stays_call; uploads_side.
  - intro content. apply stays_bind; [| intro; apply stays_ret].
    apply process_receipt_blob_stays. cbn [name].
    unfold uploads_container, Str.startswith. rewrite append_assoc.
    apply prefix_append.
Qed.

Lemma check_pending_uploads_stays (tenant : TenantDoc.t) :
  stays uploads_stay (check_pending_uploads E tenant).
Proof.
  unfold check_pending_uploads. apply stays_try_except; [| intro; apply stays_ret].
  apply stays_bind.
  - unfold list_blobs. apply stays_call; uploads_side.
  - intros [| b blobs]; [apply stays_ret |].
    apply stays_for_each. intro x. apply process_pending_blob_stays.
Qed.

Lemma scheduled_processing_stays : stays uploads_stay (scheduled_processing_function E).
Proof.
  unfold scheduled_processing_function. apply stays_try_except; [| intro; apply stays_ret].
  apply stays_bind.
  - apply stays_query_items. uploads_side.
  - intro tenants. apply stays_for_each. intro t. apply check_pending_uploads_stays.
Qed.

(** Neither trigger removes a waiting upload: the blob trigger and the sweep
    hand [process_receipt_blob] the path [<container>/<name>] as the name of
    the document, and the delete at the end of the run is issued for that
    path inside the upload container.  When no waiting blob has a name that
    begins with ["tenant-"], the blobs of the upload containers are the same
    after a run of either trigger, whatever the services do. *)
Theorem uploads_are_never_removed (w : World) :
  plainly_named w ->
  (forall myblob, pending (snd (main E myblob w)) = pending w) /\
  pending (snd (scheduled_processing_function E w)) = pending w.
Proof.
  intro Hp. split.
  - intro myblob. apply main_stays. exact Hp.
  - apply scheduled_processing_stays. exact Hp.
Qed.

(** *** Normal return *)

Lemma process_pending_blob_returns (tenant_id cont : string) (blob : Blob) :
  never_raises (process_pending_blob E tenant_id cont blob).
Proof. unfold process_pending_blob. never_auto. Qed.

(** No trigger of [azure_functions.py] lets an exception escape, whatever the
    services do: the blob trigger, the sweep and the auto-pay timer all
    return normally from every world. *)
Theorem triggers_never_raise (w : World) :
  (forall myblob, fst (main E myblob w) = Ok tt) /\
  fst (scheduled_processing_function E w) = Ok tt /\
  fst (auto_pay_bills_function E w) = Ok tt.
Proof.
  assert (Hunit : forall (m : M unit), never_raises m -> forall w0, fst (m w0) = Ok tt).
  { intros m Hm w0. destruct (Hm w0) as ([] & H). exact H. }
  repeat split.
  - intro myblob. apply Hunit. unfold main. never_auto.
  - apply Hunit. unfold scheduled_processing_function. never_auto.
  - apply Hunit. unfold auto_pay_bills_function. never_auto.
Qed.

(** *** The number of records a sweep creates *)

Lemma grows_by_trans (a b : nat) (w0 w1 w2 : World) :
  grows_by a w0 w1 -> grows_by b w1 w2 -> grows_by (a + b) w0 w2.
Proof. unfold grows_by. lia. Qed.

Lemma grows_by_weaken (a b : nat) (w0 w1 : World) :
  a <= b -> grows_by a w0 w1 -> grows_by b w0 w1.
Proof. unfold grows_by. lia. Qed.

#[export] Instance grows_by_zero_frame : Frame (grows_by 0).
Proof.
  split; unfold grows_by; simpl; intros; lia.
Qed.

Lemma grows_ret {A : Type} (k : nat) (a : A) : stays (grows_by k) (ret a).
Proof. intro w. unfold grows_by. simpl. lia. Qed.

Lemma grows_bind {A B : Type} (a b : nat) (m : M A) (k : A -> M B) :
  stays (grows_by a) m -> (forall x, stays (grows_by b) (k x)) ->
  stays (grows_by (a + b)) (bind m k).
Proof.
  intros Hm Hk w. unfold bind. specialize (Hm w).
  destruct (m w) as [[x | e] w1]; simpl in *.
  - eapply grows_by_trans; [exact Hm | apply Hk].
  - eapply grows_by_weaken; [| exact Hm]. lia.
Qed.

Lemma grows_try_except {A : Type} (a b : nat) (m : M A) (h : exn -> M A) :
  stays (grows_by a) m -> (forall e, stays (grows_by b) (h e)) ->
  stays (grows_by (a + b)) (try_except m h).
Proof.
  intros Hm Hh w. unfold try_except. specialize (Hm w).
  destruct (m w) as [[x | e] w1]; simpl in *.
  - eapply grows_by_weaken; [| exact Hm]. lia.
  - eapply grows_by_trans; [exact Hm | apply Hh].
Qed.

Lemma grows_for_each {A : Type} (k : nat) (xs : list A) (body : A -> M unit) :
  (forall x, stays (grows_by k) (body x)) ->
  stays (grows_by (k * List.length xs)) (for_each xs body).
Proof.
  intro Hb. induction xs as [| x xs IH]; cbn [for_each List.length].
  - rewrite Nat.mul_0_r. apply grows_ret.
  - replace (k * S (List.length xs)) with (k + k * List.length xs) by lia.
    apply grows_bind; [apply Hb | intros _; exact IH].
Qed.

Lemma replace_doc_length {D : Type} (id_of part_of : D -> string) (i : string)
  (body : D) (docs : list D) :
  List.length (replace_doc id_of part_of i body docs) = List.length docs.
Proof. unfold replace_doc. apply length_map. Qed.

Ltac count_side :=
  first [ intros ? ?; unfold grows_by; simpl; lia
        | intros; unfold grows_by; cbn; rewrite ?replace_doc_length; lia
        | intros ?; unfold grows_by;
          repeat match goal with |- context [match ?x with _ => _ end] => destruct x end;
          cbn; lia ].

Lemma store_receipt_data_grows (tenant_id filename : string)
  (receipt_data : Extraction.ReceiptData) :
  stays (grows_by 1) (store_receipt_data E tenant_id filename receipt_data).
Proof.
  intro w.
  unfold store_receipt_data, bind, get_clock, utcnow_iso, bind, get_clock, ret,
    create_receipt, create_item, call.
  cbn [ReceiptDoc.id ReceiptDoc.tenantId].
  destruct (fault E (List.length (log w))).
  - unfold grows_by. simpl. lia.
  - cbn [db set_clock]. destruct (lookup _ _ _ _ _).
    + unfold grows_by. simpl. lia.
    + unfold grows_by. cbn. rewrite length_app. simpl. lia.
Qed.

Lemma after_store_keeps_count (blob : InputStream) (tenant_id blob_content : string)
  (receipt_data : Extraction.ReceiptData) (receipt_id : string) :
  stays (grows_by 0) (after_store E blob tenant_id blob_content receipt_data receipt_id).
Proof.
  unfold after_store, process_to_xero, update_receipt_status, update_receipt_xero_info.
  stays_auto count_side fail.
Qed.

(** A run of the pipeline creates at most one record. *)
Lemma process_receipt_blob_grows (blob : InputStream) (tenant_id : string) :
  stays (grows_by 1) (process_receipt_blob E blob tenant_id).
Proof.
  rewrite process_receipt_blob_eq.
  apply (grows_try_except 1 0); [| intro; apply grows_ret].
  apply (grows_bind 0 1); [apply stays_call; count_side | intro blob_content].
  apply (grows_bind 0 1).
  { unfold get_tenant. stays_auto count_side fail. }
  intros [t |]; [| apply grows_ret].
  destruct (negb (TenantDoc.processingEnabled t)); [apply grows_ret |].
  apply (grows_bind 0 1).
  { unfold extract_receipt_data_from_blob. stays_auto count_side fail. }
  intros [d |]; [| apply grows_ret].
  apply (grows_bind 1 0); [apply store_receipt_data_grows | intro rid].
  apply after_store_keeps_count.
Qed.

Lemma process_pending_blob_grows (tenant_id cont : string) (blob : Blob) :
  stays (grows_by 1) (process_pending_blob E tenant_id cont blob).
Proof.
  unfold process_pending_blob.
  apply (grows_try_except 1 0); [| intro; apply grows_ret].
  apply (grows_bind 0 1).
  - unfold download_blob. apply stays_call; count_side.
  - intro content. apply (grows_bind 1 0); [| intro; apply grows_ret].
    apply process_receipt_blob_grows.
Qed.

Lemma check_pending_uploads_grows (tenant : TenantDoc.t) :
  stays (grows_by 5) (check_pending_uploads E tenant).
Proof.
  unfold check_pending_uploads.
  apply (grows_try_except 5 0); [| intro; apply grows_ret].
  apply (grows_bind 0 5).
  - unfold list_blobs. apply stays_call; count_side.
  - intros [| b blobs]; [apply grows_ret |].
    intro w. eapply grows_by_weaken;
      [| apply (grows_for_each 1); intro x; apply process_pending_blob_grows].
    rewrite Nat.mul_1_l. apply firstn_le_length.
Qed.

(** A sweep creates at most five receipt records for each active tenant with
    processing enabled, and removes none, whatever the services do. *)
Theorem sweep_creates_at_most_five_per_tenant (w : World) :
  grows_by
    (5 * List.length
           (filter (fun t => String.eqb (TenantDoc.status t) "active"
                             && TenantDoc.processingEnabled t) (tenants (db w))))
    w (snd (scheduled_processing_function E w)).
Proof.
  unfold scheduled_processing_function, try_except, bind, query_items, call.
  destruct (fault E (List.length (log w))).
  - unfold grows_by. simpl. lia.
  - cbn [db set_clock].
    set (ts := filter _ (tenants (db w))).
    set (w1 := set_log _ _).
    pose proof (grows_for_each 5 ts (check_pending_uploads E)
                  (check_pending_uploads_grows) w1) as H.
    destruct (for_each ts (check_pending_uploads E) w1) as [[u | e] w2];
      simpl in *; unfold grows_by in *; simpl in *; exact H.
Qed.

End WithEnv.

(** The tenant of the examples, with its document waiting under a plain name. *)
Lemma uploads_are_never_removed_witness :
  plainly_named (upload_world "acme") /\
  ((forall myblob, pending (snd (main quiet myblob (upload_world "acme")))
                   = pending (upload_world "acme")) /\
   pending (snd (scheduled_processing_function quiet (upload_world "acme")))
   = pending (upload_world "acme")).
Proof.
  assert (Hp : plainly_named (upload_world "acme")).
  { intros b [<- | []]. reflexivity. }
  split; [exact Hp |].
  exact (uploads_are_never_removed quiet (upload_world "acme") Hp).
Defined.

(** The sweep over that tenant: the document is found, downloaded, processed
    and recorded; the delete is issued for the path and fails; the document
    still waits, and the next sweep records it once more. *)
Lemma sweep_does_not_drain :
  let w1 := snd (scheduled_processing_function quiet (upload_world "acme")) in
  let w2 := snd (scheduled_processing_function quiet w1) in
  In (DeleteBlob "tenant-acme-uploads" "tenant-acme-uploads/receipt.pdf", false) (log w1) /\
  map blob_name (pending w1) = [ "receipt.pdf" ] /\
  map ReceiptDoc.filename (receipts (db w2))
  = [ "tenant-acme-uploads/receipt.pdf"; "tenant-acme-uploads/receipt.pdf" ].
Proof. vm_compute. intuition. Qed.

End TriggerFacts.

(* ================================================================== *)
(** ** Tenants, tokens and the usage counter *)
(* ================================================================== *)

Module TenantFacts.
Import Py Cloud Logic RunFacts AzureFunctions PipelineFacts IngestFacts Properties Examples.

(** A record that was found is found again after it was replaced. *)
Lemma lookup_replace_doc {D : Type} (id_of part_of : D -> string) (i : string)
  (docs : list D) (d body : D) :
  lookup id_of part_of i (part_of body) docs = Some d ->
  id_of body = i ->
  lookup id_of part_of i (part_of body) (replace_doc id_of part_of i body docs) = Some body.
Proof.
  intros H Hid. unfold lookup, replace_doc in *.
  induction docs as [| x docs IH]; simpl in *; [discriminate |].
  destruct (String.eqb (id_of x) i && String.eqb (part_of x) (part_of body)) eqn:Hx.
  - rewrite Hid, !String.eqb_refl. reflexivity.
  - rewrite Hx. apply IH. exact H.
Qed.

Section WithEnv.
Variable E : Env.

Lemma disabled_tenant_run (blob : InputStream) (tenant_id : string) (w : World) :
  (forall t, lookup TenantDoc.id TenantDoc.tenantId tenant_id tenant_id (tenants (db w))
             = Some t -> TenantDoc.processingEnabled t = false) ->
  exists w' b0 rest,
    process_receipt_blob E blob tenant_id w = (Ok false, w') /\
    db w' = db w /\ storage w' = storage w /\ ledger w' = ledger w /\
    log w' = log w ++ (BlobRead (name blob), b0) :: rest /\
    (rest = [] \/ exists b1, rest = [(ReadItem Tenants tenant_id tenant_id, b1)]).
Proof.
  intro Hoff. rewrite process_receipt_blob_eq.
  unfold try_except, bind, call at 1.
  destruct (fault E (List.length (log w))).
  { eexists _, false, []. cbn. repeat split. left. reflexivity. }
  unfold get_tenant, try_except, bind, read_tenant, read_item, call.
  cbn [log set_log set_clock fst snd db].
  destruct (fault E _).
  { eexists _, true, [(ReadItem Tenants tenant_id tenant_id, false)].
    cbn. repeat split.
    - rewrite <- app_assoc. reflexivity.
    - right. exists false. reflexivity. }
  destruct (lookup TenantDoc.id TenantDoc.tenantId tenant_id tenant_id (tenants (db w)))
    as [t |] eqn:Hl.
  - unfold ret at 1. cbv beta iota. rewrite (Hoff t eq_refl).
    eexists _, true, [(ReadItem Tenants tenant_id tenant_id, true)].
    cbn. repeat split.
    + rewrite <- app_assoc. reflexivity.
    + right. exists true. reflexivity.
  - eexists _, true, [(ReadItem Tenants tenant_id tenant_id, false)].
    cbn. repeat split.
    + rewrite <- app_assoc. reflexivity.
    + right. exists false. reflexivity.
Qed.

(** A tenant that is unknown, or whose processing is switched off, costs two
    calls and nothing else: the run reads the blob and the tenant record and
    returns [False]; no document is analysed, and the records, the blobs and
    the ledger are as before. *)
Theorem disabled_tenant_stops_the_run
  (blob : InputStream) (tenant_id : string) (w : World) :
  (forall t, lookup TenantDoc.id TenantDoc.tenantId tenant_id tenant_id (tenants (db w))
             = Some t -> TenantDoc.processingEnabled t = false) ->
  fst (process_receipt_blob E blob tenant_id w) = Ok false /\
  db (snd (process_receipt_blob E blob tenant_id w)) = db w /\
  storage (snd (process_receipt_blob E blob tenant_id w)) = storage w /\
  ledger (snd (process_receipt_blob E blob tenant_id w)) = ledger w /\
  exists b0 rest,
    events_since w (snd (process_receipt_blob E blob tenant_id w))
    = (BlobRead (name blob), b0) :: rest /\
    (rest = [] \/ exists b1, rest = [(ReadItem Tenants tenant_id tenant_id, b1)]).
Proof.
  intro Hoff.
  destruct (disabled_tenant_run blob tenant_id w Hoff)
    as (w' & b0 & rest & -> & Hdb & Hst & Hle & Hlog & Hrest).
  cbn [fst snd]. repeat split; try assumption.
  exists b0, rest. split; [apply events_since_app; exact Hlog | exact Hrest].
Qed.

(** *** The usage counter *)

Lemma update_tenant_usage_run (tenant_id : string) (t : TenantDoc.t) (w : World) :
  lookup TenantDoc.id TenantDoc.tenantId tenant_id tenant_id (tenants (db w)) = Some t ->
  exists w',
    update_tenant_usage E tenant_id w = (Ok tt, w') /\
    receipts (db w') = receipts (db w) /\
    (tenants (db w') = tenants (db w)
     \/ exists now_iso,
          tenants (db w')
          = replace_doc TenantDoc.id TenantDoc.tenantId tenant_id (counted now_iso t)
              (tenants (db w))) /\
    (fault E (List.length (log w)) = false ->
     fault E (S (List.length (log w))) = false ->
     exists now_iso,
       lookup TenantDoc.id TenantDoc.tenantId tenant_id tenant_id (tenants (db w'))
       = Some (counted now_iso t)).
Proof.
  intro Hl.
  destruct (NotConfiguredFacts.lookup_fields _ _ _ _ _ _ Hl) as [Hid Hpk].
  unfold update_tenant_usage, try_except, bind, read_tenant, read_item, call at 1.
  destruct (fault E (List.length (log w))) eqn:F0.
  { eexists. cbn. repeat split; [left; reflexivity | discriminate]. }
  cbn [db set_clock]. rewrite Hl.
  unfold utcnow_iso, bind, get_clock, ret, replace_tenant, replace_item, call.
  cbn [log set_log set_clock db clock TenantDoc.tenantId].
  rewrite length_app. cbn [List.length]. rewrite Nat.add_1_r.
  destruct (fault E (S (List.length (log w)))) eqn:F1.
  { eexists. cbn. repeat split; [left; reflexivity | discriminate]. }
  assert (Hl' : lookup TenantDoc.id TenantDoc.tenantId tenant_id (TenantDoc.tenantId t)
                        (tenants (db w)) = Some t) by (rewrite Hpk; exact Hl).
  rewrite Hl'. eexists. split; [reflexivity |].
  cbn [fst snd db set_db set_log tenants receipts set_tenants].
  repeat split.
  - right. eexists. reflexivity.
  - intros _ _.
    exists (isoformat E (clock w + latency E (List.length (log w)))%Q).
    pose proof (lookup_replace_doc TenantDoc.id TenantDoc.tenantId tenant_id
                  (tenants (db w)) t
                  (counted (isoformat E (clock w + latency E (List.length (log w)))%Q) t))
      as Hr.
    cbn [counted TenantDoc.tenantId TenantDoc.id] in Hr. rewrite Hpk, Hid in Hr.
    exact (Hr Hl eq_refl).
Qed.

(** [update_tenant_usage] counts once or not at all: it returns normally, and
    the tenant records are either as before (a call failed) or the same with
    the record of this tenant replaced by one whose counter is one higher and
    whose time of last processing is set.  When the two calls succeed, it is
    the latter, and the record read back is the counted one. *)
Theorem usage_counts_once_or_not_at_all (tenant_id : string) (t : TenantDoc.t) (w : World) :
  lookup TenantDoc.id TenantDoc.tenantId tenant_id tenant_id (tenants (db w)) = Some t ->
  fst (update_tenant_usage E tenant_id w) = Ok tt /\
  receipts (db (snd (update_tenant_usage E tenant_id w))) = receipts (db w) /\
  (tenants (db (snd (update_tenant_usage E tenant_id w))) = tenants (db w)
   \/ exists now_iso,
        tenants (db (snd (update_tenant_usage E tenant_id w)))
        = replace_doc TenantDoc.id TenantDoc.tenantId tenant_id (counted now_iso t)
            (tenants (db w))) /\
  (fault E (List.length (log w)) = false ->
   fault E (S (List.length (log w))) = false ->
   exists now_iso,
     lookup TenantDoc.id TenantDoc.tenantId tenant_id tenant_id
       (tenants (db (snd (update_tenant_usage E tenant_id w))))
     = Some (counted now_iso t)).
Proof.
  intro Hl.
  destruct (update_tenant_usage_run tenant_id t w Hl) as (w' & -> & H1 & H2 & H3).
  cbn [fst snd]. auto.
Qed.

(** *** The access token *)

Lemma stored_token_run (tenant_id : string) (xero_config : IntegrationDoc.t)
  (kv : string * TokenData) (tok : string) (expires : Q) (w : World) :
  fault E (List.length (log w)) = false ->
  find (fun kv => String.eqb (fst kv) ("xero-token-" ++ tenant_id)) (vault w) = Some kv ->
  access_token (snd kv) = Some tok ->
  expires_at (snd kv) = Some expires ->
  (clock w + latency E (List.length (log w)) < expires - 300)%Q ->
  get_xero_access_token E tenant_id xero_config w
  = (Ok (Some tok),
     set_log (log w ++ [(GetSecret ("xero-token-" ++ tenant_id), true)])
       (set_clock (clock w + latency E (List.length (log w)))%Q w)).
Proof.
  intros F Hfind Htok Hexp Hvalid.
  unfold get_xero_access_token, try_except, bind, get_secret, call.
  rewrite F. cbn [vault set_clock]. rewrite Hfind.
  cbn [get_clock fst snd clock set_log set_clock]. unfold ret.
  rewrite Hexp.
  assert (Hq : RateLimiter.Qltb (clock w + latency E (List.length (log w))) (expires - 300)
               = true) by (apply RateLimiterFacts.Qltb_iff; exact Hvalid).
  cbn [clock set_log set_clock]. rewrite Hq, Htok. reflexivity.
Qed.

(** A stored token that is valid for more than five minutes is returned as it
    is: the secret is read, no request goes to the token endpoint, and the
    secret store and the ledger are as before. *)
Theorem stored_token_is_reused (tenant_id : string) (xero_config : IntegrationDoc.t)
  (kv : string * TokenData) (tok : string) (expires : Q) (w : World) :
  fault E (List.length (log w)) = false ->
  find (fun kv => String.eqb (fst kv) ("xero-token-" ++ tenant_id)) (vault w) = Some kv ->
  access_token (snd kv) = Some tok ->
  expires_at (snd kv) = Some expires ->
  (clock w + latency E (List.length (log w)) < expires - 300)%Q ->
  fst (get_xero_access_token E tenant_id xero_config w) = Ok (Some tok) /\
  events_since w (snd (get_xero_access_token E tenant_id xero_config w))
  = [(GetSecret ("xero-token-" ++ tenant_id), true)] /\
  vault (snd (get_xero_access_token E tenant_id xero_config w)) = vault w /\
  ledger (snd (get_xero_access_token E tenant_id xero_config w)) = ledger w.
Proof.
  intros F Hfind Htok Hexp Hvalid.
  rewrite (stored_token_run tenant_id xero_config kv tok expires w F Hfind Htok Hexp Hvalid).
  cbn [fst snd]. repeat split. apply events_since_app. reflexivity.
Qed.

Lemma no_stored_token_run (tenant_id : string) (xero_config : IntegrationDoc.t)
  (w : World) :
  find (fun kv => String.eqb (fst kv) ("xero-token-" ++ tenant_id)) (vault w) = None ->
  get_xero_access_token E tenant_id xero_config w
  = (Ok None,
     set_log (log w ++ [(GetSecret ("xero-token-" ++ tenant_id), false)])
       (set_clock (clock w + latency E (List.length (log w)))%Q w)).
Proof.
  intro Hfind.
  unfold get_xero_access_token, try_except, bind, get_secret, call.
  destruct (fault E (List.length (log w))).
  - reflexivity.
  - cbn [vault set_clock]. rewrite Hfind. reflexivity.
Qed.

(** Without a stored token there is no token: when the secret store holds no
    secret for the tenant, the result is [None] whatever the services do; the
    only call is the failed read of the secret, and no request goes to the
    token endpoint. *)
Theorem no_stored_token_no_request (tenant_id : string) (xero_config : IntegrationDoc.t)
  (w : World) :
  find (fun kv => String.eqb (fst kv) ("xero-token-" ++ tenant_id)) (vault w) = None ->
  fst (get_xero_access_token E tenant_id xero_config w) = Ok None /\
  events_since w (snd (get_xero_access_token E tenant_id xero_config w))
  = [(GetSecret ("xero-token-" ++ tenant_id), false)] /\
  vault (snd (get_xero_access_token E tenant_id xero_config w)) = vault w.
Proof.
  intro Hfind. rewrite (no_stored_token_run tenant_id xero_config w Hfind).
  cbn [fst snd]. repeat split. apply events_since_app. reflexivity.
Qed.

End WithEnv.

(** A tenant id that no record carries. *)
Lemma disabled_tenant_stops_the_run_witness :
  (forall t, lookup TenantDoc.id TenantDoc.tenantId "nobody" "nobody"
               (tenants (db (upload_world "acme"))) = Some t ->
             TenantDoc.processingEnabled t = false) /\
  fst (process_receipt_blob quiet upload "nobody" (upload_world "acme")) = Ok false /\
  db (snd (process_receipt_blob quiet upload "nobody" (upload_world "acme")))
  = db (upload_world "acme").
Proof.
  assert (H : forall t, lookup TenantDoc.id TenantDoc.tenantId "nobody" "nobody"
                          (tenants (db (upload_world "acme"))) = Some t ->
                        TenantDoc.processingEnabled t = false)
    by (intros t Ht; discriminate Ht).
  split; [exact H |].
  destruct (disabled_tenant_stops_the_run quiet upload "nobody" (upload_world "acme") H)
    as (H1 & H2 & _).
  split; [exact H1 | exact H2].
Defined.

(** The tenant of the examples after one update. *)
Lemma usage_counts_once_or_not_at_all_witness :
  lookup TenantDoc.id TenantDoc.tenantId "acme" "acme" (tenants (db (upload_world "acme")))
  = Some (tenant "acme" false None []) /\
  exists now_iso,
    lookup TenantDoc.id TenantDoc.tenantId "acme" "acme"
      (tenants (db (snd (update_tenant_usage quiet "acme" (upload_world "acme")))))
    = Some (counted now_iso (tenant "acme" false None [])).
Proof.
  split; [reflexivity |].
  destruct (usage_counts_once_or_not_at_all quiet "acme" (tenant "acme" false None [])
              (upload_world "acme") eq_refl) as (_ & _ & _ & H).
  exact (H eq_refl eq_refl).
Defined.

(** The token of the connected tenant, valid until time 100000. *)
Lemma stored_token_is_reused_witness :
  fault quiet (List.length (log connected_world)) = false /\
  find (fun kv => String.eqb (fst kv) ("xero-token-" ++ "acme")) (vault connected_world)
  = Some ("xero-token-acme", valid_token) /\
  access_token valid_token = Some "token" /\
  expires_at valid_token = Some 100000%Q /\
  (clock connected_world + latency quiet (List.length (log connected_world))
   < 100000 - 300)%Q /\
  fst (get_xero_access_token quiet "acme" (integration "acme" "org-1") connected_world)
  = Ok (Some "token").
Proof.
  assert (Hv : (clock connected_world + latency quiet (List.length (log connected_world))
                < 100000 - 300)%Q) by (vm_compute; reflexivity).
  split; [reflexivity |]. split; [reflexivity |]. split; [reflexivity |].
  split; [reflexivity |]. split; [exact Hv |].
  exact (proj1 (stored_token_is_reused quiet "acme" (integration "acme" "org-1")
                  ("xero-token-acme", valid_token) "token" 100000%Q connected_world
                  eq_refl eq_refl eq_refl eq_refl Hv)).
Defined.

(** A tenant without a secret. *)
Lemma no_stored_token_no_request_witness :
  find (fun kv => String.eqb (fst kv) ("xero-token-" ++ "acme")) (vault (upload_world "acme"))
  = None /\
  fst (get_xero_access_token quiet "acme" (integration "acme" "org-1") (upload_world "acme"))
  = Ok None.
Proof.
  split; [reflexivity |].
  exact (proj1 (no_stored_token_no_request quiet "acme" (integration "acme" "org-1")
                  (upload_world "acme") eq_refl)).
Defined.

End TenantFacts.

(* ================================================================== *)
(** ** From the normalised receipt to the lines of the bill *)
(* ================================================================== *)

Module BillFacts.
Import Py Cloud AzureFunctions Properties Examples.

Lemma collect_items_kept (arr : list Extraction.ItemField) :
  Forall (fun d => Extraction.keep_item d = true) (Extraction.collect_items arr).
Proof.
  induction arr as [| [vo] arr IH]; simpl; [constructor |].
  destruct vo as [o |]; [| exact IH].
  destruct (Extraction.keep_item (Extraction.build_item_data o)) eqn:K; [| exact IH].
  constructor; assumption.
Qed.

Lemma normalize_items_kept (now_iso : string) (r : Extraction.AnalyzeResult) :
  Forall (fun d => Extraction.keep_item d = true)
         (Extraction.items (Extraction.normalize now_iso r)).
Proof.
  unfold Extraction.normalize. cbn [Extraction.items].
  destruct (Extraction.documents r) as [| f ?]; [constructor |].
  unfold Extraction.extract_items.
  destruct (Extraction.Items f) as [fi |]; [| constructor].
  destruct (Extraction.value_array fi); [apply collect_items_kept | constructor].
Qed.

Lemma item_lines_kept (d : Extraction.ReceiptData) (its : list Extraction.ItemData) :
  Forall (fun it => Extraction.keep_item it = true) its ->
  item_lines d its = Some (map (bill_line d) its).
Proof.
  induction 1 as [| it its Hk _ IH]; [reflexivity |].
  cbn [item_lines map]. rewrite IH. unfold bill_line.
  unfold Extraction.keep_item in Hk.
  destruct (Extraction.description it); [| discriminate].
  destruct (Extraction.unit_amount it); [reflexivity | discriminate].
Qed.

(** Whatever the analysis returns, the bill of the normalised receipt has its
    lines: one for each line item that was kept (the description cut to 4000
    characters, the quantity and the amount as extracted, account 310), or
    the one fallback line when no item was kept.  The items that were kept
    carry a description and an amount, so building the lines never fails on
    a missing key. *)
Theorem normalised_receipt_has_bill_lines (now_iso : string) (r : Extraction.AnalyzeResult) :
  line_items (Extraction.normalize now_iso r)
  = Some (match Extraction.items (Extraction.normalize now_iso r) with
          | [] => [ fallback_line (Extraction.normalize now_iso r) ]
          | its => map (bill_line (Extraction.normalize now_iso r)) its
          end).
Proof.
  pose proof (normalize_items_kept now_iso r) as Hk.
  unfold line_items.
  destruct (Extraction.items (Extraction.normalize now_iso r)) as [| it its] eqn:Hits.
  - reflexivity.
  - apply item_lines_kept. exact Hk.
Qed.

End BillFacts.

(* ================================================================== *)
(** ** The auto-pay sweep *)
(* ================================================================== *)

Module AutoPayFacts.
Import Py Cloud Logic RunFacts AzureFunctions PipelineFacts IngestFacts NotConfiguredFacts
  Properties Examples.

#[export] Instance same_ledger_frame : Frame same_ledger.
Proof.
  split; unfold same_ledger; simpl; auto.
  intros a b c H1 H2. congruence.
Qed.

#[export] Instance same_books_frame : Frame same_books.
Proof.
  split; unfold same_books; simpl; auto.
  intros a b c [H1 H2] [H3 H4]. split; congruence.
Qed.

Ltac same_books_side :=
  first [ intros ? ?; split; reflexivity | intros; split; reflexivity ].

(** A computation that returns and leaves the records and the ledger alone. *)
Lemma returns_same_books {A : Type} (m : M A) (w : World) :
  never_raises m -> stays same_books m ->
  exists a w1, m w = (Ok a, w1) /\ db w1 = db w /\ ledger w1 = ledger w.
Proof.
  intros Hn Hs. destruct (Hn w) as (a & Ha). specialize (Hs w).
  destruct (m w) as [r w1]. simpl in *. subst r. destruct Hs. exists a, w1. auto.
Qed.

Section WithEnv.
Variable E : Env.

(** *** The bills that are paid *)

Lemma awaiting_bills_run (access_token xero_tenant_id : string) (w : World) :
  exists bills w',
    get_awaiting_payment_bills E access_token xero_tenant_id w = (Ok bills, w') /\
    ledger w' = ledger w /\
    forall inv, In inv bills ->
                In inv (invoices (ledger w)) /\ payable xero_tenant_id inv = true.
Proof.
  unfold get_awaiting_payment_bills, try_except, bind.
  pose proof (stays_wait_if_needed (T := same_ledger) E w) as Hw.
  destruct (wait_if_needed E w) as [[u | e] w1]; unfold same_ledger in Hw; simpl in Hw.
  2:{ exists [], w1. repeat split; [exact Hw | contradiction | contradiction]. }
  unfold http, call. destruct (fault E (List.length (log w1))).
  { eexists [], _. cbn. repeat split; [exact Hw | contradiction | contradiction]. }
  cbn [log set_clock]. destruct (http_ok E (List.length (log w1))).
  - eexists _, _. cbn. split; [reflexivity |]. split; [exact Hw |].
    intros inv Hin. apply filter_In in Hin. destruct Hin as [Hin Hdue].
    apply filter_In in Hin. destruct Hin as [Hin Hsel].
    rewrite Hw in Hin. split; [exact Hin |].
    unfold payable. rewrite Hsel, Hdue. reflexivity.
  - eexists [], _. cbn. repeat split; [exact Hw | contradiction | contradiction].
Qed.

(** The sweep only ever sees bills it may pay: [get_awaiting_payment_bills]
    returns normally whatever the services do, every bill it returns is a
    bill of the ledger that belongs to the organisation, is of type ACCPAY,
    is authorised and has a positive amount due, and the ledger is left as it
    was.  A bill without an amount due, or with an amount of zero, is never
    returned. *)
Theorem awaiting_bills_are_payable (access_token xero_tenant_id : string) (w : World) :
  exists bills,
    fst (get_awaiting_payment_bills E access_token xero_tenant_id w) = Ok bills /\
    ledger (snd (get_awaiting_payment_bills E access_token xero_tenant_id w)) = ledger w /\
    forall inv, In inv bills ->
                In inv (invoices (ledger w)) /\ payable xero_tenant_id inv = true.
Proof.
  destruct (awaiting_bills_run access_token xero_tenant_id w) as (bills & w' & -> & H1 & H2).
  exists bills. cbn [fst snd]. auto.
Qed.

(** *** The audit trail *)

(** The name [uuid] is not bound in the module, so what follows the payment
    request in [create_automatic_payment] is the [NameError]. *)
Lemma create_automatic_payment_eq (access_token xero_tenant_id : string)
  (bill : Invoice) (bank_account_id : string) :
  create_automatic_payment E access_token xero_tenant_id bill bank_account_id
  = try_except
      (bind (wait_if_needed E) (fun _ =>
       bind (item "DueDate" (DueDate bill)) (fun due_date =>
       bind get_clock (fun now =>
       bind (if Str.startswith "/Date(" due_date && Str.endswith ")/" due_date
             then match Str.to_Z (String.substring 6 13 due_date) with
                  | Some timestamp => ret (strftime_ymd E (inject_Z timestamp / 1000)%Q)
                  | None => raise ValueError
                  end
             else ret (strftime_ymd E now)) (fun payment_date =>
       bind (item "AmountDue" (AmountDue bill)) (fun amount =>
       bind (http E (HttpPut payments_url) (fun _ => tt)
               (fun w => set_ledger
                           (set_payments
                              (payments (ledger w)
                               ++ [mkPayment xero_tenant_id (InvoiceID bill)
                                             bank_account_id payment_date amount])
                              (ledger w)) w)) (fun r =>
       if negb (fst r) then raise PaymentFailed
       else raise (NameError "uuid"))))))))
      (fun e => raise e).
Proof. reflexivity. Qed.

Lemma create_automatic_payment_same_db (access_token xero_tenant_id : string)
  (bill : Invoice) (bank_account_id : string) :
  stays same_db
    (create_automatic_payment E access_token xero_tenant_id bill bank_account_id).
Proof.
  rewrite create_automatic_payment_eq.
  stays_auto same_db_side fail.
Qed.

Ltac known_same_db :=
  idtac;
  lazymatch goal with
  | |- stays _ (create_automatic_payment _ _ _ _ _) =>
      apply create_automatic_payment_same_db
  end.

Lemma process_auto_payments_same_db (tenant_id : string) :
  stays same_db (process_auto_payments E tenant_id).
Proof.
  unfold process_auto_payments, get_awaiting_payment_bills.
  stays_auto same_db_side known_same_db.
Qed.

Lemma auto_pay_bills_function_same_db : stays same_db (auto_pay_bills_function E).
Proof.
  unfold auto_pay_bills_function.
  stays_auto same_db_side
    ltac:(idtac;
          lazymatch goal with
          | |- stays _ (process_auto_payments _ _) => apply process_auto_payments_same_db
          end).
Qed.

(** The auto-pay sweep writes no record: after a run of
    [auto_pay_bills_function], of [process_auto_payments] or of
    [create_automatic_payment], the document database is what it was,
    whatever the services do.  In particular the audit container never
    receives an entry: the record is built with [uuid.uuid4()], and the
    module does not import [uuid]. *)
Theorem auto_pay_writes_no_record (w : World) :
  db (snd (auto_pay_bills_function E w)) = db w /\
  (forall tenant_id, db (snd (process_auto_payments E tenant_id w)) = db w) /\
  (forall access_token xero_tenant_id bill bank_account_id,
      db (snd (create_automatic_payment E access_token xero_tenant_id bill
                 bank_account_id w)) = db w /\
      forall u, fst (create_automatic_payment E access_token xero_tenant_id bill
                       bank_account_id w) <> Ok u).
Proof.
  split; [| split].
  - apply auto_pay_bills_function_same_db.
  - intro tenant_id. apply process_auto_payments_same_db.
  - intros access_token xero_tenant_id bill bank_account_id. split.
    + apply create_automatic_payment_same_db.
    + intros u. rewrite create_automatic_payment_eq.
      unfold try_except, bind.
      destruct (wait_if_needed E w) as [[? | ?] ?]; [| discriminate].
      destruct (item "DueDate" (DueDate bill) _) as [[? | ?] ?]; [| discriminate].
      unfold get_clock.
      match goal with |- context [if ?c then _ else _] => destruct c end.
      * destruct (Str.to_Z _); [| discriminate].
        unfold ret.
        destruct (item "AmountDue" (AmountDue bill) _) as [[? | ?] ?]; [| discriminate].
        destruct (http _ _ _ _ _) as [[? | ?] ?]; [| discriminate].
        destruct (negb _); discriminate.
      * unfold ret.
        destruct (item "AmountDue" (AmountDue bill) _) as [[? | ?] ?]; [| discriminate].
        destruct (http _ _ _ _ _) as [[? | ?] ?]; [| discriminate].
        destruct (negb _); discriminate.
Qed.

(** *** A tenant without a bank account *)

Lemma get_xero_integration_returns (tenant_id : string) :
  never_raises (get_xero_integration E tenant_id).
Proof. unfold get_xero_integration. never_auto. Qed.

Lemma get_xero_access_token_returns (tenant_id : string) (xero_config : IntegrationDoc.t) :
  never_raises (get_xero_access_token E tenant_id xero_config).
Proof. unfold get_xero_access_token. never_auto. Qed.

Lemma get_xero_integration_same_books (tenant_id : string) :
  stays same_books (get_xero_integration E tenant_id).
Proof. stays_auto same_books_side fail. Qed.

Lemma get_xero_access_token_same_books (tenant_id : string)
  (xero_config : IntegrationDoc.t) :
  stays same_books (get_xero_access_token E tenant_id xero_config).
Proof. stays_auto same_books_side fail. Qed.

(** What [get_tenant] returns is the record of the store. *)
Lemma get_tenant_result (tenant_id : string) (w : World) :
  exists o w1,
    get_tenant E tenant_id w = (Ok o, w1) /\ db w1 = db w /\ ledger w1 = ledger w /\
    forall t, o = Some t ->
              lookup TenantDoc.id TenantDoc.tenantId tenant_id tenant_id (tenants (db w))
              = Some t.
Proof.
  unfold get_tenant, try_except, bind, read_tenant, read_item, call.
  destruct (fault E (List.length (log w))).
  - eexists _, _. cbn. repeat split. discriminate.
  - cbn [db set_clock]. destruct (lookup _ _ _ _ _) as [t |].
    + eexists _, _. cbn. repeat split. intros t0 H. exact H.
    + eexists _, _. cbn. repeat split. discriminate.
Qed.

Lemma no_bank_account_run (tenant_id : string) (w : World) :
  (forall t, lookup TenantDoc.id TenantDoc.tenantId tenant_id tenant_id (tenants (db w))
             = Some t -> nonempty (TenantDoc.bankAccountId t) = None) ->
  exists w', process_auto_payments E tenant_id w = (Ok tt, w') /\
             db w' = db w /\ ledger w' = ledger w.
Proof.
  intro Hno. unfold process_auto_payments, try_except, bind.
  destruct (returns_same_books (get_xero_integration E tenant_id) w
              (get_xero_integration_returns _) (get_xero_integration_same_books _))
    as (cfg & w1 & -> & D1 & L1).
  destruct cfg as [cfg |]; [| exists w1; auto].
  destruct (returns_same_books (get_xero_access_token E tenant_id cfg) w1
              (get_xero_access_token_returns _ _) (get_xero_access_token_same_books _ _))
    as (tok & w2 & -> & D2 & L2).
  destruct (nonempty tok) as [tok' |];
    [| exists w2; unfold ret; repeat split; congruence].
  destruct (get_tenant_result tenant_id w2) as (o & w3 & -> & D3 & L3 & Hval).
  destruct o as [t |].
  - unfold ret at 1. cbv beta iota.
    assert (Ht : lookup TenantDoc.id TenantDoc.tenantId tenant_id tenant_id
                        (tenants (db w)) = Some t).
    { rewrite <- D1, <- D2. apply Hval. reflexivity. }
    rewrite (Hno t Ht). exists w3. unfold ret. repeat split; congruence.
  - unfold raise at 1. cbv beta iota. exists w3. unfold ret. repeat split; congruence.
Qed.

(** A tenant that has no bank account configured is skipped: whatever the
    services do, [process_auto_payments] returns normally and neither the
    ledger (no payment) nor the document database is changed. *)
Theorem no_bank_account_no_payment (tenant_id : string) (w : World) :
  (forall t, lookup TenantDoc.id TenantDoc.tenantId tenant_id tenant_id (tenants (db w))
             = Some t -> nonempty (TenantDoc.bankAccountId t) = None) ->
  fst (process_auto_payments E tenant_id w) = Ok tt /\
  ledger (snd (process_auto_payments E tenant_id w)) = ledger w /\
  db (snd (process_auto_payments E tenant_id w)) = db w.
Proof.
  intro Hno. destruct (no_bank_account_run tenant_id w Hno) as (w' & -> & D & L).
  cbn [fst snd]. auto.
Qed.

End WithEnv.

(** Tenant [a] of the auto-pay example has no bank account. *)
Lemma no_bank_account_no_payment_witness :
  (forall t, lookup TenantDoc.id TenantDoc.tenantId "a" "a" (tenants (db autopay_world))
             = Some t -> nonempty (TenantDoc.bankAccountId t) = None) /\
  fst (process_auto_payments quiet "a" autopay_world) = Ok tt /\
  ledger (snd (process_auto_payments quiet "a" autopay_world)) = ledger autopay_world /\
  db (snd (process_auto_payments quiet "a" autopay_world)) = db autopay_world.
Proof.
  assert (H : forall t, lookup TenantDoc.id TenantDoc.tenantId "a" "a"
                          (tenants (db autopay_world)) = Some t ->
                        nonempty (TenantDoc.bankAccountId t) = None).
  { intros t Ht. cbn in Ht. injection Ht as <-. reflexivity. }
  split; [exact H |].
  exact (no_bank_account_no_payment quiet "a" autopay_world H).
Defined.

End AutoPayFacts.

(* ================================================================== *)
(** ** Contacts that are created *)
(* ================================================================== *)

Module NewContactFacts.
Import Py Cloud Logic RunFacts AzureFunctions PipelineFacts IngestFacts ContactFacts
  Properties Examples.

Lemma only_waited_refl (w : World) : only_waited w w.
Proof. repeat split. Qed.

(** With a positive ceiling the wait returns, and only waits. *)
Lemma wait_only_waits (E : Env) (w : World) :
  (0 < RateLimiter.max_requests_per_minute (rate_limiter w))%nat ->
  exists w1, wait_if_needed E w = (Ok tt, w1) /\ only_waited w w1.
Proof.
  intro Hmax. unfold wait_if_needed.
  destruct (limiter_wait_returns (uniform1 E (List.length (log w)))
              (uniform2 E (List.length (log w))) (clock w) (rate_limiter w) Hmax)
    as (self' & slept & -> & Hmax').
  eexists. split; [reflexivity |]. repeat split. exact Hmax'.
Qed.

(** No contact of the organisation has the name: the search result holds no
    exact match. *)
Lemma exact_match_none (E : Env) (xero_tenant_id merchant_name : string)
  (cs : list Contact) :
  filter (fun c => String.eqb (ContactOrg c) xero_tenant_id
                   && String.eqb (Str.upper (Name c)) (Str.upper merchant_name)) cs = [] ->
  exact_match merchant_name
    (filter (fun c => String.eqb (ContactOrg c) xero_tenant_id
                      && name_contains E merchant_name (Name c)) cs) = None.
Proof.
  intro Hnone. unfold exact_match. rewrite find_filter.
  assert (Hf : find (fun x => String.eqb (ContactOrg x) xero_tenant_id
                              && name_contains E merchant_name (Name x)
                              && String.eqb (Str.upper (Name x)) (Str.upper merchant_name)) cs
               = None).
  { induction cs as [| c cs IH]; [reflexivity |].
    simpl in Hnone. simpl.
    destruct (String.eqb (ContactOrg c) xero_tenant_id); simpl in *.
    - destruct (String.eqb (Str.upper (Name c)) (Str.upper merchant_name));
        [discriminate |].
      rewrite andb_false_r. apply IH. exact Hnone.
    - apply IH. exact Hnone. }
  rewrite Hf. reflexivity.
Qed.

Section WithEnv.
Variable E : Env.

(** A resolution whose search and creation requests are both answered. *)
Lemma resolve_by_creation (access_token xero_tenant_id merchant_name : string)
  (w : World) :
  (0 < RateLimiter.max_requests_per_minute (rate_limiter w))%nat ->
  fault E (List.length (log w)) = false ->
  fault E (S (List.length (log w))) = false ->
  http_ok E (S (List.length (log w))) = true ->
  (http_ok E (List.length (log w)) = true ->
   same_name_contacts xero_tenant_id merchant_name w = []) ->
  exists w',
    create_or_get_xero_contact E access_token xero_tenant_id merchant_name w
    = (Ok (Some (ledger_id E (S (List.length (log w))))), w') /\
    contacts (ledger w')
    = contacts (ledger w)
      ++ [ mkContact xero_tenant_id (ledger_id E (S (List.length (log w))))
                     merchant_name true false ] /\
    log w' = log w ++ [ (HttpGet contacts_url, true); (HttpPut contacts_url, true) ] /\
    RateLimiter.max_requests_per_minute (rate_limiter w')
    = RateLimiter.max_requests_per_minute (rate_limiter w).
Proof.
  intros Hmax F0 F1 Ok1 Hnone.
  unfold create_or_get_xero_contact, try_except, bind.
  destruct (wait_only_waits E w Hmax) as (w1 & -> & (L1 & D1 & S1 & V1 & G1 & O1 & M1)).
  unfold http at 1, call at 1. rewrite L1, F0.
  cbn [log set_clock]. rewrite L1.
  set (w1c := set_clock _ w1).
  assert (Hsel : (if http_ok E (List.length (log w))
                  then exact_match merchant_name
                         (filter (fun c => String.eqb (ContactOrg c) xero_tenant_id
                                           && name_contains E merchant_name (Name c))
                                 (contacts (ledger w1c)))
                  else None) = None).
  { destruct (http_ok E (List.length (log w))); [| reflexivity].
    apply exact_match_none. subst w1c. cbn [ledger set_clock]. rewrite G1.
    apply Hnone. reflexivity. }
  destruct (http_ok E (List.length (log w))) eqn:Ok0; cbv beta iota in Hsel |- *;
    [rewrite Hsel |].
  - set (w2 := set_log (log w1c ++ [(HttpGet contacts_url, true)]) w1c).
    assert (Hmax2 : (0 < RateLimiter.max_requests_per_minute (rate_limiter w2))%nat).
    { subst w2 w1c. cbn. rewrite M1. exact Hmax. }
    destruct (wait_only_waits E w2 Hmax2) as (w3 & -> & (L3 & D3 & S3 & V3 & G3 & O3 & M3)).
    assert (Hlen : List.length (log w3) = S (List.length (log w))).
    { rewrite L3. subst w2 w1c. cbn. rewrite L1, length_app. simpl. lia. }
    unfold next_index, http, call. rewrite Hlen, F1. cbn [log set_clock].
    rewrite Hlen, Ok1. eexists. split; [reflexivity |].
    cbn [ledger set_log set_ledger set_clock contacts set_contacts rate_limiter log].
    rewrite G3, L3, M3. subst w2 w1c. cbn [ledger set_log set_clock log rate_limiter].
    rewrite G1, L1, M1. repeat split.
    rewrite <- app_assoc. reflexivity.
  - set (w2 := set_log (log w1c ++ [(HttpGet contacts_url, true)]) w1c).
    assert (Hmax2 : (0 < RateLimiter.max_requests_per_minute (rate_limiter w2))%nat).
    { subst w2 w1c. cbn. rewrite M1. exact Hmax. }
    destruct (wait_only_waits E w2 Hmax2) as (w3 & -> & (L3 & D3 & S3 & V3 & G3 & O3 & M3)).
    assert (Hlen : List.length (log w3) = S (List.length (log w))).
    { rewrite L3. subst w2 w1c. cbn. rewrite L1, length_app. simpl. lia. }
    unfold next_index, http, call. rewrite Hlen, F1. cbn [log set_clock].
    rewrite Hlen, Ok1. eexists. split; [reflexivity |].
    cbn [ledger set_log set_ledger set_clock contacts set_contacts rate_limiter log].
    rewrite G3, L3, M3. subst w2 w1c. cbn [ledger set_log set_clock log rate_limiter].
    rewrite G1, L1, M1. repeat split.
    rewrite <- app_assoc. reflexivity.
Qed.

(** When the search request is answered with a status that is not ok, the
    resolution goes on to create the contact without having looked at any
    name: a supplier contact with the merchant's name is added to the ledger
    and its id returned, also when the ledger already holds contacts of that
    name, which are then there once more. *)
Theorem failed_search_creates_contact (access_token xero_tenant_id merchant_name : string)
  (w : World) :
  (0 < RateLimiter.max_requests_per_minute (rate_limiter w))%nat ->
  fault E (List.length (log w)) = false ->
  fault E (S (List.length (log w))) = false ->
  http_ok E (List.length (log w)) = false ->
  http_ok E (S (List.length (log w))) = true ->
  fst (create_or_get_xero_contact E access_token xero_tenant_id merchant_name w)
  = Ok (Some (ledger_id E (S (List.length (log w))))) /\
  same_name_contacts xero_tenant_id merchant_name
    (snd (create_or_get_xero_contact E access_token xero_tenant_id merchant_name w))
  = same_name_contacts xero_tenant_id merchant_name w
    ++ [ mkContact xero_tenant_id (ledger_id E (S (List.length (log w))))
                   merchant_name true false ].
Proof.
  intros Hmax F0 F1 Ok0 Ok1.
  destruct (resolve_by_creation access_token xero_tenant_id merchant_name w Hmax F0 F1 Ok1)
    as (w' & -> & Hc & _ & _); [congruence |].
  cbn [fst snd]. split; [reflexivity |].
  unfold same_name_contacts. rewrite Hc, filter_app. cbn [filter ContactOrg Name].
  rewrite !String.eqb_refl. reflexivity.
Qed.

Hypothesis filter_finds_same_name :
  forall text nm, Str.upper text = Str.upper nm -> name_contains E text nm = true.
Hypothesis search_succeeds : forall i, fault E i = false /\ http_ok E i = true.

(** A merchant the ledger does not know is created once: when no contact of
    the organisation has the merchant's name (up to case) and the requests to
    the ledger succeed, the first resolution creates a supplier contact with
    that name and returns its id, and every later resolution finds this
    contact and returns the same id; the ledger gains exactly one contact. *)
Theorem new_contact_is_created_once
  (access_token xero_tenant_id merchant_name : string) (n : nat) (w : World) :
  (0 < RateLimiter.max_requests_per_minute (rate_limiter w))%nat ->
  same_name_contacts xero_tenant_id merchant_name w = [] ->
  fst (resolve_times E access_token xero_tenant_id merchant_name (S n) w)
  = Ok (repeat (Some (ledger_id E (S (List.length (log w))))) (S n))
  /\ contacts (ledger (snd (resolve_times E access_token xero_tenant_id merchant_name
                              (S n) w)))
     = contacts (ledger w)
       ++ [ mkContact xero_tenant_id (ledger_id E (S (List.length (log w))))
                      merchant_name true false ]
  /\ events_since w (snd (resolve_times E access_token xero_tenant_id merchant_name
                            (S n) w))
     = (HttpGet contacts_url, true) :: (HttpPut contacts_url, true)
       :: repeat (HttpGet contacts_url, true) n.
Proof.
  intros Hmax Hnone.
  destruct (resolve_by_creation access_token xero_tenant_id merchant_name w Hmax
              (proj1 (search_succeeds _)) (proj1 (search_succeeds _))
              (proj2 (search_succeeds _)) (fun _ => Hnone))
    as (w1 & H1 & Hc & Hlog & Hm).
  set (c := mkContact xero_tenant_id (ledger_id E (S (List.length (log w))))
                      merchant_name true false) in *.
  assert (Hone : same_name_contacts xero_tenant_id merchant_name w1 = [c]).
  { unfold same_name_contacts in *. rewrite Hc, filter_app, Hnone. subst c.
    cbn [filter ContactOrg Name]. rewrite !String.eqb_refl. reflexivity. }
  assert (Hmax1 : (0 < RateLimiter.max_requests_per_minute (rate_limiter w1))%nat)
    by (rewrite Hm; exact Hmax).
  destruct (resolve_times_existing E filter_finds_same_name search_succeeds
              access_token xero_tenant_id merchant_name c n w1 Hmax1 Hone)
    as (w2 & H2 & Hl2 & Hlog2).
  cbn [resolve_times]. unfold bind. rewrite H1, H2. unfold ret. cbn [fst snd].
  split; [reflexivity | split].
  - rewrite Hl2. exact Hc.
  - apply events_since_app. rewrite Hlog2, Hlog. rewrite <- app_assoc. reflexivity.
Qed.

End WithEnv.

(** The ledger of [connected_world] knows "CORNER CAFE"; the search for
    "Corner Cafe" is refused, and the merchant is created a second time. *)
Lemma failed_search_creates_contact_witness :
  (0 < RateLimiter.max_requests_per_minute (rate_limiter connected_world))%nat /\
  http_ok (Scenarios.refusing [0%nat]) (List.length (log connected_world)) = false /\
  same_name_contacts "org-1" "Corner Cafe"
    (snd (create_or_get_xero_contact (Scenarios.refusing [0%nat]) "token" "org-1"
            "Corner Cafe" connected_world))
  = [ mkContact "org-1" "c-1" "CORNER CAFE" true false;
      mkContact "org-1" "id-1" "Corner Cafe" true false ].
Proof.
  assert (Hmax : (0 < RateLimiter.max_requests_per_minute (rate_limiter connected_world))%nat)
    by (simpl; lia).
  split; [exact Hmax |]. split; [reflexivity |].
  exact (proj2 (failed_search_creates_contact (Scenarios.refusing [0%nat]) "token" "org-1"
                  "Corner Cafe" connected_world Hmax eq_refl eq_refl eq_refl eq_refl)).
Defined.

(** The ledger of [connected_world] does not know "Bakery": the first of
    three resolutions creates it, the other two find it. *)
Lemma new_contact_is_created_once_witness :
  (forall text nm, Str.upper text = Str.upper nm -> name_contains quiet text nm = true)
  /\ (forall i, fault quiet i = false /\ http_ok quiet i = true)
  /\ (0 < RateLimiter.max_requests_per_minute (rate_limiter connected_world))%nat
  /\ same_name_contacts "org-1" "Bakery" connected_world = []
  /\ fst (resolve_times quiet "token" "org-1" "Bakery" 3 connected_world)
     = Ok (repeat (Some "id-1") 3)
  /\ contacts (ledger (snd (resolve_times quiet "token" "org-1" "Bakery" 3 connected_world)))
     = contacts (ledger connected_world) ++ [ mkContact "org-1" "id-1" "Bakery" true false ].
Proof.
  assert (H1 : forall text nm, Str.upper text = Str.upper nm ->
                               name_contains quiet text nm = true)
    by exact contains_ci_same_name.
  assert (H2 : forall i, fault quiet i = false /\ http_ok quiet i = true)
    by (intro i; split; reflexivity).
  assert (H3 : (0 < RateLimiter.max_requests_per_minute (rate_limiter connected_world))%nat)
    by (simpl; lia).
  assert (H4 : same_name_contacts "org-1" "Bakery" connected_world = [])
    by (vm_compute; reflexivity).
  split; [exact H1 |]. split; [exact H2 |]. split; [exact H3 |]. split; [exact H4 |].
  destruct (new_contact_is_created_once quiet H1 H2 "token" "org-1" "Bakery" 2
              connected_world H3 H4) as (Ha & Hb & _).
  split; [exact Ha | exact Hb].
Defined.

End NewContactFacts.

(* ================================================================== *)
(** ** The e-mail adapter: addresses and attachments *)
(* ================================================================== *)

Module MessageFacts.
Import Py Cloud EmailProcessing Properties StringFacts Examples.
#[local] Open Scope nat_scope.
#[local] Open Scope string_scope.

Lemma lower_ascii_idempotent (c : ascii) :
  Str.lower_ascii (Str.lower_ascii c) = Str.lower_ascii c.
Proof. destruct c as [[] [] [] [] [] [] [] []]; reflexivity. Qed.

Lemma lower_idempotent (s : string) : Str.lower (Str.lower s) = Str.lower s.
Proof.
  unfold Str.lower. induction s as [| c s IH]; simpl; [reflexivity |].
  rewrite lower_ascii_idempotent, IH. reflexivity.
Qed.

(** The sender address handed to the authorisation check is in lower case,
    whatever the header: an entry of the list of authorised senders that
    contains a capital letter is therefore equal to no sender address. *)
Theorem extracted_address_is_lower_case (email_string : string) :
  Str.lower (_extract_email_address email_string) = _extract_email_address email_string /\
  forall entry, Str.lower entry <> entry -> _extract_email_address email_string <> entry.
Proof.
  assert (H : Str.lower (_extract_email_address email_string)
              = _extract_email_address email_string).
  { unfold _extract_email_address.
    destruct (Str.contains "<" email_string && Str.contains ">" email_string);
      [destruct (Str.split_second "<" email_string) |]; apply lower_idempotent. }
  split; [exact H |].
  intros entry Hentry Heq. apply Hentry. rewrite <- Heq. exact H.
Qed.

Lemma contains_char_append (c : ascii) (a b : string) :
  Str.contains (String c "") (a ++ String c b) = true.
Proof.
  induction a as [| x a IH].
  - cbn [append Str.contains]. rewrite prefix_cons, Ascii.eqb_refl.
    destruct b; reflexivity.
  - change (String x a ++ String c b) with (String x (a ++ String c b)).
    cbn [Str.contains]. rewrite IH. apply orb_true_r.
Qed.

Lemma split_second_append (sep : ascii) (a b : string) :
  all_chars (fun c => negb (Ascii.eqb c sep)) a = true ->
  Str.split_second sep (a ++ String sep b) = Some (Str.split_head sep b).
Proof.
  induction a as [| x a IH]; simpl.
  - intros _. rewrite Ascii.eqb_refl. reflexivity.
  - rewrite andb_true_iff, negb_true_iff. intros [-> Ha]. apply IH. exact Ha.
Qed.

Lemma split_head_append_without (sep : ascii) (x y : string) :
  all_chars (fun c => negb (Ascii.eqb c sep)) x = true ->
  Str.split_head sep (x ++ y) = x ++ Str.split_head sep y.
Proof.
  induction x as [| c x IH]; simpl; [reflexivity |].
  rewrite andb_true_iff, negb_true_iff. intros [-> Hx]. rewrite (IH Hx). reflexivity.
Qed.

(** A header of the form [Name <address>]: the address between the brackets
    is returned, without surrounding blanks and in lower case. *)
Theorem address_between_brackets (display address rest : string) :
  all_chars (fun c => negb (Ascii.eqb c "<")) display = true ->
  all_chars (fun c => negb (Ascii.eqb c "<")) address = true ->
  all_chars (fun c => negb (Ascii.eqb c ">")) address = true ->
  _extract_email_address (display ++ "<" ++ address ++ ">" ++ rest)
  = Str.lower (Str.strip address).
Proof.
  intros Hd Ha1 Ha2. unfold _extract_email_address.
  change ("<" ++ address ++ ">" ++ rest) with (String "<" (address ++ String ">" rest)).
  rewrite contains_char_append.
  assert (Hgt : Str.contains ">" (display ++ String "<" (address ++ String ">" rest)) = true).
  { change (String "<" (address ++ String ">" rest))
      with ("<" ++ (address ++ String ">" rest)).
    rewrite <- !append_assoc. apply contains_char_append. }
  rewrite Hgt. cbn [andb].
  rewrite (split_second_append "<" display _ Hd).
  rewrite (split_head_append_without "<" address _ Ha1).
  cbn [Str.split_head]. change (Ascii.eqb ">" "<") with false. cbv iota.
  rewrite (NotConfiguredFacts.split_head_prefix ">" address);
    [reflexivity | apply split_head_without; exact Ha2].
Qed.

Lemma address_between_brackets_witness :
  all_chars (fun c => negb (Ascii.eqb c "<")) "Ann " = true /\
  all_chars (fun c => negb (Ascii.eqb c "<")) "Ann@Example.COM" = true /\
  all_chars (fun c => negb (Ascii.eqb c ">")) "Ann@Example.COM" = true /\
  _extract_email_address ("Ann " ++ "<" ++ "Ann@Example.COM" ++ ">" ++ "")
  = "ann@example.com".
Proof.
  split; [reflexivity |]. split; [reflexivity |]. split; [reflexivity |].
  exact (address_between_brackets "Ann " "Ann@Example.COM" "" eq_refl eq_refl eq_refl).
Defined.

(** *** Attachments *)

Lemma nonempty_some (o : option string) (s : string) :
  nonempty o = Some s <-> o = Some s /\ s <> "".
Proof.
  unfold nonempty. destruct o as [x |].
  - destruct x as [| c x]; simpl.
    + split; [discriminate | intros [H Hne]; injection H as <-; congruence].
    + split.
      * intro H. injection H as <-. split; [reflexivity | discriminate].
      * intros [H _]. exact H.
  - split; [discriminate | intros [H _]; discriminate].
Qed.

(** The attachments handed on are the parts marked as attachments that have
    a name, a supported extension (in any case of letters) and content: a
    part yields an attachment exactly when all of this holds, and the
    attachment carries the name as given, the content, the content type and
    the length of the content as size. *)
Theorem attachment_extracted_iff (ps : list Part) (a : Attachment) :
  In a (_extract_attachments ps) <->
  exists part filename content,
    In part ps /\
    content_disposition part = Some "attachment" /\
    part_filename part = Some filename /\ filename <> "" /\
    supported_name filename = true /\
    payload part = Some content /\ content <> "" /\
    a = attachment_of part filename content.
Proof.
  induction ps as [| p ps IH].
  - simpl. split; [tauto | intros (? & ? & ? & [] & _)].
  - cbn [_extract_attachments].
    assert (Hskip : In a (_extract_attachments ps) ->
                    exists part filename content,
                      In part (p :: ps) /\
                      content_disposition part = Some "attachment" /\
                      part_filename part = Some filename /\ filename <> "" /\
                      supported_name filename = true /\
                      payload part = Some content /\ content <> "" /\
                      a = attachment_of part filename content).
    { intro H. apply IH in H. destruct H as (q & f & c & Hin & H).
      exists q, f, c. split; [right; exact Hin | exact H]. }
    assert (Hhere : forall P : Prop,
               (forall filename content,
                   content_disposition p = Some "attachment" ->
                   part_filename p = Some filename -> filename <> "" ->
                   supported_name filename = true ->
                   payload p = Some content -> content <> "" ->
                   a = attachment_of p filename content -> P) ->
               (In a (_extract_attachments ps) -> P) ->
               (exists part filename content,
                   In part (p :: ps) /\
                   content_disposition part = Some "attachment" /\
                   part_filename part = Some filename /\ filename <> "" /\
                   supported_name filename = true /\
                   payload part = Some content /\ content <> "" /\
                   a = attachment_of part filename content) -> P).
    { intros P Hp Hrest (q & f & c & [<- | Hin] & H1 & H2 & H3 & H4 & H5 & H6 & H7).
      - eapply Hp; eassumption.
      - apply Hrest. apply IH. exists q, f, c. auto 10. }
    destruct (content_disposition p) as [d |] eqn:Hd.
    2:{ split; [exact Hskip |]. apply Hhere; [| auto]. intros; discriminate. }
    destruct (String.eqb d "attachment") eqn:Hatt.
    2:{ split; [exact Hskip |]. apply Hhere; [| auto].
        intros f c H1. injection H1 as ->. rewrite String.eqb_refl in Hatt. discriminate. }
    apply String.eqb_eq in Hatt. subst d.
    destruct (nonempty (part_filename p)) as [f |] eqn:Hf.
    2:{ split; [exact Hskip |]. apply Hhere; [| auto].
        intros f c _ H2 H3. assert (nonempty (part_filename p) = Some f)
          by (apply nonempty_some; auto). congruence. }
    apply nonempty_some in Hf. destruct Hf as [Hf Hfne].
    fold (supported_name f).
    destruct (supported_name f) eqn:Hsup; cbn [negb].
    2:{ split; [exact Hskip |]. apply Hhere; [| auto].
        intros f' c _ H2 _ H4. rewrite Hf in H2. injection H2 as <-. congruence. }
    destruct (nonempty (payload p)) as [c |] eqn:Hc.
    2:{ split; [exact Hskip |]. apply Hhere; [| auto].
        intros f' c _ _ _ _ H5 H6. assert (nonempty (payload p) = Some c)
          by (apply nonempty_some; auto). congruence. }
    apply nonempty_some in Hc. destruct Hc as [Hc Hcne].
    split.
    + intros [<- | Hin]; [| exact (Hskip Hin)].
      exists p, f, c. repeat split; auto. left. reflexivity.
    + apply Hhere; [| intro; right; assumption].
      intros f' c' _ H2 _ _ H5 _ ->. rewrite Hf in H2. rewrite Hc in H5.
      injection H2 as <-. injection H5 as <-. left. reflexivity.
Qed.

End MessageFacts.

(* ================================================================== *)
(** ** The e-mail adapter: senders, recipients and uploads *)
(* ================================================================== *)

Module AdapterFacts.
Import Py Cloud Logic RunFacts PipelineFacts IngestFacts ConsistencyFacts EmailProcessing
  Properties MessageFacts Examples.

Section WithEnv.
Variable E : Env.

Lemma is_sender_authorized_run (tenant_id sender_email : string) (w : World) :
  exists b w',
    _is_sender_authorized E tenant_id sender_email w = (Ok b, w') /\
    db w' = db w /\ storage w' = storage w /\
    (b = true ->
     exists t, lookup TenantDoc.id TenantDoc.tenantId tenant_id tenant_id (tenants (db w))
               = Some t /\ sender_matches tenant_id sender_email t w = true) /\
    (fault E (List.length (log w)) = false ->
     fault E (S (List.length (log w))) = false ->
     forall t, lookup TenantDoc.id TenantDoc.tenantId tenant_id tenant_id (tenants (db w))
               = Some t -> b = sender_matches tenant_id sender_email t w).
Proof.
  unfold _is_sender_authorized, try_except, bind, query_items, call at 1.
  destruct (fault E (List.length (log w))) eqn:F0.
  { eexists false, _. cbn. repeat split; discriminate. }
  unfold read_tenant, read_item, call.
  cbn [log set_log set_clock db fst snd].
  rewrite length_app. cbn [List.length]. rewrite Nat.add_1_r.
  destruct (fault E (S (List.length (log w)))) eqn:F1.
  { eexists false, _. cbn. repeat split; discriminate. }
  destruct (lookup TenantDoc.id TenantDoc.tenantId tenant_id tenant_id (tenants (db w)))
    as [t |] eqn:Hl.
  2:{ eexists false, _. cbn. repeat split; discriminate. }
  cbv beta iota.
  match goal with |- context [if ?c then ret true else ret (existsb ?f ?l)] =>
    assert (Hm : sender_matches tenant_id sender_email t w = c || existsb f l)
      by reflexivity;
    destruct c eqn:Hc
  end.
  - eexists true, _. unfold ret. split; [reflexivity |]. cbn. repeat split.
    + intros _. exists t. split; [reflexivity | exact Hm].
    + intros _ _ t0 Ht0. injection Ht0 as <-. symmetry. exact Hm.
  - eexists _, _. unfold ret. split; [reflexivity |]. cbn. repeat split.
    + intros Hb. exists t. split; [reflexivity |]. rewrite Hm. exact Hb.
    + intros _ _ t0 Ht0. injection Ht0 as <-. symmetry. exact Hm.
Qed.

(** A sender is authorised only on the strength of the records: whatever the
    services do, [_is_sender_authorized] returns normally and changes neither
    records nor blobs, and when it answers [True] the tenant record exists
    and the sender address is either the lower-cased [email] of a record of
    the tenants container with that tenant id, or an entry of the tenant's
    list of authorised senders.  A call that fails, or a tenant without
    record, authorises nobody. *)
Theorem sender_is_authorised_by_records (tenant_id sender_email : string) (w : World) :
  exists b,
    fst (_is_sender_authorized E tenant_id sender_email w) = Ok b /\
    db (snd (_is_sender_authorized E tenant_id sender_email w)) = db w /\
    storage (snd (_is_sender_authorized E tenant_id sender_email w)) = storage w /\
    (b = true ->
     exists t, lookup TenantDoc.id TenantDoc.tenantId tenant_id tenant_id (tenants (db w))
               = Some t /\ sender_matches tenant_id sender_email t w = true).
Proof.
  destruct (is_sender_authorized_run tenant_id sender_email w)
    as (b & w' & -> & H1 & H2 & H3 & _).
  exists b. cbn [fst snd]. auto.
Qed.

(** A message without sender is authorised: the records read as users are the
    records of the tenants container, which carry no [email]; the default
    [''] of [user.get('email', '')] equals the empty sender address that a
    missing or empty [From] header gives.  When the two calls succeed and the
    tenant record exists without that key, the empty sender is authorised. *)
Theorem empty_sender_is_authorised (tenant_id : string) (t : TenantDoc.t) (w : World) :
  fault E (List.length (log w)) = false ->
  fault E (S (List.length (log w))) = false ->
  lookup TenantDoc.id TenantDoc.tenantId tenant_id tenant_id (tenants (db w)) = Some t ->
  TenantDoc.email t = None ->
  _extract_email_address "" = "" /\
  fst (_is_sender_authorized E tenant_id "" w) = Ok true.
Proof.
  intros F0 F1 Hl Hemail. split; [reflexivity |].
  destruct (is_sender_authorized_run tenant_id "" w) as (b & w' & -> & _ & _ & _ & Hb).
  cbn [fst]. rewrite (Hb F0 F1 t Hl). unfold sender_matches.
  assert (Hex : existsb (fun user =>
                           String.eqb
                             (Str.lower (match TenantDoc.email user with
                                         | Some e => e | None => "" end)) "")
                        (filter (fun t0 => String.eqb (TenantDoc.tenantId t0) tenant_id)
                                (tenants (db w))) = true).
  { apply existsb_exists. exists t. split.
    - apply filter_In. split; [eapply lookup_In; exact Hl |].
      destruct (NotConfiguredFacts.lookup_fields _ _ _ _ _ _ Hl) as [_ ->].
      apply String.eqb_refl.
    - rewrite Hemail. reflexivity. }
  rewrite Hex. reflexivity.
Qed.

(** *** A recipient address that no tenant owns *)

Lemma send_error_run (recipient : string) (w : World) :
  exists b w',
    _send_error_email E recipient w = (Ok tt, w') /\
    db w' = db w /\ storage w' = storage w /\
    log w' = log w ++ [(SendEmail recipient, b)] /\
    outbox w' = (if b then outbox w ++ [recipient] else outbox w).
Proof.
  unfold _send_error_email, try_except, begin_send, call.
  destruct (fault E (List.length (log w))).
  - eexists false, _. cbn. repeat split.
  - eexists true, _. cbn. repeat split.
Qed.

Lemma get_tenant_by_email_unmapped (to_email from_email : string) (w : World) :
  filter (fun m => String.eqb (MappingDoc.emailAddress m) to_email) (email_mappings (db w))
  = [] ->
  exists b w',
    _get_tenant_by_email E to_email from_email w = (Ok None, w') /\
    db w' = db w /\ storage w' = storage w /\ outbox w' = outbox w /\
    log w' = log w ++ [(QueryItems EmailMappings, b)].
Proof.
  intro Hnone. unfold _get_tenant_by_email, try_except, bind, query_items, call.
  destruct (fault E (List.length (log w))).
  - eexists false, _. cbn. repeat split.
  - cbn [db set_clock]. rewrite Hnone. eexists true, _. cbn. repeat split.
Qed.

Lemma existsb_eqb_absent (x : string) (l : list string) :
  ~ In x l -> existsb (String.eqb x) l = false.
Proof.
  intro Hn. destruct (existsb (String.eqb x) l) eqn:Hex; [| reflexivity].
  apply existsb_exists in Hex. destruct Hex as (y & Hin & Heq).
  apply String.eqb_eq in Heq. subst y. contradiction.
Qed.

Lemma unmapped_recipient_run (self : EmailReceiptProcessor) (msg : Message) (w : World) :
  ~ In (message_hash E msg) (processed_emails self) ->
  filter (fun m => String.eqb (MappingDoc.emailAddress m) (recipient_of msg))
         (email_mappings (db w)) = [] ->
  exists b0 b1 w',
    process_email E self (mkEmailData (Some msg)) w = (Ok (false, self), w') /\
    db w' = db w /\ storage w' = storage w /\
    log w' = log w ++ [(QueryItems EmailMappings, b0); (SendEmail (sender_of msg), b1)] /\
    outbox w' = (if b1 then outbox w ++ [sender_of msg] else outbox w).
Proof.
  intros Hnew Hnone.
  unfold process_email, try_except, bind. cbn [body item]. unfold ret at 1.
  fold (sender_of msg). fold (recipient_of msg). fold (message_hash E msg).
  rewrite (existsb_eqb_absent _ _ Hnew).
  destruct (get_tenant_by_email_unmapped (recipient_of msg) (sender_of msg) w Hnone)
    as (b0 & w1 & -> & D1 & S1 & O1 & L1).
  cbn [nonempty].
  destruct (send_error_run (sender_of msg) w1) as (b1 & w2 & -> & D2 & S2 & L2 & O2).
  exists b0, b1, w2. unfold ret. split; [reflexivity |].
  rewrite D2, S2, L2, O2, D1, S1, L1, O1. repeat split.
  rewrite <- app_assoc. reflexivity.
Qed.

(** A message to an address that is mapped to no tenant is refused without a
    trace in the stores: when the message was not seen before and no mapping
    carries the recipient address, [process_email] returns [False] and leaves
    the processor, the records and the blobs as they were; it queries the
    mappings and sends the error mail to the sender, and nothing else. *)
Theorem unmapped_recipient_is_refused (self : EmailReceiptProcessor) (msg : Message)
  (w : World) :
  ~ In (message_hash E msg) (processed_emails self) ->
  filter (fun m => String.eqb (MappingDoc.emailAddress m) (recipient_of msg))
         (email_mappings (db w)) = [] ->
  fst (process_email E self (mkEmailData (Some msg)) w) = Ok (false, self) /\
  db (snd (process_email E self (mkEmailData (Some msg)) w)) = db w /\
  storage (snd (process_email E self (mkEmailData (Some msg)) w)) = storage w /\
  exists b0 b1,
    events_since w (snd (process_email E self (mkEmailData (Some msg)) w))
    = [(QueryItems EmailMappings, b0); (SendEmail (sender_of msg), b1)] /\
    outbox (snd (process_email E self (mkEmailData (Some msg)) w))
    = (if b1 then outbox w ++ [sender_of msg] else outbox w).
Proof.
  intros Hnew Hnone.
  destruct (unmapped_recipient_run self msg w Hnew Hnone)
    as (b0 & b1 & w' & -> & D & S & L & O).
  cbn [fst snd]. repeat split; try assumption.
  exists b0, b1. split; [apply events_since_app; exact L | exact O].
Qed.

(** *** What the processor remembers *)

Lemma returns_in_ret {A : Type} (P : A -> Prop) (a : A) : P a -> returns_in P (ret a).
Proof. intros H w x w' Heq. injection Heq as <- _. exact H. Qed.

Lemma returns_in_bind {A B : Type} (P : B -> Prop) (m : M A) (k : A -> M B) :
  (forall x, returns_in P (k x)) -> returns_in P (bind m k).
Proof.
  intros Hk w b w' Heq. unfold bind in Heq.
  destruct (m w) as [[x | e] w1]; [| discriminate].
  eapply Hk. exact Heq.
Qed.

Lemma returns_in_try_except {A : Type} (P : A -> Prop) (m : M A) (h : exn -> M A) :
  returns_in P m -> (forall e, returns_in P (h e)) -> returns_in P (try_except m h).
Proof.
  intros Hm Hh w a w' Heq. unfold try_except in Heq.
  destruct (m w) as [[x | e] w1] eqn:Hmw.
  - injection Heq as <- <-. eapply Hm. exact Hmw.
  - eapply Hh. exact Heq.
Qed.

(** The processor [process_email] returns is the one it was called on, or
    that one with the hash of the message added. *)
Lemma process_email_processor (self : EmailReceiptProcessor) (msg : Message) :
  returns_in
    (fun r => snd r = self
              \/ snd r = mkProcessor (message_hash E msg :: processed_emails self))
    (process_email E self (mkEmailData (Some msg))).
Proof.
  unfold process_email. cbn [body item].
  apply returns_in_try_except; [| intro; apply returns_in_ret; left; reflexivity].
  intros w a w' Heq. unfold bind at 1, ret at 1 in Heq. cbv beta iota zeta in Heq.
  revert w a w' Heq.
  fold (sender_of msg). fold (recipient_of msg). fold (message_hash E msg).
  change (returns_in
            (fun r => snd r = self
                      \/ snd r = mkProcessor (message_hash E msg :: processed_emails self))
            (if existsb (String.eqb (message_hash E msg)) (processed_emails self)
             then ret (true, self)
             else
               bind (_get_tenant_by_email E (recipient_of msg) (sender_of msg))
                 (fun tenant_id =>
                    match nonempty tenant_id with
                    | None => bind (_send_error_email E (sender_of msg))
                                (fun _ => ret (false, self))
                    | Some tenant_id =>
                        match _extract_attachments (parts msg) with
                        | [] => bind (_send_error_email E (sender_of msg))
                                  (fun _ => ret (false, self))
                        | a :: l =>
                            bind (process_attachments E tenant_id (a :: l) (sender_of msg)
                                    (match Subject msg with
                                     | Some x => x | None => "No Subject" end))
                              (fun processed_count =>
                                 bind (if (0 <? processed_count)%nat
                                       then _send_confirmation_email E (sender_of msg)
                                       else ret tt)
                                   (fun _ =>
                                      ret ((0 <? processed_count)%nat,
                                           mkProcessor (message_hash E msg
                                                        :: processed_emails self))))
                        end
                    end))).
  destruct (existsb _ _); [apply returns_in_ret; left; reflexivity |].
  apply returns_in_bind. intro tenant_id.
  destruct (nonempty tenant_id) as [t |].
  - destruct (_extract_attachments (parts msg)).
    + apply returns_in_bind. intro. apply returns_in_ret. left. reflexivity.
    + apply returns_in_bind. intro. apply returns_in_bind. intro.
      apply returns_in_ret. right. reflexivity.
  - apply returns_in_bind. intro. apply returns_in_ret. left. reflexivity.
Qed.

(** A message whose hash the processor holds is answered at once. *)
Lemma known_message_run (self : EmailReceiptProcessor) (msg : Message) (w : World) :
  In (message_hash E msg) (processed_emails self) ->
  process_email E self (mkEmailData (Some msg)) w = (Ok (true, self), w).
Proof.
  intro Hin. unfold process_email, try_except, bind. cbn [body item]. unfold ret at 1.
  fold (sender_of msg). fold (recipient_of msg). fold (message_hash E msg).
  assert (Hex : existsb (String.eqb (message_hash E msg)) (processed_emails self) = true).
  { apply existsb_exists. eexists. split; [exact Hin | apply String.eqb_refl]. }
  rewrite Hex. reflexivity.
Qed.

(** A message that went through the attachment loop is remembered, whether
    or not anything was stored: if [process_email] returns a processor that
    differs from the one it was called on, then, on that processor, the same
    message is answered [True] at once, without a call to any service and
    without a change of the world.  This holds also when the first
    call returned [False] because every upload failed. *)
Theorem processed_message_is_remembered (self : EmailReceiptProcessor) (msg : Message)
  (w : World) (b : bool) (self' : EmailReceiptProcessor) :
  fst (process_email E self (mkEmailData (Some msg)) w) = Ok (b, self') ->
  self' <> self ->
  forall w2, process_email E self' (mkEmailData (Some msg)) w2 = (Ok (true, self'), w2).
Proof.
  intros Hrun Hne w2.
  destruct (process_email E self (mkEmailData (Some msg)) w) as [r w'] eqn:Hr.
  cbn [fst] in Hrun. subst r.
  destruct (process_email_processor self msg w (b, self') w' Hr) as [H | H];
    cbn [snd] in H; [contradiction |].
  apply known_message_run. rewrite H. left. reflexivity.
Qed.

(** *** One attachment *)

Lemma create_receipt_record_run (tenant_id filename : string) (attachment : Attachment)
  (sender_email subject : string) (w : World) :
  exists w',
    _create_receipt_record E tenant_id filename attachment sender_email subject w
    = (Ok tt, w') /\
    storage w' = storage w /\
    (receipts (db w') = receipts (db w)
     \/ exists d, receipts (db w') = receipts (db w) ++ [d] /\
                  ReceiptDoc.tenantId d = tenant_id /\
                  ReceiptDoc.filename d = filename /\
                  ReceiptDoc.status d = "uploaded" /\
                  ReceiptDoc.xeroStatus d = Some "pending").
Proof.
  unfold _create_receipt_record, try_except, bind, get_clock, create_receipt,
    create_item, call.
  cbn [ReceiptDoc.id ReceiptDoc.tenantId].
  destruct (fault E (List.length (log w))).
  - eexists. cbn. repeat split. left. reflexivity.
  - cbn [db set_clock]. destruct (lookup _ _ _ _ _).
    + eexists. cbn. repeat split. left. reflexivity.
    + eexists. cbn. repeat split. right. eexists. repeat split.
Qed.

Lemma process_attachment_run (tenant_id : string) (attachment : Attachment)
  (sender_email subject : string) (w : World) :
  exists b w',
    _process_attachment E tenant_id attachment sender_email subject w = (Ok b, w') /\
    (b = false -> storage w' = storage w /\ db w' = db w) /\
    (b = true ->
     exists blob, In blob (storage w') /\
                  container blob = AzureFunctions.uploads_container tenant_id /\
                  blob_name blob = safe_filename E (clock w) sender_email
                                     (att_filename attachment) /\
                  content blob = att_content attachment) /\
    (receipts (db w') = receipts (db w)
     \/ exists d, receipts (db w') = receipts (db w) ++ [d] /\
                  ReceiptDoc.tenantId d = tenant_id /\
                  ReceiptDoc.filename d = safe_filename E (clock w) sender_email
                                            (att_filename attachment) /\
                  ReceiptDoc.status d = "uploaded" /\
                  ReceiptDoc.xeroStatus d = Some "pending").
Proof.
  unfold _process_attachment, try_except, bind, get_clock at 1, upload_blob, call.
  cbv beta iota zeta.
  fold (safe_filename E (clock w) sender_email (att_filename attachment)).
  destruct (fault E (List.length (log w))).
  { eexists false, _. split; [reflexivity |]. cbn. repeat split; try discriminate.
    left. reflexivity. }
  match goal with |- context [_create_receipt_record E ?t ?f ?a ?s ?j ?x] =>
    destruct (create_receipt_record_run t f a s j x) as (w2 & -> & S2 & R2)
  end.
  eexists true, _. unfold ret. split; [reflexivity |].
  split; [discriminate |]. split.
  - intros _. eexists. split.
    + rewrite S2. cbn [storage set_log set_storage set_clock].
      apply in_or_app. right. left. reflexivity.
    + repeat split.
  - exact R2.
Qed.

(** An attachment counts as processed as soon as it is uploaded:
    [_process_attachment] returns normally whatever the services do; when it
    answers [False] neither blobs nor records changed; when it answers [True]
    the content lies in the tenant's upload container under the name
    [email_<time>_<hash>_<file>]; and the receipt record (status "uploaded",
    synchronisation "pending") may or may not have been created: a failure
    of the record store does not change the answer. *)
Theorem attachment_counts_once_uploaded (tenant_id : string) (attachment : Attachment)
  (sender_email subject : string) (w : World) :
  exists b,
    fst (_process_attachment E tenant_id attachment sender_email subject w) = Ok b /\
    (b = false ->
     storage (snd (_process_attachment E tenant_id attachment sender_email subject w))
     = storage w /\
     db (snd (_process_attachment E tenant_id attachment sender_email subject w)) = db w) /\
    (b = true ->
     exists blob,
       In blob (storage (snd (_process_attachment E tenant_id attachment sender_email
                                subject w))) /\
       container blob = AzureFunctions.uploads_container tenant_id /\
       blob_name blob = safe_filename E (clock w) sender_email (att_filename attachment) /\
       content blob = att_content attachment) /\
    (receipts (db (snd (_process_attachment E tenant_id attachment sender_email
                          subject w))) = receipts (db w)
     \/ exists d,
          receipts (db (snd (_process_attachment E tenant_id attachment sender_email
                               subject w))) = receipts (db w) ++ [d] /\
          ReceiptDoc.tenantId d = tenant_id /\
          ReceiptDoc.filename d = safe_filename E (clock w) sender_email
                                    (att_filename attachment) /\
          ReceiptDoc.status d = "uploaded" /\
          ReceiptDoc.xeroStatus d = Some "pending").
Proof.
  destruct (process_attachment_run tenant_id attachment sender_email subject w)
    as (b & w' & -> & H1 & H2 & H3).
  exists b. cbn [fst snd]. auto.
Qed.

End WithEnv.

(** The tenant record of the mail example carries no [email]. *)
Lemma empty_sender_is_authorised_witness :
  fault quiet (List.length (log mail_world)) = false /\
  fault quiet (S (List.length (log mail_world))) = false /\
  lookup TenantDoc.id TenantDoc.tenantId "acme" "acme" (tenants (db mail_world))
  = Some (tenant "acme" false None [ "ann@example.com" ]) /\
  TenantDoc.email (tenant "acme" false None [ "ann@example.com" ]) = None /\
  fst (_is_sender_authorized quiet "acme" "" mail_world) = Ok true.
Proof.
  split; [reflexivity |]. split; [reflexivity |]. split; [reflexivity |].
  split; [reflexivity |].
  exact (proj2 (empty_sender_is_authorised quiet "acme"
                  (tenant "acme" false None [ "ann@example.com" ]) mail_world
                  eq_refl eq_refl eq_refl eq_refl)).
Defined.

(** The message of that example without its [From] header goes all the way:
    the attachment is stored and recorded for the tenant. *)
Lemma message_without_sender_is_accepted :
  let r := main quiet (Some Scenarios.anonymous_mail) mail_world in
  fst r = Ok 200%nat /\
  map container (storage (snd r)) = [ "tenant-acme-uploads" ] /\
  map ReceiptDoc.tenantId (receipts (db (snd r))) = [ "acme" ].
Proof. vm_compute. intuition. Qed.

(** The message of the mail example in a world without mappings. *)
Lemma unmapped_recipient_is_refused_witness :
  ~ In (message_hash quiet Scenarios.lunch_message) (processed_emails new_processor) /\
  filter (fun m => String.eqb (MappingDoc.emailAddress m)
                     (recipient_of Scenarios.lunch_message))
         (email_mappings (db (upload_world "acme"))) = [] /\
  fst (process_email quiet new_processor (mkEmailData (Some Scenarios.lunch_message))
         (upload_world "acme")) = Ok (false, new_processor) /\
  db (snd (process_email quiet new_processor (mkEmailData (Some Scenarios.lunch_message))
             (upload_world "acme"))) = db (upload_world "acme").
Proof.
  assert (H1 : ~ In (message_hash quiet Scenarios.lunch_message)
                    (processed_emails new_processor)) by (intros []).
  split; [exact H1 |]. split; [reflexivity |].
  destruct (unmapped_recipient_is_refused quiet new_processor Scenarios.lunch_message
              (upload_world "acme") H1 eq_refl) as (Ha & Hb & _).
  split; [exact Ha | exact Hb].
Defined.

(** The upload of the attachment fails (the fourth call): the first call
    answers [False], the processor remembers the message, and the second
    call answers [True]. *)
Lemma processed_message_is_remembered_witness :
  fst (process_email (oracle [3%nat]) new_processor
         (mkEmailData (Some Scenarios.lunch_message)) mail_world)
  = Ok (false, mkProcessor [ "#<m1@example.com>ann@example.com" ]) /\
  mkProcessor [ "#<m1@example.com>ann@example.com" ] <> new_processor /\
  forall w2,
    process_email (oracle [3%nat]) (mkProcessor [ "#<m1@example.com>ann@example.com" ])
      (mkEmailData (Some Scenarios.lunch_message)) w2
    = (Ok (true, mkProcessor [ "#<m1@example.com>ann@example.com" ]), w2).
Proof.
  assert (H1 : fst (process_email (oracle [3%nat]) new_processor
                      (mkEmailData (Some Scenarios.lunch_message)) mail_world)
               = Ok (false, mkProcessor [ "#<m1@example.com>ann@example.com" ]))
    by (vm_compute; reflexivity).
  assert (H2 : mkProcessor [ "#<m1@example.com>ann@example.com" ] <> new_processor)
    by discriminate.
  split; [exact H1 |]. split; [exact H2 |].
  exact (processed_message_is_remembered (oracle [3%nat]) new_processor
           Scenarios.lunch_message mail_world false
           (mkProcessor [ "#<m1@example.com>ann@example.com" ]) H1 H2).
Defined.

(** The record store fails when the record is created (the second call of
    [_process_attachment]): the attachment still counts, with no record for
    it. *)
Lemma attachment_counts_without_record :
  let r := _process_attachment (oracle [1%nat]) "acme" lunch "ann@example.com" "Lunch"
             mail_world in
  fst r = Ok true /\ receipts (db (snd r)) = [] /\
  map blob_name (storage (snd r)) = [ "email_1000_#ann@exa_lunch.pdf" ].
Proof. vm_compute. intuition. Qed.

End AdapterFacts.

(* ================================================================== *)
(** ** The rate limiter: how long a call sleeps *)
(* ================================================================== *)

Module PacingFacts.
Import RateLimiter RateLimiterFacts Properties.
#[local] Open Scope Q_scope.

Lemma timely_init (t0 : Q) : timely (init, t0).
Proof. constructor. Qed.

Lemma prune_timely (now clock : Q) (l : list Q) :
  Forall (fun t => t <= clock) l -> Forall (fun t => t <= clock) (prune now l).
Proof.
  intro H. apply Forall_forall. intros t Hin. unfold prune in Hin.
  apply filter_In in Hin. destruct Hin as [Hin _].
  rewrite Forall_forall in H. exact (H t Hin).
Qed.

Lemma timely_later (clock clock' : Q) (l : list Q) :
  clock <= clock' -> Forall (fun t => t <= clock) l -> Forall (fun t => t <= clock') l.
Proof.
  intros Hle H. eapply Forall_impl; [| exact H]. cbv beta. intros t Ht. lra.
Qed.

(** One call from a state that is bounded and holds no future timestamp: the
    call returns, keeps both properties and sleeps at least 0.2 and at most
    65 seconds. *)
Lemma step_sleeps (st : State) (c : Call) :
  well_formed c -> bounded st -> timely st ->
  exists st', step st c = Some st' /\ bounded st' /\ timely st' /\
              0.2 <= snd st' - (snd st + gap c) <= 65.
Proof.
  intros Hc Hb Ht.
  destruct (step_bounded st c Hc Hb) as (st' & Hstep & Hb').
  exists st'. split; [exact Hstep |]. split; [exact Hb' |].
  destruct st as [self clock]. destruct Hc as (Hgap & Hd1 & Hd2).
  destruct Hb as (Hlast & Hmax & Hwin). simpl in Hlast, Hmax, Hwin.
  unfold timely in Ht. simpl in Ht.
  unfold step, wait_if_needed in Hstep. rewrite Hlast, Hmax in Hstep.
  simpl cooling_down in Hstep. cbv iota in Hstep.
  set (now := clock + gap c) in *.
  assert (Hpr : Forall (fun t => t <= now) (prune now (request_times self))).
  { apply prune_timely. apply (timely_later clock); [unfold now; lra | exact Ht]. }
  destruct (50 <=? List.length (prune now (request_times self)))%nat eqn:Hfull.
  - destruct (prune now (request_times self)) as [| t0 rest] eqn:Hp;
      [discriminate |].
    pose proof (prune_head_recent _ _ _ _ Hp) as Hrecent.
    assert (Ht0 : t0 <= now) by (inversion Hpr; assumption).
    assert (Hpos : Qltb 0 (65 - (now - t0)) = true) by (apply Qltb_iff; lra).
    rewrite Hpos in Hstep. injection Hstep as <-.
    split.
    + unfold timely. cbn [fst snd request_times].
      change (t0 :: rest ++ [now])%list with ((t0 :: rest) ++ [now])%list.
      apply Forall_app. split.
      * apply (timely_later now); [lra | exact Hpr].
      * constructor; [lra | constructor].
    + simpl. fold now. lra.
  - injection Hstep as <-. split.
    + unfold timely. simpl. apply Forall_app. split.
      * apply (timely_later now); [lra | exact Hpr].
      * constructor; [lra | constructor].
    + simpl. fold now. lra.
Qed.

Lemma run_timely (calls : list Call) :
  Forall well_formed calls ->
  forall st, bounded st -> timely st ->
  exists st', run calls st = Some st' /\ bounded st' /\ timely st'.
Proof.
  induction 1 as [| c calls Hc _ IH]; intros st Hb Ht.
  - exists st. auto.
  - destruct (step_sleeps st c Hc Hb Ht) as (st1 & Hstep & Hb1 & Ht1 & _).
    destruct (IH st1 Hb1 Ht1) as (st' & Hrun & H').
    exists st'. split; [| exact H']. simpl. rewrite Hstep. exact Hrun.
Qed.

(** A limiter used by one sequential caller from its creation on: whatever
    calls came before, the next call returns after sleeping at least 0.2
    seconds and at most 65 seconds. *)
Theorem every_call_sleeps_at_most_65s (calls : list Call) (c : Call) (t0 : Q) :
  Forall well_formed calls -> well_formed c ->
  exists st st',
    run calls (init, t0) = Some st /\ step st c = Some st' /\
    0.2 <= snd st' - (snd st + gap c) <= 65.
Proof.
  intros Hcalls Hc.
  destruct (run_timely calls Hcalls (init, t0) (bounded_init t0) (timely_init t0))
    as (st & Hrun & Hb & Ht).
  destruct (step_sleeps st c Hc Hb Ht) as (st' & Hstep & _ & _ & Hsleep).
  exists st, st'. auto.
Qed.

Lemma every_call_sleeps_at_most_65s_witness :
  let c := mkCall 0 1 0.2 in
  Forall well_formed (repeat c 50) /\ well_formed c /\
  exists st st',
    run (repeat c 50) (init, 0) = Some st /\ step st c = Some st' /\
    0.2 <= snd st' - (snd st + gap c) <= 65.
Proof.
  assert (Hc : well_formed (mkCall 0 1 0.2)).
  { unfold well_formed. simpl. lra. }
  cbv zeta. split; [apply Forall_forall; intros x Hx; apply repeat_spec in Hx;
                    subst x; exact Hc |].
  split; [exact Hc |].
  exact (every_call_sleeps_at_most_65s (repeat (mkCall 0 1 0.2) 50) (mkCall 0 1 0.2) 0
           (proj2 (Forall_forall _ _)
              (fun x Hx => eq_ind_r well_formed Hc (repeat_spec _ _ _ Hx))) Hc).
Defined.

End PacingFacts.

(* ================================================================== *)
(** ** Synchronisation with the ledger when every service answers *)
(* ================================================================== *)

Module SyncFacts.
Import Py Cloud Logic RunFacts AzureFunctions PipelineFacts ContactFacts.
Import NotConfiguredFacts NewContactFacts Properties Examples.

Section WithEnv.
Variable E : Env.

Hypothesis no_fault : forall i, fault E i = false.
Hypothesis accepted : forall i, http_ok E i = true.
Hypothesis ids_issued : forall i, ledger_id E i <> "".

Lemma http_accepted {A : Type} (ev : Event) (body : World -> A) (effect : World -> World)
  (w : World) :
  http E ev body effect w
  = (Ok (true, body (set_clock (clock w + latency E (List.length (log w)))%Q w)),
     set_log (log (effect (set_clock (clock w + latency E (List.length (log w)))%Q w))
              ++ [(ev, true)])
       (effect (set_clock (clock w + latency E (List.length (log w)))%Q w))).
Proof.
  unfold http. rewrite (call_returns E no_fault). cbn [log set_clock].
  rewrite accepted. reflexivity.
Qed.

Lemma get_xero_integration_run (tenant_id : string) (cfg : IntegrationDoc.t) (w : World) :
  lookup IntegrationDoc.id IntegrationDoc.tenantId ("xero-" ++ tenant_id) tenant_id
         (integrations (db w)) = Some cfg ->
  get_xero_integration E tenant_id w
  = (Ok (Some cfg),
     set_log (log w ++ [(ReadItem Integrations ("xero-" ++ tenant_id) tenant_id, true)])
       (set_clock (clock w + latency E (List.length (log w)))%Q w)).
Proof.
  intro H. unfold get_xero_integration, try_except, bind, read_integration, read_item.
  rewrite (call_returns E no_fault). cbn [db set_clock]. rewrite H. reflexivity.
Qed.

Lemma update_receipt_xero_info_ok (receipt_id : string) (invoice_id : option string)
  (xero_status : string) (d : ReceiptDoc.t) (w : World) :
  lookup ReceiptDoc.id ReceiptDoc.tenantId receipt_id (Str.split_head "-" receipt_id)
         (receipts (db w)) = Some d ->
  exists w1,
    update_receipt_xero_info E receipt_id invoice_id xero_status w = (Ok tt, w1) /\
    receipts (db w1)
    = replace_doc ReceiptDoc.id ReceiptDoc.tenantId receipt_id
        (ReceiptDoc.with_xero invoice_id xero_status d) (receipts (db w)) /\
    ledger w1 = ledger w.
Proof.
  intro H. destruct (lookup_fields _ _ _ _ _ _ H) as [Hid Hpk].
  unfold update_receipt_xero_info, try_except, bind, read_receipt, read_item.
  rewrite (call_returns E no_fault). cbn [db set_clock]. rewrite H.
  unfold replace_receipt, replace_item.
  rewrite (call_returns E no_fault).
  cbn [db set_clock set_log ReceiptDoc.with_xero ReceiptDoc.tenantId].
  rewrite Hpk, H. eexists. split; [reflexivity |]. split; reflexivity.
Qed.

Lemma exact_match_found (merchant_name : string) (found : list Contact) (contact_id : string) :
  exact_match merchant_name found = Some contact_id ->
  exists c, In c found /\ ContactID c = contact_id /\
            Str.upper (Name c) = Str.upper merchant_name.
Proof.
  unfold exact_match.
  destruct (find _ found) as [c |] eqn:Hf; [| discriminate].
  intro H. injection H as <-. apply find_some in Hf. destruct Hf as [Hin Heq].
  apply String.eqb_eq in Heq. exists c. auto.
Qed.

(** The contact step: it yields the identifier of a contact of the
    organisation whose name is the merchant's up to case, found or created. *)
Lemma contact_resolved (access_token xero_tenant_id merchant_name : string) (w : World) :
  (0 < RateLimiter.max_requests_per_minute (rate_limiter w))%nat ->
  (forall c, In c (contacts (ledger w)) -> ContactID c <> "") ->
  exists contact_id w1,
    create_or_get_xero_contact E access_token xero_tenant_id merchant_name w
    = (Ok (Some contact_id), w1) /\
    contact_id <> "" /\
    (exists c, In c (contacts (ledger w1)) /\ ContactID c = contact_id /\
               ContactOrg c = xero_tenant_id /\
               Str.upper (Name c) = Str.upper merchant_name) /\
    db w1 = db w /\ invoices (ledger w1) = invoices (ledger w) /\
    (0 < RateLimiter.max_requests_per_minute (rate_limiter w1))%nat.
Proof.
  intros Hmax Hids. unfold create_or_get_xero_contact, try_except.
  unfold bind at 1.
  destruct (wait_only_waits E w Hmax) as (w1 & -> & HL1 & HD1 & HS1 & HV1 & HG1 & HO1 & HM1).
  unfold bind at 1. rewrite http_accepted. cbv beta iota.
  cbn [ledger set_clock]. rewrite HG1.
  destruct (exact_match merchant_name _) as [contact_id |] eqn:Hm.
  - apply exact_match_found in Hm. destruct Hm as (c & Hin & Hid & Hname).
    apply filter_In in Hin. destruct Hin as [Hin Hkeep].
    apply andb_true_iff in Hkeep. destruct Hkeep as [Horg _].
    apply String.eqb_eq in Horg.
    unfold ret. eexists _, _. split; [reflexivity |].
    cbn [db ledger rate_limiter set_log set_clock].
    split; [rewrite <- Hid; apply Hids; exact Hin |].
    split; [exists c; rewrite HG1; auto |].
    split; [exact HD1 |]. split; [rewrite HG1; reflexivity |]. rewrite HM1. exact Hmax.
  - unfold bind at 1.
    match goal with
    | |- context [wait_if_needed E ?w2] =>
        destruct (wait_only_waits E w2) as (w3 & -> & HL3 & HD3 & HS3 & HV3 & HG3 & HO3 & HM3)
    end.
    { cbn [rate_limiter set_log set_clock]. rewrite HM1. exact Hmax. }
    unfold bind at 1. unfold next_index at 1. cbv beta iota.
    unfold bind at 1. rewrite http_accepted. cbv beta iota. unfold ret.
    eexists _, _. split; [reflexivity |].
    cbn [db ledger rate_limiter set_log set_clock set_ledger set_contacts contacts invoices
         ContactID ContactOrg Name].
    split; [apply ids_issued |].
    split.
    { eexists. split; [apply in_or_app; right; left; reflexivity |].
      cbn [ContactID ContactOrg Name]. auto. }
    cbn [db ledger rate_limiter set_log set_clock] in HD3, HG3, HM3.
    split; [congruence |]. split; [congruence |]. rewrite HM3, HM1. exact Hmax.
Qed.

(** The invoice step: one draft bill with the given lines is added. *)
Lemma invoice_created (access_token xero_tenant_id contact_id : string)
  (receipt_data : Extraction.ReceiptData) (lines : list LineItem) (w : World) :
  (0 < RateLimiter.max_requests_per_minute (rate_limiter w))%nat ->
  line_items receipt_data = Some lines ->
  exists w1,
    create_xero_invoice E access_token xero_tenant_id receipt_data contact_id w
    = (Ok (Some (ledger_id E (List.length (log w)))), w1) /\
    invoices (ledger w1)
    = invoices (ledger w)
      ++ [ bill_of xero_tenant_id (ledger_id E (List.length (log w))) contact_id
                   receipt_data lines ] /\
    contacts (ledger w1) = contacts (ledger w) /\ db w1 = db w.
Proof.
  intros Hmax Hlines. unfold create_xero_invoice, try_except.
  unfold bind at 1.
  destruct (wait_only_waits E w Hmax) as (w1 & -> & HL1 & HD1 & HS1 & HV1 & HG1 & HO1 & HM1).
  rewrite Hlines. unfold bind at 1. unfold ret at 1. cbv beta iota.
  unfold bind at 1. unfold next_index at 1. cbv beta iota.
  unfold bind. rewrite http_accepted. cbv beta iota. unfold ret.
  eexists. split; [rewrite HL1; reflexivity |].
  cbn [db ledger set_log set_clock set_ledger set_invoices contacts invoices].
  rewrite ?HL1, ?HG1, ?HD1. unfold bill_of. auto.
Qed.

Lemma nonempty_of (s : string) : s <> "" -> nonempty (Some s) = Some s.
Proof. destruct s; [congruence | reflexivity]. Qed.

(** A receipt of a tenant with an integration record that names the ledger
    organisation and a stored token that is still valid, when no service call
    fails and the ledger accepts every request: the run returns [True], the
    ledger holds one more bill and no other new one, namely a draft bill in
    the organisation with the lines of the receipt for a contact of the
    organisation that has the merchant's name up to case, and the receipt
    record carries that bill's identifier and the status "success". *)
Theorem accepted_receipt_becomes_one_draft_bill (tenant_id receipt_id tok : string)
  (receipt_data : Extraction.ReceiptData) (cfg : IntegrationDoc.t) (org : string)
  (kv : string * TokenData) (expires : Q) (lines : list LineItem)
  (d : ReceiptDoc.t) (w : World) :
  (0 < RateLimiter.max_requests_per_minute (rate_limiter w))%nat ->
  lookup IntegrationDoc.id IntegrationDoc.tenantId ("xero-" ++ tenant_id) tenant_id
         (integrations (db w)) = Some cfg ->
  IntegrationDoc.xeroTenantId cfg = Some org ->
  find (fun kv => String.eqb (fst kv) ("xero-token-" ++ tenant_id)) (vault w) = Some kv ->
  access_token (snd kv) = Some tok -> tok <> "" ->
  expires_at (snd kv) = Some expires ->
  (clock w + latency E (List.length (log w)) + latency E (S (List.length (log w)))
   < expires - 300)%Q ->
  (forall c, In c (contacts (ledger w)) -> ContactID c <> "") ->
  line_items receipt_data = Some lines ->
  lookup ReceiptDoc.id ReceiptDoc.tenantId receipt_id (Str.split_head "-" receipt_id)
         (receipts (db w)) = Some d ->
  exists contact_id invoice_id w',
    process_to_xero E tenant_id receipt_data receipt_id w = (Ok true, w') /\
    invoices (ledger w')
    = invoices (ledger w) ++ [ bill_of org invoice_id contact_id receipt_data lines ] /\
    (exists c, In c (contacts (ledger w')) /\ ContactID c = contact_id /\
               ContactOrg c = org /\
               Str.upper (Name c) = Str.upper (Extraction.merchant receipt_data)) /\
    receipts (db w')
    = replace_doc ReceiptDoc.id ReceiptDoc.tenantId receipt_id
        (ReceiptDoc.with_xero (Some invoice_id) "success" d) (receipts (db w)).
Proof.
  intros Hmax Hcfg Horg Hfind Htok Hne Hexp Hvalid Hids Hlines Hd.
  unfold process_to_xero, try_except.
  unfold bind at 1. rewrite (get_xero_integration_run _ _ _ Hcfg).
  unfold bind at 1.
  rewrite (TenantFacts.stored_token_run E tenant_id cfg kv tok expires);
    [| cbn [log set_log set_clock]; apply no_fault
     | exact Hfind | exact Htok | exact Hexp
     | cbn [log clock set_log set_clock]; rewrite length_app, Nat.add_1_r; exact Hvalid ].
  rewrite (nonempty_of tok Hne). rewrite Horg.
  unfold bind at 1. unfold item at 1. unfold ret at 1. cbv beta iota.
  unfold bind at 1.
  match goal with
  | |- context [create_or_get_xero_contact E tok org ?m ?w2] =>
      destruct (contact_resolved tok org m w2)
        as (contact_id & w3 & -> & Hcne & Hc & HD3 & HI3 & HM3)
  end.
  { exact Hmax. }
  { exact Hids. }
  rewrite (nonempty_of contact_id Hcne).
  unfold bind at 1.
  destruct (invoice_created tok org contact_id receipt_data lines w3 HM3 Hlines)
    as (w4 & -> & HI4 & HC4 & HD4).
  rewrite (nonempty_of _ (ids_issued _)).
  unfold bind at 1.
  cbn [db ledger set_log set_clock] in HD3, HI3.
  destruct (update_receipt_xero_info_ok receipt_id
              (Some (ledger_id E (List.length (log w3)))) "success" d w4)
    as (w5 & -> & HR5 & HG5).
  { rewrite HD4, HD3. exact Hd. }
  unfold ret.
  exists contact_id, (ledger_id E (List.length (log w3))), w5.
  split; [reflexivity |].
  split; [rewrite HG5, HI4, HI3; reflexivity |].
  split.
  - destruct Hc as (c & Hin & Hc). exists c. rewrite HG5, HC4. auto.
  - rewrite HR5, HD4, HD3. reflexivity.
Qed.

(** An integration record without [xeroTenantId], with a stored token that
    is still valid: the run returns [False], the receipt record gets the
    status "error" and no bill identifier, and the ledger is left as it was. *)
Theorem missing_organisation_marks_error (tenant_id receipt_id tok : string)
  (receipt_data : Extraction.ReceiptData) (cfg : IntegrationDoc.t)
  (kv : string * TokenData) (expires : Q) (d : ReceiptDoc.t) (w : World) :
  lookup IntegrationDoc.id IntegrationDoc.tenantId ("xero-" ++ tenant_id) tenant_id
         (integrations (db w)) = Some cfg ->
  IntegrationDoc.xeroTenantId cfg = None ->
  find (fun kv => String.eqb (fst kv) ("xero-token-" ++ tenant_id)) (vault w) = Some kv ->
  access_token (snd kv) = Some tok -> tok <> "" ->
  expires_at (snd kv) = Some expires ->
  (clock w + latency E (List.length (log w)) + latency E (S (List.length (log w)))
   < expires - 300)%Q ->
  lookup ReceiptDoc.id ReceiptDoc.tenantId receipt_id (Str.split_head "-" receipt_id)
         (receipts (db w)) = Some d ->
  exists w',
    process_to_xero E tenant_id receipt_data receipt_id w = (Ok false, w') /\
    ledger w' = ledger w /\
    receipts (db w')
    = replace_doc ReceiptDoc.id ReceiptDoc.tenantId receipt_id
        (ReceiptDoc.with_xero None "error" d) (receipts (db w)).
Proof.
  intros Hcfg Horg Hfind Htok Hne Hexp Hvalid Hd.
  unfold process_to_xero, try_except.
  unfold bind at 1. rewrite (get_xero_integration_run _ _ _ Hcfg).
  unfold bind at 1.
  rewrite (TenantFacts.stored_token_run E tenant_id cfg kv tok expires);
    [| cbn [log set_log set_clock]; apply no_fault
     | exact Hfind | exact Htok | exact Hexp
     | cbn [log clock set_log set_clock]; rewrite length_app, Nat.add_1_r; exact Hvalid ].
  rewrite (nonempty_of tok Hne). rewrite Horg.
  unfold bind at 1. unfold item at 1. unfold raise at 1. cbv beta iota.
  unfold bind at 1.
  match goal with
  | |- context [update_receipt_xero_info E receipt_id None "error" ?w2] =>
      destruct (update_receipt_xero_info_ok receipt_id None "error" d w2)
        as (w3 & -> & HR3 & HG3)
  end.
  { exact Hd. }
  unfold ret. exists w3. split; [reflexivity |].
  split; [exact HG3 | exact HR3].
Qed.

End WithEnv.

Lemma quiet_ids_issued (i : nat) : ledger_id quiet i <> "".
Proof. intro H. discriminate H. Defined.

Lemma accepted_receipt_becomes_one_draft_bill_witness :
  exists contact_id invoice_id w',
    process_to_xero quiet "acme" Scenarios.cafe_receipt "acme-900-1" connected_world
    = (Ok true, w') /\
    invoices (ledger w')
    = [ bill_of "org-1" invoice_id contact_id Scenarios.cafe_receipt
          [ mkLineItem "Corner Cafe - 2024-05-01T09:30:00" (PyInt 1) 110%float "310"
                       "INPUT" ] ] /\
    (exists c, In c (contacts (ledger w')) /\ ContactID c = contact_id /\
               ContactOrg c = "org-1" /\ Str.upper (Name c) = "CORNER CAFE") /\
    receipts (db w')
    = [ ReceiptDoc.with_xero (Some invoice_id) "success" synced_receipt; failed_receipt ].
Proof.
  refine (accepted_receipt_becomes_one_draft_bill quiet (fun _ => eq_refl) (fun _ => eq_refl)
            quiet_ids_issued "acme" "acme-900-1" "token" Scenarios.cafe_receipt
            (integration "acme" "org-1") "org-1" ("xero-token-acme", valid_token)
            100000%Q _ synced_receipt connected_world _ eq_refl eq_refl eq_refl eq_refl _
            eq_refl eq_refl _ eq_refl eq_refl).
  - simpl. lia.
  - discriminate.
  - intros c [<- | []]. discriminate.
Defined.

Lemma missing_organisation_marks_error_witness :
  exists w',
    process_to_xero quiet "acme" Scenarios.cafe_receipt "acme-900-1"
      Scenarios.unlinked_world = (Ok false, w') /\
    ledger w' = ledger Scenarios.unlinked_world /\
    receipts (db w')
    = [ ReceiptDoc.with_xero None "error" synced_receipt; failed_receipt ].
Proof.
  refine (missing_organisation_marks_error quiet (fun _ => eq_refl) "acme" "acme-900-1"
            "token" Scenarios.cafe_receipt
            (IntegrationDoc.mk "xero-acme" "acme" "client" "secret" None)
            ("xero-token-acme", valid_token) 100000%Q synced_receipt
            Scenarios.unlinked_world eq_refl eq_refl eq_refl eq_refl _ eq_refl eq_refl
            eq_refl).
  discriminate.
Defined.

End SyncFacts.
